(** * Binary-option backtest engine: a shallow embedding and its properties

    The Python sources embedded here are [backtest.py],
    [backtest_combined.py], [experiment_timed_exit.py],
    [experiment_conservative.py] and [backtest_interwindow.py].

    Number model.  Python [float] values are read as real numbers ([R]):
    [+ - * /] are the field operations, [math.sqrt] is [sqrt], [math.exp]
    is [exp], [math.floor] is [Zfloor], and comparisons are the order of
    [R].  Rounding error, infinities and NaN of IEEE-754 arithmetic are
    outside this model, so the properties are stated in a form that
    rounding keeps: through comparisons and monotone steps of the code's
    own expressions, and with an explicit tolerance where the exact
    identity of real arithmetic is lost in binary64.  Where a statement of
    the specification fails by rounding alone, the module [Binary64]
    evaluates the source expression on primitive binary64 floats.  Python
    [int] values (timestamps, loop counters, strikes, contract counts) are
    [Z] and are injected with [IZR] where the source mixes them with
    floats.  A Python exception is a [None] result. *)

From Stdlib Require Import Reals Lra Lia ZArith.
From Stdlib Require Floats.
From stdpp Require Import base decidable option list strings gmap sorting.

Open Scope R_scope.

(** ** Python primitives *)

#[global] Instance Rlt_decision (x y : R) : Decision (x < y) := Rlt_dec x y.
#[global] Instance Rle_decision (x y : R) : Decision (x <= y) := Rle_dec x y.
#[global] Instance Rgt_decision (x y : R) : Decision (x > y) := Rgt_dec x y.
#[global] Instance Rge_decision (x y : R) : Decision (x >= y) := Rge_dec x y.
#[global] Instance Req_decision : EqDecision R := Req_dec_T.

(** [max(a, b)] and [min(a, b)] on numbers. *)
Definition py_max (a b : R) : R := if decide (b > a) then b else a.
Definition py_min (a b : R) : R := if decide (b < a) then b else a.

(** [max(a, b, c)] and [min(a, b, c)]: a left-to-right scan. *)
Definition py_max3 (a b c : R) : R := py_max (py_max a b) c.
Definition py_min3 (a b c : R) : R := py_min (py_min a b) c.

(** [round(x)]: nearest integer, ties to the even one. *)
Definition py_round (x : R) : Z :=
  let n := Zfloor x in
  let f := x - IZR n in
  if decide (f < 1/2) then n
  else if decide (f > 1/2) then (n + 1)%Z
  else if Z.even n then n else (n + 1)%Z.

(** [round(x, 2)]: nearest multiple of one cent, ties to even. *)
Definition py_round2 (x : R) : R := IZR (py_round (x * 100)) / 100.

(** [l[-n:]] for a positive [n]: the last [n] elements of [l]. *)
Definition py_last_n {A} (n : nat) (l : list A) : list A :=
  drop (length l - n) l.

(** [l[lo:hi]] for non-negative bounds. *)
Definition py_slice {A} (lo hi : nat) (l : list A) : list A :=
  take (hi - lo) (drop lo l).

(** [sum(xs)] over floats. *)
Definition py_sum (xs : list R) : R := foldl Rplus 0 xs.

(** ** Candles *)

Record Candle := mkCandle {
  open_time : Z;
  c_open : R;
  c_high : R;
  c_low : R;
  c_close : R;
  c_volume : R;
  close_time : Z
}.

(** The candle invariant: the high is at least the larger of open and
    close, the low at most the smaller, and the volume is not negative. *)
Definition candle_ok (c : Candle) : Prop :=
  c_high c >= py_max (c_open c) (c_close c)
  /\ c_low c <= py_min (c_open c) (c_close c)
  /\ c_volume c >= 0.

(** ** backtest.py *)

Module Backtest.

Definition calc_sma (candles : list Candle) (period : nat) : R :=
  if decide (length candles < period)%nat then 0
  else py_sum (c_close <$> py_last_n period candles) / INR period.

Definition calc_volatility (candle : Candle) : R :=
  if decide (c_open candle = 0) then 0
  else ((c_high candle - c_low candle) / c_open candle) * 100.

Definition calc_price_position (candle : Candle) : R :=
  let rng := c_high candle - c_low candle in
  if decide (rng = 0) then 50
  else ((c_close candle - c_low candle) / rng) * 100.

(** [candles[-3]] raises IndexError on fewer than three candles, but the
    length test comes first. *)
Definition calc_momentum_3h (candles : list Candle) (current_price : R) : R :=
  if decide (length candles < 3)%nat then 0
  else match py_last_n 3 candles with
       | c :: _ =>
           let three_ago := c_close c in
           if decide (three_ago = 0) then 0
           else ((current_price - three_ago) / three_ago) * 100
       | [] => 0
       end.

Definition calc_hour_return (candle : Candle) (current_price : R) : R :=
  if decide (c_open candle = 0) then 0
  else ((current_price - c_open candle) / c_open candle) * 100.

Definition STRIKE_INCREMENT : Z := 250.

Inductive strike_type := ATM | OTM.

Definition calc_strike (btc_price : R) (st : strike_type) : Z :=
  match st with
  | ATM => (py_round (btc_price / IZR STRIKE_INCREMENT) * STRIKE_INCREMENT)%Z
  | OTM => (Zfloor (btc_price / IZR STRIKE_INCREMENT) * STRIKE_INCREMENT)%Z
  end.

Definition TAKER_FEE_PCT : R := 1.5.

(** The fee charged on a notional amount (the [entry_fee] and [exit_fee]
    expressions of [calc_net_pnl]). *)
Definition taker_fee (notional : R) : R := notional * (TAKER_FEE_PCT / 100).

(** The [exit_type] argument is a string; only ["early"] is tested. *)
Definition calc_net_pnl (contracts entry_price exit_price : R)
    (exit_type : string) : R :=
  let entry_cost := contracts * entry_price in
  let entry_fee := entry_cost * (TAKER_FEE_PCT / 100) in
  let total_entry_cost := entry_cost + entry_fee in
  let exit_revenue := contracts * exit_price in
  if decide (exit_type = "early"%string) then
    let exit_fee := exit_revenue * (TAKER_FEE_PCT / 100) in
    (exit_revenue - exit_fee) - total_entry_cost
  else exit_revenue - total_entry_cost.

(** The z-score that [calc_risk_of_ruin] buckets. *)
Definition ror_z (current_price strike volatility minutes_remaining : R) : R :=
  let distance := current_price - strike in
  let time_hours := minutes_remaining / 60 in
  let expected_move :=
    current_price * (volatility / 100) * sqrt (py_max time_hours 0.01) in
  if decide (expected_move > 0) then distance / expected_move else 0.

Definition ror_lookup (z : R) : R :=
  if decide (z <= -2) then 0.98
  else if decide (z <= -1) then 0.84
  else if decide (z <= -0.5) then 0.69
  else if decide (z <= 0) then 0.5
  else if decide (z <= 0.5) then 0.31
  else if decide (z <= 1) then 0.16
  else if decide (z <= 1.5) then 0.07
  else if decide (z <= 2) then 0.02
  else 0.01.

Definition calc_risk_of_ruin
    (current_price strike volatility minutes_remaining : R) : R :=
  ror_lookup (ror_z current_price strike volatility minutes_remaining).

Definition estimate_contract_price
    (distance_from_strike minutes_remaining : R) : R :=
  if decide (distance_from_strike <= 0) then 0.30
  else
    let base := py_min 0.95 (0.5 + distance_from_strike / 1000) in
    let time_mult := 1 + (60 - minutes_remaining) / 120 in
    py_min 0.99 (base * time_mult).

Inductive outcome :=
  | no_data
  | win
  | loss
  | early_exit_critical
  | early_exit_ev
  | early_exit_high_risk.

#[global] Instance outcome_eq_dec : EqDecision outcome.
Proof. solve_decision. Defined.

(** ["early_exit" in outcome]. *)
Definition is_early_exit (o : outcome) : bool :=
  match o with
  | early_exit_critical | early_exit_ev | early_exit_high_risk => true
  | _ => false
  end.

(** The outcomes of a trade that was simulated. *)
Definition resolved_outcomes : list outcome :=
  [win; loss; early_exit_critical; early_exit_ev; early_exit_high_risk].

(** The values of the z-score table of [calc_risk_of_ruin]. *)
Definition ror_values : list R :=
  [0.98; 0.84; 0.69; 0.5; 0.31; 0.16; 0.07; 0.02; 0.01].

(** The dict returned by [simulate_trade]; absent keys are [None]. *)
Record TradeResult := mkTradeResult {
  tr_outcome : outcome;
  tr_pnl : R;
  tr_settlement_price : option R;
  tr_exit_reason : option string
}.

Definition simulate_trade (entry_price strike contracts : R)
    (candles_after : list Candle) (volatility : R) : TradeResult :=
  match candles_after with
  | [] => mkTradeResult no_data 0 None None
  | settlement_candle :: _ =>
    let settlement_price := c_close settlement_candle in
    (* check at the 30 minute mark *)
    let mid_price := (c_open settlement_candle + c_close settlement_candle) / 2 in
    let distance_mid := mid_price - strike in
    let min_remaining := 30 in
    let ror := calc_risk_of_ruin mid_price strike volatility min_remaining in
    let implied_price := estimate_contract_price distance_mid min_remaining in
    let early_exit_pnl := calc_net_pnl contracts entry_price implied_price "early" in
    let win_prob := 1 - ror in
    let settle_win_pnl := calc_net_pnl contracts entry_price 1.0 "settlement" in
    let settle_lose_pnl := calc_net_pnl contracts entry_price 0.0 "settlement" in
    let settle_ev := win_prob * settle_win_pnl + ror * settle_lose_pnl in
    if decide (ror >= 0.5) then
      mkTradeResult early_exit_critical early_exit_pnl
        (Some settlement_price) (Some "critical_risk"%string)
    else if decide (settle_ev < early_exit_pnl /\ early_exit_pnl > 0) then
      mkTradeResult early_exit_ev early_exit_pnl
        (Some settlement_price) (Some "negative_ev_hold"%string)
    else
      (* check at the 50 minute mark, 10 minutes remaining *)
      let late_price := c_close settlement_candle in
      let late_distance := late_price - strike in
      let late_ror := calc_risk_of_ruin late_price strike volatility 10 in
      let hold :=
        if decide (settlement_price > strike) then
          mkTradeResult win (calc_net_pnl contracts entry_price 1.0 "settlement")
            (Some settlement_price) None
        else
          mkTradeResult loss (calc_net_pnl contracts entry_price 0.0 "settlement")
            (Some settlement_price) None in
      if decide (late_ror >= 0.3) then
        let late_implied := estimate_contract_price late_distance 10 in
        let late_exit_pnl := calc_net_pnl contracts entry_price late_implied "early" in
        let late_win_prob := 1 - late_ror in
        let late_settle_ev :=
          late_win_prob * settle_win_pnl + late_ror * settle_lose_pnl in
        if decide (late_settle_ev <= late_exit_pnl * 1.2) then
          mkTradeResult early_exit_high_risk late_exit_pnl
            (Some settlement_price) (Some "high_risk_late"%string)
        else hold
      else hold
  end.

(** The tests of the three checkpoints of [simulate_trade] on the
    settlement candle, as the source writes them: [ror >= 0.5] at the 30
    minute mark. *)
Definition critical_risk (strike volatility : R) (sc : Candle) : Prop :=
  calc_risk_of_ruin ((c_open sc + c_close sc) / 2) strike volatility 30 >= 0.5.

(** [settle_ev < early_exit_pnl and early_exit_pnl > 0]. *)
Definition negative_ev_hold (entry_price strike contracts volatility : R)
    (sc : Candle) : Prop :=
  let mid_price := (c_open sc + c_close sc) / 2 in
  let ror := calc_risk_of_ruin mid_price strike volatility 30 in
  let implied_price := estimate_contract_price (mid_price - strike) 30 in
  let early_exit_pnl := calc_net_pnl contracts entry_price implied_price "early" in
  let settle_win_pnl := calc_net_pnl contracts entry_price 1.0 "settlement" in
  let settle_lose_pnl := calc_net_pnl contracts entry_price 0.0 "settlement" in
  let settle_ev := (1 - ror) * settle_win_pnl + ror * settle_lose_pnl in
  settle_ev < early_exit_pnl /\ early_exit_pnl > 0.

(** [late_ror >= 0.3] and [late_settle_ev <= late_exit_pnl * 1.2] at the 50
    minute mark. *)
Definition high_risk_late (entry_price strike contracts volatility : R)
    (sc : Candle) : Prop :=
  let late_price := c_close sc in
  let late_ror := calc_risk_of_ruin late_price strike volatility 10 in
  let late_implied := estimate_contract_price (late_price - strike) 10 in
  let late_exit_pnl := calc_net_pnl contracts entry_price late_implied "early" in
  let settle_win_pnl := calc_net_pnl contracts entry_price 1.0 "settlement" in
  let settle_lose_pnl := calc_net_pnl contracts entry_price 0.0 "settlement" in
  let late_settle_ev := (1 - late_ror) * settle_win_pnl + late_ror * settle_lose_pnl in
  late_ror >= 0.3 /\ late_settle_ev <= late_exit_pnl * 1.2.

(** Example settlement candle for a strike of 50000 and a volatility of
    0.5: it trades 150 above the strike at the 30 minute mark and closes 10
    below it, so no checkpoint fires and the trade is held to a loss. *)
Definition held_candle : Candle :=
  mkCandle 0 50310 50350 49950 49990 1000 3599999.

End Backtest.

(** ** backtest.py on binary64 floats

    [calc_net_pnl] once more, over the IEEE 754 binary64 numbers that a
    Python [float] is, with the operations and their order as in the
    source.  Decimal literals denote the nearest binary64 number, as in
    Python. *)

Module Binary64.
Import PrimFloat.
#[local] Open Scope float_scope.

#[warnings="-inexact-float"]
Definition TAKER_FEE_PCT : float := 1.5.

Definition calc_net_pnl (contracts entry_price exit_price : float)
    (exit_type : string) : float :=
  let entry_cost := contracts * entry_price in
  let entry_fee := entry_cost * (TAKER_FEE_PCT / 100) in
  let total_entry_cost := entry_cost + entry_fee in
  let exit_revenue := contracts * exit_price in
  if decide (exit_type = "early"%string) then
    let exit_fee := exit_revenue * (TAKER_FEE_PCT / 100) in
    (exit_revenue - exit_fee) - total_entry_cost
  else exit_revenue - total_entry_cost.

End Binary64.

Module BacktestSignals.
Import Backtest.

(** The dict returned by the two signal checks.  [sig_checks] and
    [sig_values] keep the key order of the source dict literals. *)
Record Signal := mkSignal {
  sig_signal : bool;
  sig_strike : option Z;
  sig_entry_price : R;
  sig_contracts : Z;
  sig_checks : list (string * bool);
  sig_values : list (string * R)
}.

(** [candles[-1]] raises IndexError on an empty window: the result is
    then [None]. *)
Definition check_conservative (candles : list Candle) (current_price : R)
    (hour_utc : Z) (min_strike_distance : R) : option Signal :=
  let is_market := bool_decide (14 <= hour_utc < 21)%Z in
  let sma3 := calc_sma candles 3 in
  let sma6 := calc_sma candles 6 in
  let sma12 := calc_sma candles 12 in
  lastc ← last candles;
  let vol := calc_volatility lastc in
  let pos := calc_price_position lastc in
  let short_trend :=
    bool_decide (sma3 > sma6)
    || (bool_decide (sma6 > 0) && bool_decide ((sma6 - sma3) / sma6 < 0.001)) in
  let medium_trend := bool_decide (sma6 > sma12) in
  let vol_ok := bool_decide (0.5 <= vol <= 2.0) in
  let strong := bool_decide (pos > 60) in
  let strike := calc_strike current_price OTM in
  let distance_to_strike := current_price - IZR strike in
  let strike_ok := bool_decide (distance_to_strike >= min_strike_distance) in
  let passed :=
    is_market && short_trend && medium_trend && vol_ok && strong && strike_ok in
  Some (mkSignal passed
          (if passed then Some strike else None)
          0.60
          (Zfloor (10 / 0.60))
          [("market_hours", is_market); ("short_trend", short_trend);
           ("medium_trend", medium_trend); ("volatility", vol_ok);
           ("position", strong); ("strike_distance", strike_ok)]%string
          [("sma3", sma3); ("sma6", sma6); ("sma12", sma12); ("vol", vol);
           ("pos", pos); ("strike_dist", distance_to_strike)]%string).

Definition check_aggressive (candles : list Candle) (current_price : R)
    (hour_utc : Z) (min_strike_distance : R) : option Signal :=
  let is_market := bool_decide (14 <= hour_utc < 21)%Z in
  let sma3 := calc_sma candles 3 in
  let sma6 := calc_sma candles 6 in
  let sma12 := calc_sma candles 12 in
  let mom := calc_momentum_3h candles current_price in
  lastc ← last candles;
  let hr := calc_hour_return lastc current_price in
  let short_trend :=
    bool_decide (sma3 > sma6)
    || (bool_decide (sma6 > 0) && bool_decide ((sma6 - sma3) / sma6 < 0.001)) in
  let medium_trend := bool_decide (sma6 > sma12) in
  let strong_mom := bool_decide (mom > 1.0) in
  let hour_up := bool_decide (hr > 0.3) in
  let strike := calc_strike current_price OTM in
  let distance_to_strike := current_price - IZR strike in
  let strike_ok := bool_decide (distance_to_strike >= min_strike_distance) in
  let passed :=
    is_market && short_trend && medium_trend && strong_mom && hour_up && strike_ok in
  Some (mkSignal passed
          (if passed then Some strike else None)
          0.40
          (Zfloor (20 / 0.40))
          [("market_hours", is_market); ("short_trend", short_trend);
           ("medium_trend", medium_trend); ("momentum", strong_mom);
           ("hour_return", hour_up); ("strike_distance", strike_ok)]%string
          [("sma3", sma3); ("sma6", sma6); ("sma12", sma12); ("mom", mom);
           ("hr", hr); ("strike_dist", distance_to_strike)]%string).

(** A check fires: it returns a dict whose ["signal"] entry is true. *)
Definition signal_fires (fn : list Candle -> R -> Z -> R -> option Signal)
    (candles : list Candle) (current_price : R) (hour_utc : Z)
    (min_strike_distance : R) : Prop :=
  exists sig, fn candles current_price hour_utc min_strike_distance = Some sig
              /\ sig_signal sig = true.

(** What [run_backtest] needs from a signal function: on a non-empty
    window it returns a dict, with a strike whenever it fires. *)
Definition well_behaved (fn : list Candle -> R -> Z -> R -> option Signal) : Prop :=
  forall candles price hour d,
    candles <> [] ->
    exists sig, fn candles price hour d = Some sig
                /\ (sig_signal sig = true -> is_Some (sig_strike sig)).

(** A signal function fires less often under a larger threshold. *)
Definition antitone_in_distance
    (fn : list Candle -> R -> Z -> R -> option Signal) : Prop :=
  forall candles price hour d1 d2,
    d1 <= d2 ->
    signal_fires fn candles price hour d2 ->
    signal_fires fn candles price hour d1.

(** The millisecond timestamps on which
    [datetime.fromtimestamp(open_time / 1000, tz=timezone.utc)] returns:
    from 0001-01-01 00:00:00.000 to 9999-12-31 23:59:59.999 UTC. *)
Definition timestamp_ok (open_time_ms : Z) : Prop :=
  (-62135596800000 <= open_time_ms <= 253402300799999)%Z.

(** [datetime.fromtimestamp(open_time / 1000, tz=timezone.utc).hour] for a
    millisecond timestamp; [None] is the ValueError (or OverflowError) that
    [fromtimestamp] raises for a time outside the years 1 to 9999. *)
Definition hour_utc_of (open_time_ms : Z) : option Z :=
  if decide (-62135596800000 <= open_time_ms <= 253402300799999)%Z
  then Some ((open_time_ms / 3600000) mod 24)%Z
  else None.

(** One entry of the [strategies] dict of [run_backtest]. *)
Record Strategy := mkStrategy {
  st_fn : list Candle -> R -> Z -> R -> option Signal;
  st_min_strike_dist : R
}.

(** The per-strategy results dict of [run_backtest], without the report
    books that are only written (monthly signal counts, failed-criteria
    counts, trade details). *)
Record Results := mkResults {
  r_signals : Z;
  r_trades : Z;
  r_wins : Z;
  r_losses : Z;
  r_early_exits : Z;
  r_total_pnl : R;
  r_max_drawdown : R;
  r_pnl_series : list R;
  r_win_pnls : list R;
  r_loss_pnls : list R;
  r_strike_dist_at_entry : list R
}.

Definition results_init : Results :=
  mkResults 0 0 0 0 0 0 0 [] [] [] [].

(** [max(xs)]: ValueError on an empty list. *)
Definition py_max_list (xs : list R) : option R :=
  match xs with
  | [] => None
  | x :: rest => Some (foldl py_max x rest)
  end.

(** [d.get(key, dflt)] on a dict kept as an association list. *)
Definition dict_get {A} (key : string) (dflt : A) (d : list (string * A)) : A :=
  match list_find (λ kv, fst kv = key) d with
  | Some (_, kv) => snd kv
  | None => dflt
  end.

(** The body of the loop of [run_backtest] for one strategy at index [i]. *)
Definition backtest_step (candles : list Candle) (cfg : Strategy)
    (r : Results) (i : nat) : option Results :=
  candle ← candles !! i;
  hour_utc ← hour_utc_of (open_time candle);
  let current_price := c_close candle in
  let history := py_slice (i - 12) (i + 1) candles in
  let candles_after := drop (i + 1) candles in
  let vol := calc_volatility candle in
  sig ← st_fn cfg history current_price hour_utc (st_min_strike_dist cfg);
  if sig_signal sig then
    (* a signal without a strike makes [simulate_trade] fail on [None] *)
    strike ← sig_strike sig;
    let dist := dict_get "strike_dist" 0 (sig_values sig) in
    let r1 := mkResults (r_signals r + 1) (r_trades r) (r_wins r) (r_losses r)
                (r_early_exits r) (r_total_pnl r) (r_max_drawdown r)
                (r_pnl_series r) (r_win_pnls r) (r_loss_pnls r)
                (r_strike_dist_at_entry r ++ [dist]) in
    let result := simulate_trade (sig_entry_price sig) (IZR strike)
                    (IZR (sig_contracts sig)) (take 2 candles_after) vol in
    if decide (tr_outcome result = no_data) then Some r1
    else
      let pnl := tr_pnl result in
      let total := r_total_pnl r1 + pnl in
      let series := r_pnl_series r1 ++ [total] in
      let early := if is_early_exit (tr_outcome result)
                   then (r_early_exits r1 + 1)%Z else r_early_exits r1 in
      let is_win := bool_decide (pnl >= 0) in
      peak ← py_max_list series;
      let dd := peak - total in
      Some (mkResults (r_signals r1) (r_trades r1 + 1)
              (if is_win then (r_wins r1 + 1)%Z else r_wins r1)
              (if is_win then r_losses r1 else (r_losses r1 + 1)%Z)
              early total
              (if decide (dd > r_max_drawdown r1) then dd else r_max_drawdown r1)
              series
              (if is_win then r_win_pnls r1 ++ [pnl] else r_win_pnls r1)
              (if is_win then r_loss_pnls r1 else r_loss_pnls r1 ++ [pnl])
              (r_strike_dist_at_entry r1))
  else Some r.

(** [for i in range(12, len(candles) - 1)], threaded through the error
    monad. *)
Definition run_backtest (candles : list Candle) (cfg : Strategy) : option Results :=
  foldl (λ acc i, acc ≫= λ r, backtest_step candles cfg r i)
        (Some results_init) (seq 12 (length candles - 1 - 12)).

(** Example window: eleven flat candles and a breakout candle that closes
    50 dollars above the strike at 50250. *)
Definition quiet_candle : Candle := mkCandle 0 50000 50000 50000 50000 1000 3599999.
Definition breakout_candle : Candle := mkCandle 0 49900 50400 49900 50300 1000 3599999.
Definition rising_window : list Candle := replicate 11 quiet_candle ++ [breakout_candle].

(** Example path: twelve flat candles, the breakout candle at 15h UTC of
    1970-01-01, on which the conservative check fires, and the candle of
    the following hour, on which the trade is resolved. *)
Definition breakout_at_15h : Candle :=
  mkCandle 54000000 49900 50400 49900 50300 1000 57599999.
Definition settle_at_16h : Candle :=
  mkCandle 57600000 50300 50320 50100 50150 1000 61199999.
Definition trade_path : list Candle :=
  replicate 12 quiet_candle ++ [breakout_at_15h; settle_at_16h].

End BacktestSignals.

(** ** The [random] module, as far as the generator uses it *)

(** A generator state with the two primitive draws [random.random()] and
    [random.gauss(mu, sigma)].  [random()] returns a float in [[0, 1)]. *)
Record RandomGen := mkRandomGen {
  rng_state : Type;
  rng_seed : Z -> rng_state;
  rng_random : rng_state -> R * rng_state;
  rng_gauss : R -> R -> rng_state -> R * rng_state;
  rng_random_range : forall s, 0 <= fst (rng_random s) < 1
}.

(** [random.uniform(a, b)] is [a + (b - a) * random()]. *)
Definition rng_uniform (G : RandomGen) (a b : R) (s : rng_state G)
    : R * rng_state G :=
  let '(u, s') := rng_random G s in (a + (b - a) * u, s').

(** [itertools.accumulate(weights)]. *)
Fixpoint accumulate_from (acc : R) (ws : list R) : list R :=
  match ws with
  | [] => []
  | w :: rest => (acc + w) :: accumulate_from (acc + w) rest
  end.

(** [bisect.bisect_right(a, x, 0, hi)] on a non-decreasing list: the number
    of entries among the first [hi] that are [<= x]. *)
Definition bisect_right (a : list R) (x : R) (hi : nat) : nat :=
  length (filter (λ c, c <= x) (take hi a)).

(** [random.choices(population, weights=weights, k=1)[0]]; ValueError on a
    non-positive total weight. *)
Definition rng_choices {A} (G : RandomGen) (population : list A)
    (weights : list R) (s : rng_state G) : option (A * rng_state G) :=
  let cum_weights := accumulate_from 0 weights in
  total ← last cum_weights;
  if decide (total <= 0) then None
  else
    let hi := (length population - 1)%nat in
    let '(u, s') := rng_random G s in
    x ← population !! bisect_right cum_weights (u * total) hi;
    Some (x, s').

(** An example generator: [random()] is always 1/2 and [gauss(mu, sigma)]
    is always [mu]; the state counts the draws. *)
Program Definition const_gen : RandomGen :=
  mkRandomGen nat (λ _, 0%nat) (λ s, (1/2, S s)) (λ mu _ s, (mu, S s)) _.
Next Obligation. intros s. cbn. lra. Qed.

Module BacktestData.

Inductive regime :=
  | bull_trend | strong_bull | ranging | bear_trend | selloff | recovery.

(** The [regimes] dict: (drift per hour, volatility multiplier, name). *)
Definition regimes (r : regime) : R * R * string :=
  match r with
  | bull_trend => (0.0004, 0.8, "bull"%string)
  | strong_bull => (0.0008, 1.2, "strong_bull"%string)
  | ranging => (0.0000, 0.6, "range"%string)
  | bear_trend => (-0.0003, 1.0, "bear"%string)
  | selloff => (-0.0010, 2.0, "selloff"%string)
  | recovery => (0.0006, 1.5, "recovery"%string)
  end.

Definition regime_names : list regime :=
  [bull_trend; strong_bull; ranging; bear_trend; selloff; recovery].

Definition transition_weights (current_regime : regime) : list R :=
  match current_regime with
  | bull_trend | strong_bull => [0.25; 0.15; 0.35; 0.15; 0.05; 0.05]
  | ranging => [0.25; 0.10; 0.30; 0.20; 0.05; 0.10]
  | bear_trend => [0.15; 0.05; 0.30; 0.25; 0.10; 0.15]
  | selloff => [0.10; 0.05; 0.15; 0.20; 0.20; 0.30]
  | recovery => [0.30; 0.15; 0.25; 0.15; 0.05; 0.10]
  end.

Definition base_hourly_vol : R := 0.009.

(** [int(datetime(2025, 2, 11, 0, 0, tzinfo=timezone.utc).timestamp() * 1000)]. *)
Definition start_ts : Z := 1739232000000.

(** The variables that the generator loop carries from hour to hour. *)
Record GenState (G : RandomGen) := mkGenState {
  g_price : R;
  g_regime : regime;
  g_duration : Z;
  g_rng : rng_state G;
  g_candles : list Candle
}.
Arguments mkGenState {G}.
Arguments g_price {G}.
Arguments g_regime {G}.
Arguments g_duration {G}.
Arguments g_rng {G}.
Arguments g_candles {G}.

(** One pass of [for h in range(hours)]. *)
Definition gen_step (G : RandomGen) (st : GenState G) (h : Z)
    : option (GenState G) :=
  let regime_duration := (g_duration st + 1)%Z in
  let '(u_switch, s1) := rng_random G (g_rng st) in
  '(current_regime, regime_duration, s2) ←
    (if decide (u_switch < 0.02 + IZR regime_duration / 500) then
       '(r, s) ← rng_choices G regime_names
                   (transition_weights (g_regime st)) s1;
       Some (r, 0%Z, s)
     else Some (g_regime st, regime_duration, s1));
  let '(drift, vol_mult, _) := regimes current_regime in
  let hourly_vol := base_hourly_vol * vol_mult in
  let '(u_tail, s3) := rng_random G s2 in
  let '(ret, s4) :=
    if decide (u_tail < 0.05) then rng_gauss G drift (hourly_vol * 3) s3
    else rng_gauss G drift hourly_vol s3 in
  let open_price := g_price st in
  let close_price := open_price * (1 + ret) in
  let '(x_intra, s5) := rng_uniform G 0.3 1.5 s4 in
  let intra_vol := Rabs ret + hourly_vol * x_intra in
  let '(high, low, s7) :=
    if decide (close_price >= open_price) then
      let '(x_hi, s6) := rng_uniform G 0 (intra_vol * 0.5) s5 in
      let '(x_lo, s7) := rng_uniform G 0 (intra_vol * 0.3) s6 in
      (py_max open_price close_price * (1 + x_hi),
       py_min open_price close_price * (1 - x_lo), s7)
    else
      let '(x_hi, s6) := rng_uniform G 0 (intra_vol * 0.3) s5 in
      let '(x_lo, s7) := rng_uniform G 0 (intra_vol * 0.5) s6 in
      (py_max open_price close_price * (1 + x_hi),
       py_min open_price close_price * (1 - x_lo), s7) in
  let high := py_max3 high open_price close_price in
  let low := py_min3 low open_price close_price in
  let ts := (start_ts + h * 3600 * 1000)%Z in
  let '(x_vol, s8) := rng_uniform G 500 5000 s7 in
  let candle :=
    mkCandle ts (py_round2 open_price) (py_round2 high) (py_round2 low)
      (py_round2 close_price) (py_round2 x_vol) (ts + 3599999)%Z in
  let price := close_price in
  let price :=
    if decide (price > 80000) then price * 0.9999
    else if decide (price < 20000) then price * 1.0001
    else price in
  Some (mkGenState price current_regime regime_duration s8
          (g_candles st ++ [candle])).

(** [range(n)] as a list of integers; empty for [n <= 0]. *)
Definition py_range (n : Z) : list Z :=
  Z.of_nat <$> seq 0 (Z.to_nat n).

Definition gen_loop (G : RandomGen) (hours : Z) (st : GenState G)
    : option (GenState G) :=
  foldl (λ acc h, acc ≫= λ st, gen_step G st h) (Some st) (py_range hours).

(** [generate_realistic_btc_data(days, seed)].  The summary printed after
    the loop reads [candles[0]], which raises IndexError when no candle
    was produced. *)
Definition generate_realistic_btc_data (G : RandomGen) (days seed : Z)
    : option (list Candle) :=
  let hours := (days * 24)%Z in
  st ← gen_loop G hours (mkGenState 42000.0 bull_trend 0%Z (rng_seed G seed) []);
  match g_candles st with
  | [] => None
  | candles => Some candles
  end.

End BacktestData.

(** ** backtest_combined.py and experiment_timed_exit.py: the continuous
       fair-value model (the two files have the same text) *)

Module BacktestCombined.

Definition cdf_poly (t : R) : R :=
  let a1 := 0.254829592 in
  let a2 := -0.284496736 in
  let a3 := 1.421413741 in
  let a4 := -1.453152027 in
  let a5 := 1.061405429 in
  (((((a5 * t + a4) * t) + a3) * t + a2) * t + a1) * t.

(** The term that [normal_cdf] subtracts from 1, at a non-negative [x]. *)
Definition cdf_tail (x : R) : R :=
  cdf_poly (1.0 / (1.0 + 0.3275911 * x)) * exp (- x * x / 2.0).

Definition normal_cdf (x : R) : R :=
  let p := 0.3275911 in
  let sign := if decide (x < 0) then -1 else 1 in
  let x := Rabs x in
  let t := 1.0 / (1.0 + p * x) in
  let y := 1.0 - cdf_poly t * exp (- x * x / 2.0) in
  0.5 * (1.0 + sign * y).

Definition estimate_fair_value (price strike vol mins_remaining : R) : R :=
  if decide (vol <= 0 \/ mins_remaining <= 0) then
    (if decide (price > strike) then 1.0 else 0.0)
  else
    let time_hours := py_max mins_remaining 0.5 / 60 in
    let expected_move := price * (vol / 100) * sqrt time_hours in
    if decide (expected_move <= 0) then
      (if decide (price >= strike) then 0.99 else 0.01)
    else
      let z := (price - strike) / expected_move in
      let prob := normal_cdf z in
      py_max 0.01 (py_min 0.99 prob).

End BacktestCombined.

(** ** experiment_conservative.py *)

Module ExperimentConservative.

Definition calc_sma := Backtest.calc_sma.
Definition calc_volatility := Backtest.calc_volatility.
Definition calc_price_position := Backtest.calc_price_position.
Definition TAKER_FEE_PCT : R := 1.5.

(** Here [strike_type] stays the string of the params dict. *)
Definition calc_strike (btc_price : R) (strike_type : string) : Z :=
  if decide (strike_type = "ATM"%string)
  then (py_round (btc_price / 250) * 250)%Z
  else (Zfloor (btc_price / 250) * 250)%Z.

Definition calc_net_pnl (contracts entry_price exit_price : R)
    (exit_type : string) : R :=
  let entry_cost := contracts * entry_price in
  let entry_fee := entry_cost * (TAKER_FEE_PCT / 100) in
  let total_entry_cost := entry_cost + entry_fee in
  let exit_revenue := contracts * exit_price in
  if decide (exit_type = "early"%string) then
    let exit_fee := exit_revenue * (TAKER_FEE_PCT / 100) in
    (exit_revenue - exit_fee) - total_entry_cost
  else exit_revenue - total_entry_cost.

Definition calc_risk_of_ruin
    (current_price strike volatility minutes_remaining : R) : R :=
  let distance := current_price - strike in
  let time_hours := minutes_remaining / 60 in
  let expected_move :=
    current_price * (volatility / 100) * sqrt (py_max time_hours 0.01) in
  let z := if decide (expected_move > 0) then distance / expected_move else 0 in
  if decide (z <= -2) then 0.98
  else if decide (z <= -1) then 0.84
  else if decide (z <= -0.5) then 0.69
  else if decide (z <= 0) then 0.5
  else if decide (z <= 0.5) then 0.31
  else if decide (z <= 1) then 0.16
  else if decide (z <= 1.5) then 0.07
  else if decide (z <= 2) then 0.02
  else 0.01.

Definition estimate_contract_price
    (distance_from_strike minutes_remaining : R) : R :=
  if decide (distance_from_strike <= 0) then 0.30
  else
    let base := py_min 0.95 (0.5 + distance_from_strike / 1000) in
    let time_mult := 1 + (60 - minutes_remaining) / 120 in
    py_min 0.99 (base * time_mult).

(** This file's fair value is itself a bucket table. *)
Definition estimate_fair_value (price strike vol mins_remaining : R) : R :=
  if decide (vol <= 0 \/ mins_remaining <= 0) then
    (if decide (price > strike) then 1.0 else 0.0)
  else
    let distance := price - strike in
    let time_hours := mins_remaining / 60 in
    let expected_move :=
      price * (vol / 100) * sqrt (py_max time_hours 0.01) in
    let z := if decide (expected_move > 0) then distance / expected_move else 0 in
    if decide (z <= -3) then 0.001
    else if decide (z <= -2) then 0.02
    else if decide (z <= -1) then 0.16
    else if decide (z <= -0.5) then 0.31
    else if decide (z <= 0) then 0.50
    else if decide (z <= 0.5) then 0.69
    else if decide (z <= 1) then 0.84
    else if decide (z <= 1.5) then 0.93
    else if decide (z <= 2) then 0.98
    else 0.99.

(** The params dict.  A key that may be absent or hold [None] is an
    [option]. *)
Record Params := mkParams {
  min_time_remaining : R;
  sma_looseness : option R;
  vol_filter : string;
  pos_filter : string;
  strike_type : string;
  min_strike_distance : R;
  min_probability : R;
  max_probability : option R;
  edge_cushion : R;
  max_entry_cap : option R;
  position_size : R;
  use_exit_logic : bool
}.

(** The dict of a fired signal; [{"signal": False}] is [None]. *)
Record Signal := mkSignal {
  sig_strike : Z;
  sig_entry_price : R;
  sig_contracts : Z;
  sig_fair_value : R;
  sig_volatility : R
}.

Definition vol_filter_ok (vf : string) (vol : R) : bool :=
  if decide (vf = "0.5-2"%string) then bool_decide (0.5 <= vol <= 2.0)
  else if decide (vf = "0.3-2.5"%string) then bool_decide (0.3 <= vol <= 2.5)
  else if decide (vf = "0.5-1.5"%string) then bool_decide (0.5 <= vol <= 1.5)
  else if decide (vf = "0.3-3"%string) then bool_decide (0.3 <= vol <= 3.0)
  else if decide (vf = "0.5-3"%string) then bool_decide (0.5 <= vol <= 3.0)
  else true.

Definition pos_filter_ok (pf : string) (pos : R) : bool :=
  if decide (pf = ">40"%string) then negb (bool_decide (pos <= 40))
  else if decide (pf = ">50"%string) then negb (bool_decide (pos <= 50))
  else if decide (pf = ">60"%string) then negb (bool_decide (pos <= 60))
  else if decide (pf = ">70"%string) then negb (bool_decide (pos <= 70))
  else true.

(** [candles[-1]] is reached only after the three averages are non-zero,
    which needs twelve candles; the [None] branch of [last] is dead. *)
Definition check_signal (candles : list Candle) (current_price minute : R)
    (params : Params) : option Signal :=
  let mins_remaining := 60 - minute in
  if decide (mins_remaining <= min_time_remaining params) then None else
  let sma3 := calc_sma candles 3 in
  let sma6 := calc_sma candles 6 in
  let sma12 := calc_sma candles 12 in
  if decide (sma3 = 0 \/ sma6 = 0 \/ sma12 = 0) then None else
  lastc ← last candles;
  let vol := calc_volatility lastc in
  let pos := calc_price_position lastc in
  let '(short_trend, medium_trend) :=
    match sma_looseness params with
    | None => (true, true)
    | Some sma_loose =>
        if decide (sma_loose = 0) then
          (bool_decide (sma3 > sma6), bool_decide (sma6 > sma12))
        else
          (bool_decide (sma3 > sma6)
           || (bool_decide (sma6 > 0)
               && bool_decide ((sma6 - sma3) / sma6 < sma_loose)),
           bool_decide (sma6 > sma12)
           || (bool_decide (sma12 > 0)
               && bool_decide ((sma12 - sma6) / sma12 < sma_loose)))
    end in
  if negb short_trend || negb medium_trend then None else
  if negb (vol_filter_ok (vol_filter params) vol) then None else
  if negb (pos_filter_ok (pos_filter params) pos) then None else
  let strike := calc_strike current_price (strike_type params) in
  let strike_dist := current_price - IZR strike in
  if decide (strike_dist < min_strike_distance params) then None else
  let fv := estimate_fair_value current_price (IZR strike) vol mins_remaining in
  if decide (fv < min_probability params) then None else
  if (match max_probability params with
      | Some mp => bool_decide (fv > mp)
      | None => false
      end) then None else
  let max_entry := IZR (Zfloor (fv * edge_cushion params * 100)) / 100 in
  let max_entry :=
    match max_entry_cap params with
    | Some cap => py_min max_entry cap
    | None => max_entry
    end in
  if decide (max_entry > 0.95) then None else
  let contracts :=
    if decide (max_entry > 0) then Zfloor (position_size params / max_entry)
    else 0%Z in
  if decide (contracts <= 0)%Z then None else
  Some (mkSignal strike max_entry contracts fv vol).

Inductive outcome := no_data | win | loss | early_exit.

#[global] Instance outcome_eq_dec : EqDecision outcome.
Proof. solve_decision. Defined.

Definition simulate_trade (entry_price strike contracts : R)
    (candles_after : list Candle) (volatility : R) (use_exit : bool)
    : outcome * R :=
  match candles_after with
  | [] => (no_data, 0)
  | settlement_candle :: _ =>
    let settlement_price := c_close settlement_candle in
    let hold :=
      if decide (settlement_price > strike) then
        (win, calc_net_pnl contracts entry_price 1.0 "settlement")
      else
        (loss, calc_net_pnl contracts entry_price 0.0 "settlement") in
    if negb use_exit then hold
    else
      let mid_price := (c_open settlement_candle + c_close settlement_candle) / 2 in
      let distance_mid := mid_price - strike in
      let ror := calc_risk_of_ruin mid_price strike volatility 30 in
      let implied_price := estimate_contract_price distance_mid 30 in
      let early_exit_pnl := calc_net_pnl contracts entry_price implied_price "early" in
      let settle_win_pnl := calc_net_pnl contracts entry_price 1.0 "settlement" in
      let settle_lose_pnl := calc_net_pnl contracts entry_price 0.0 "settlement" in
      let settle_ev := (1 - ror) * settle_win_pnl + ror * settle_lose_pnl in
      if decide (ror >= 0.5) then (early_exit, early_exit_pnl)
      else if decide (settle_ev < early_exit_pnl /\ early_exit_pnl > 0) then
        (early_exit, early_exit_pnl)
      else
        let late_price := c_close settlement_candle in
        let late_ror := calc_risk_of_ruin late_price strike volatility 10 in
        if decide (late_ror >= 0.3) then
          let late_implied := estimate_contract_price (late_price - strike) 10 in
          let late_exit_pnl :=
            calc_net_pnl contracts entry_price late_implied "early" in
          let late_settle_ev :=
            (1 - late_ror) * settle_win_pnl + late_ror * settle_lose_pnl in
          if decide (late_settle_ev <= late_exit_pnl * 1.2) then
            (early_exit, late_exit_pnl)
          else hold
        else hold
  end.

(** The local variables of [run_variant]. *)
Record VState := mkVState {
  trades : Z;
  wins : Z;
  losses : Z;
  early_exits : Z;
  total_pnl : R;
  max_dd : R;
  peak_pnl : R;
  bankroll : R;
  peak_bank : R;
  min_bankroll : R;
  ruin_hit : bool;
  losing_streak : Z;
  max_losing_streak : Z
}.

Definition vstate_init : VState :=
  mkVState 0 0 0 0 0.0 0.0 0.0 100.0 100.0 100.0 false 0 0.

Definition set_ruin_hit (st : VState) : VState :=
  mkVState (trades st) (wins st) (losses st) (early_exits st) (total_pnl st)
    (max_dd st) (peak_pnl st) (bankroll st) (peak_bank st) (min_bankroll st)
    true (losing_streak st) (max_losing_streak st).

(** The bookkeeping after a resolved trade. *)
Definition record_trade (st : VState) (o : outcome) (pnl : R) : VState :=
  let trades' := (trades st + 1)%Z in
  let total_pnl' := total_pnl st + pnl in
  let bankroll' := bankroll st + pnl in
  let early_exits' :=
    if decide (o = early_exit) then (early_exits st + 1)%Z else early_exits st in
  let is_win := bool_decide (pnl >= 0) in
  let wins' := if is_win then (wins st + 1)%Z else wins st in
  let losses' := if is_win then losses st else (losses st + 1)%Z in
  let losing_streak' := if is_win then 0%Z else (losing_streak st + 1)%Z in
  let max_losing_streak' :=
    if is_win then max_losing_streak st
    else if decide (losing_streak' > max_losing_streak st)%Z then losing_streak'
    else max_losing_streak st in
  let peak_pnl' :=
    if decide (total_pnl' > peak_pnl st) then total_pnl' else peak_pnl st in
  let dd := peak_pnl' - total_pnl' in
  let max_dd' := if decide (dd > max_dd st) then dd else max_dd st in
  let peak_bank' :=
    if decide (bankroll' > peak_bank st) then bankroll' else peak_bank st in
  let min_bankroll' :=
    if decide (bankroll' < min_bankroll st) then bankroll' else min_bankroll st in
  mkVState trades' wins' losses' early_exits' total_pnl' max_dd' peak_pnl'
    bankroll' peak_bank' min_bankroll' (ruin_hit st) losing_streak'
    max_losing_streak'.

(** The body of the loop of [run_variant] at index [i]; [None] is the
    IndexError of [candles[i]]. *)
Definition variant_step (candles : list Candle) (params : Params)
    (st : VState) (i : nat) : option VState :=
  candle ← candles !! i;
  let current_price := c_close candle in
  let history := py_slice (i - 12) (i + 1) candles in
  match check_signal history current_price 30 params with
  | Some sig =>
      if decide (bankroll st < position_size params * 0.5) then
        Some (set_ruin_hit st)
      else
        let '(o, pnl) :=
          simulate_trade (sig_entry_price sig) (IZR (sig_strike sig))
            (IZR (sig_contracts sig)) (py_slice (i + 1) (i + 3) candles)
            (sig_volatility sig) (use_exit_logic params) in
        if decide (o = no_data) then Some st
        else Some (record_trade st o pnl)
  | None => Some st
  end.

(** The signal that the loop of [run_variant] sees at index [i]. *)
Definition signal_at (candles : list Candle) (params : Params) (i : nat)
    : option Signal :=
  candle ← candles !! i;
  check_signal (py_slice (i - 12) (i + 1) candles) (c_close candle) 30 params.

(** The bankroll cannot cover the position: the threshold test of the loop. *)
Definition cannot_afford (params : Params) (st : VState) : Prop :=
  bankroll st < position_size params * 0.5.

(** [for i in range(12, len(candles) - 1)] from state [st]. *)
Definition variant_loop (candles : list Candle) (params : Params)
    (st : VState) (indices : list nat) : option VState :=
  foldl (λ acc i, acc ≫= λ s, variant_step candles params s i) (Some st) indices.

Definition variant_indices (candles : list Candle) : list nat :=
  seq 12 (length candles - 1 - 12).

(** The dict returned by [run_variant]. *)
Record VariantResult := mkVariantResult {
  vr_trades : Z;
  vr_wins : Z;
  vr_losses : Z;
  vr_win_rate : R;
  vr_total_pnl : R;
  vr_max_dd : R;
  vr_expectancy : R;
  vr_early_exits : Z;
  vr_final_bankroll : R;
  vr_min_bankroll : R;
  vr_ruin_hit : bool;
  vr_max_losing_streak : Z;
  vr_calmar : R
}.

Definition variant_result (st : VState) : VariantResult :=
  let wr :=
    if decide (trades st > 0)%Z then IZR (wins st) / IZR (trades st) * 100 else 0 in
  let expectancy :=
    if decide (trades st > 0)%Z then total_pnl st / IZR (trades st) else 0 in
  let calmar :=
    if decide (max_dd st > 0) then total_pnl st / max_dd st
    else if decide (total_pnl st > 0) then 999 else 0 in
  mkVariantResult (trades st) (wins st) (losses st) wr (total_pnl st)
    (max_dd st) expectancy (early_exits st) (bankroll st) (min_bankroll st)
    (ruin_hit st) (max_losing_streak st) calmar.

Definition run_variant (candles : list Candle) (params : Params)
    : option VariantResult :=
  variant_result <$> variant_loop candles params vstate_init
                       (variant_indices candles).

(** A path of fourteen equal candles and a configuration whose position
    size is beyond the starting bankroll of 100: example data. *)
Definition flat_candle : Candle := mkCandle 0 50100 50100 50100 50100 1000 3599999.
Definition flat_path : list Candle := replicate 14 flat_candle.
Definition big_position : Params :=
  mkParams 0 None "none" "none" "OTM" 0 0 None 0.5 None 300 true.

(** A path that trades before it is ruined: thirteen candles at 50100 and
    five at 49900, under a position size of 100 held to settlement.  The
    signal at index 12 buys 200 contracts at 0.50 on the strike 50000; the
    next candle closes below the strike, so the trade loses 101.50 and the
    bankroll is -1.50 when the signal at index 13 comes; the indices 14, 15
    and 16 follow. *)
Definition low_candle : Candle := mkCandle 0 49900 49900 49900 49900 1000 3599999.
Definition ruin_path : list Candle :=
  replicate 13 flat_candle ++ replicate 5 low_candle.
Definition full_position : Params :=
  mkParams 0 None "none" "none" "OTM" 0 0 None 0.5 None 100 false.

End ExperimentConservative.

(** ** backtest_interwindow.py *)

Module BacktestInterwindow.

(** A record of the historical 5-minute feed: [{t, o, h, l, c, v}]. *)
Record Candle5 := mkCandle5 {
  t : Z;
  o : R;
  h : R;
  l : R;
  c : R;
  v : R
}.

Record Window := mkWindow {
  w_ts : Z;
  w_open : R;
  w_close : R;
  w_candles : list Candle5;
  w_avg_vol : R;
  w_bb_width_proxy : R
}.

(** [(c['t'] // 1000 // (15 * 60)) * (15 * 60)]. *)
Definition window_start (x : Candle5) : Z :=
  let ts_s := (t x / 1000)%Z in
  (ts_s / (15 * 60) * (15 * 60))%Z.

(** [buckets[window_start].append(c)] on a [defaultdict(list)]. *)
Definition bucket_append (buckets : gmap Z (list Candle5)) (x : Candle5)
    : gmap Z (list Candle5) :=
  let ws := window_start x in
  <[ws := default [] (buckets !! ws) ++ [x]]> buckets.

Definition fill_buckets (candles : list Candle5) : gmap Z (list Candle5) :=
  foldl bucket_append ∅ candles.

(** [sorted(cs, key=lambda c: c['t'])]: a stable sort on the timestamp. *)
Fixpoint insert_by_t (x : Candle5) (cs : list Candle5) : list Candle5 :=
  match cs with
  | [] => [x]
  | y :: rest =>
      if decide (t x <= t y)%Z then x :: y :: rest
      else y :: insert_by_t x rest
  end.

Definition sort_by_t (cs : list Candle5) : list Candle5 :=
  foldr insert_by_t [] cs.

(** [sorted(buckets.keys())]. *)
Definition sorted_keys (buckets : gmap Z (list Candle5)) : list Z :=
  merge_sort Z.le (fst <$> map_to_list buckets).

(** The window built from a bucket sorted by time, when [len(cs) == 3]. *)
Definition make_window (ws : Z) (cs : list Candle5) : option Window :=
  match cs with
  | [c0; c1; c2] =>
      let volumes := [v c0; v c1; v c2] in
      let avg_vol := py_sum volumes / INR (length volumes) in
      let price_range :=
        foldl py_max (o c0) [o c1; o c2; c c0; c c1; c c2]
        - foldl py_min (o c0) [o c1; o c2; c c0; c c1; c c2] in
      let mid_close := c c1 in
      let bb_width_proxy :=
        if decide (mid_close > 0) then price_range / mid_close else 0 in
      Some (mkWindow ws (o c0) (c c2) cs avg_vol bb_width_proxy)
  | _ => None
  end.

Definition group_15min_windows (candles : list Candle5) : list Window :=
  let buckets := fill_buckets candles in
  omap (λ ws, make_window ws (sort_by_t (default [] (buckets !! ws))))
       (sorted_keys buckets).

(** The candles of the input that fall into the bucket [ws]. *)
Definition bucket_of (ws : Z) (candles : list Candle5) : list Candle5 :=
  filter (λ x, window_start x = ws) candles.

(** Example feed: three candles in the bucket at 0 s and two in the bucket
    at 900 s. *)
Definition example_feed : list Candle5 :=
  [mkCandle5 600000 50020 50060 50000 50050 12;
   mkCandle5 0 50000 50030 49990 50010 10;
   mkCandle5 900000 50050 50070 50040 50060 9;
   mkCandle5 300000 50010 50040 50000 50020 11;
   mkCandle5 1200000 50060 50080 50050 50070 8].

End BacktestInterwindow.

(** ** backtest.py: several price paths *)

Module BacktestMonteCarlo.
Import BacktestData.

(** [generate_multi_seed_data(days, num_seeds)]: one path per seed in
    [range(num_seeds)], generated with seed [seed * 17 + 42]; an exception
    in one call ends the whole function. *)
Definition generate_multi_seed_data (G : RandomGen) (days num_seeds : Z)
    : option (list (list Candle)) :=
  mapM (λ seed, generate_realistic_btc_data G days (seed * 17 + 42)%Z)
       (py_range num_seeds).

End BacktestMonteCarlo.

(** ** Statement vocabulary for backtest.py *)

Module BacktestFacts.
Import Backtest BacktestSignals.

(** What both deployed checks promise about a dict whose signal is true. *)
Definition fired_ok (position entry : R) (contracts : Z)
    (candles : list Candle) (price : R) (hour : Z) (d : R) (sig : Signal) : Prop :=
  (14 <= hour < 21)%Z
  /\ (6 <= length candles)%nat
  /\ sig_strike sig = Some (calc_strike price OTM)
  /\ d <= price - IZR (calc_strike price OTM) < 250
  /\ sig_entry_price sig = entry
  /\ sig_contracts sig = contracts
  /\ IZR contracts * entry <= position.

(** The bookkeeping relations of a results dict of [run_backtest]. *)
Definition results_inv (r : Results) : Prop :=
  r_trades r = r_signals r
  /\ (r_wins r + r_losses r)%Z = r_trades r
  /\ (0 <= r_early_exits r <= r_trades r)%Z
  /\ Z.of_nat (length (r_pnl_series r)) = r_trades r
  /\ Z.of_nat (length (r_win_pnls r)) = r_wins r
  /\ Z.of_nat (length (r_loss_pnls r)) = r_losses r
  /\ Z.of_nat (length (r_strike_dist_at_entry r)) = r_signals r
  /\ Forall (λ pnl, pnl >= 0) (r_win_pnls r)
  /\ Forall (λ pnl, pnl < 0) (r_loss_pnls r)
  /\ last (r_pnl_series r) = (if decide (r_trades r = 0)%Z then None
                              else Some (r_total_pnl r))
  /\ 0 <= r_max_drawdown r.

End BacktestFacts.

(** ** Statement vocabulary for the generator *)

Module GeneratorFacts.
Import BacktestData.

(** The candle at position [k] opens [k] hours after [start_ts] and closes
    one millisecond before the next hour. *)
Definition hourly (k : nat) (c : Candle) : Prop :=
  open_time c = (start_ts + Z.of_nat k * 3600000)%Z
  /\ close_time c = (open_time c + 3599999)%Z.

(** What the generator loop keeps true of its state after [n] passes. *)
Definition gen_inv {G : RandomGen} (n : nat) (st : GenState G) : Prop :=
  length (g_candles st) = n
  /\ (forall k c, g_candles st !! k = Some c -> hourly k c)
  /\ (forall k c c', g_candles st !! k = Some c ->
        g_candles st !! S k = Some c' ->
        20000 < c_close c < 80000 -> c_open c' = c_close c)
  /\ match last (g_candles st) with
     | Some c => 20000 < c_close c < 80000 -> py_round2 (g_price st) = c_close c
     | None => g_price st = 42000.0
     end
  /\ (forall c, g_candles st !! 0%nat = Some c -> c_open c = 42000).

End GeneratorFacts.

(** ** Statement vocabulary for experiment_conservative.py *)

Module ConservativeFacts.
Import ExperimentConservative.

(** The three early-exit reasons of backtest.py are one outcome here. *)
Definition collapse_outcome (o : Backtest.outcome) : outcome :=
  match o with
  | Backtest.no_data => no_data
  | Backtest.win => win
  | Backtest.loss => loss
  | Backtest.early_exit_critical
  | Backtest.early_exit_ev
  | Backtest.early_exit_high_risk => early_exit
  end.

(** What [check_signal] promises about a signal it returns. *)
Definition signal_ok (candles : list Candle) (current_price minute : R)
    (params : Params) (sig : Signal) : Prop :=
  (12 <= length candles)%nat
  /\ min_time_remaining params < 60 - minute
  /\ sig_strike sig = calc_strike current_price (strike_type params)
  /\ min_strike_distance params <= current_price - IZR (sig_strike sig)
  /\ min_probability params <= sig_fair_value sig
  /\ (forall mp, max_probability params = Some mp -> sig_fair_value sig <= mp)
  /\ 0 < sig_entry_price sig <= 0.95
  /\ sig_entry_price sig <= sig_fair_value sig * edge_cushion params
  /\ (forall cap, max_entry_cap params = Some cap -> sig_entry_price sig <= cap)
  /\ (1 <= sig_contracts sig)%Z
  /\ IZR (sig_contracts sig) * sig_entry_price sig <= position_size params
  /\ position_size params
     < (IZR (sig_contracts sig) + 1) * sig_entry_price sig.

(** The bookkeeping relations among the local variables of [run_variant]. *)
Definition vstate_inv (params : Params) (st : VState) : Prop :=
  (wins st + losses st)%Z = trades st
  /\ (0 <= wins st)%Z /\ (0 <= losses st)%Z
  /\ (0 <= early_exits st <= trades st)%Z
  /\ (0 <= losing_streak st <= max_losing_streak st)%Z
  /\ (max_losing_streak st <= losses st)%Z
  /\ bankroll st <= peak_bank st
  /\ 100 <= peak_bank st
  /\ total_pnl st <= peak_pnl st
  /\ 0 <= peak_pnl st
  /\ min_bankroll st <= bankroll st
  /\ min_bankroll st <= 100
  /\ 0 <= max_dd st
  /\ peak_pnl st - total_pnl st <= max_dd st
  /\ (ruin_hit st = true -> bankroll st < position_size params * 0.5).

End ConservativeFacts.

(** ** Negative indices and slices of Python lists *)

(** [l[-k]] for [k >= 1]; IndexError ([None]) when the list is shorter. *)
Definition py_neg {A} (k : nat) (l : list A) : option A :=
  if decide (k <= length l)%nat then l !! (length l - k)%nat else None.

(** [l[-a:-b]] for [a >= b >= 1]: both ends counted from the end and
    clipped at the start of the list. *)
Definition py_neg_slice {A} (a b : nat) (l : list A) : list A :=
  py_slice (length l - a) (length l - b) l.

(** [math.ceil(x)]. *)
Definition py_ceil (x : R) : Z := Zceil x.

(** ** backtest_combined.py: indicators, signals, trades, the yearly run *)

Module BacktestCombinedEngine.
Import BacktestCombined.

Definition calc_sma := Backtest.calc_sma.
Definition calc_volatility := Backtest.calc_volatility.

Definition calc_rolling_return (candles : list Candle) (current_price : R)
    (lookback_hours : nat) : R :=
  if decide (length candles < lookback_hours + 1)%nat then 0
  else match py_neg (lookback_hours + 1) candles with
       | Some old =>
           let old_close := c_close old in
           if decide (old_close = 0) then 0
           else ((current_price - old_close) / old_close) * 100
       | None => 0
       end.

Definition calc_volume_ratio (candles : list Candle) (lookback : nat) : R :=
  if decide (length candles < lookback + 2)%nat then 1.0
  else match py_neg 2 candles with
       | Some last_complete =>
           let prior := py_neg_slice (lookback + 2) 2 candles in
           let avg_vol :=
             match prior with
             | [] => 1
             | _ => py_sum (c_volume <$> prior) / INR (length prior)
             end in
           if decide (avg_vol = 0) then 1.0
           else c_volume last_complete / avg_vol
       | None => 1.0
       end.

(** Returns [(dip_pct, recovery_pct, is_bouncing)]. *)
Definition calc_dip_recovery (candles : list Candle) (current_price : R)
    : R * R * bool :=
  if decide (length candles < 3)%nat then (0, 0, false)
  else match py_neg 3 candles, py_neg 2 candles with
       | Some two_prev, Some prev =>
           if decide (c_close two_prev = 0 \/ c_low prev = 0) then (0, 0, false)
           else
             let dip_pct :=
               ((c_low prev - c_close two_prev) / c_close two_prev) * 100 in
             let recovery_pct :=
               ((current_price - c_low prev) / c_low prev) * 100 in
             let is_bouncing :=
               bool_decide (dip_pct < -0.1) && bool_decide (recovery_pct > 0.1) in
             (dip_pct, recovery_pct, is_bouncing)
       | _, _ => (0, 0, false)
       end.

Definition crossed_above_psych_level (candles : list Candle)
    (current_price : R) (increment : Z) : bool :=
  if decide (length candles < 2)%nat then false
  else match py_neg 2 candles with
       | Some prev =>
           let prev_close := c_close prev in
           let level := (py_ceil (prev_close / IZR increment) * increment)%Z in
           bool_decide (prev_close < IZR level)
           && bool_decide (IZR level <= current_price)
       | None => false
       end.

Definition candle_volatility (candle : Candle) : R :=
  if decide (c_open candle = 0) then 0
  else ((c_high candle - c_low candle) / c_open candle) * 100.

Definition vol_expansion_ratio (candles : list Candle) : R :=
  if decide (length candles < 8)%nat then 1.0
  else match py_neg 1 candles with
       | Some lastc =>
           let curr_vol := candle_volatility lastc in
           let prior_vols := candle_volatility <$> py_neg_slice 7 1 candles in
           let avg_vol :=
             match prior_vols with
             | [] => 1
             | _ => py_sum prior_vols / INR (length prior_vols)
             end in
           if decide (avg_vol = 0) then 1.0 else curr_vol / avg_vol
       | None => 1.0
       end.

Definition STRIKE_INCREMENT : Z := 250.
Definition TAKER_FEE_PCT : R := 1.5.

Definition calc_strike (btc_price : R) : Z :=
  (Zfloor (btc_price / IZR STRIKE_INCREMENT) * STRIKE_INCREMENT)%Z.

(** The discount before the cap, by distance, round strike and time. *)
Definition pin_discount (btc_price : R) (strike : Z) (mins_remaining : R)
    : option R :=
  let distance := btc_price - IZR strike in
  let strike_mod_1000 := (strike mod 1000)%Z in
  let strike_mod_500 := (strike mod 500)%Z in
  base ←
    (if decide (distance < 0) then
       (* [abs(distance) / btc_price] raises ZeroDivisionError at price 0 *)
       if decide (btc_price = 0) then None
       else
         let abs_dist_pct := Rabs distance / btc_price * 100 in
         if decide (abs_dist_pct < 0.5) then Some 0.20
         else if decide (abs_dist_pct < 1.0) then Some 0.12
         else Some 0.05
     else if decide (distance < 200) then Some 0.15
     else Some 0.03);
  let d1 :=
    if decide (strike_mod_1000 = 0)%Z then base + 0.05
    else if decide (strike_mod_500 = 0)%Z then base + 0.03
    else base in
  let d2 :=
    if decide (mins_remaining < 15) then d1 * 1.5
    else if decide (mins_remaining < 30) then d1 * 1.2
    else d1 in
  Some d2.

Definition apply_pinning_discount (fair_value btc_price : R) (strike : Z)
    (mins_remaining : R) : option R :=
  d ← pin_discount btc_price strike mins_remaining;
  let adjusted := fair_value * (1 - d) in
  Some (py_max 0.01 (py_min adjusted fair_value)).

Definition calc_net_pnl (contracts entry_price exit_price : R)
    (exit_type : string) (fee_pct : R) : R :=
  let entry_cost := contracts * entry_price in
  let entry_fee := entry_cost * (fee_pct / 100) in
  let total_entry := entry_cost + entry_fee in
  let exit_revenue := contracts * exit_price in
  if decide (exit_type = "early"%string) then
    let exit_fee := exit_revenue * (fee_pct / 100) in
    (exit_revenue - exit_fee) - total_entry
  else exit_revenue - total_entry.

Definition POSITION_SIZE : R := 20.
Definition MAX_ENTRY_PRICE : R := 0.25.
Definition MIN_TIME_REMAINING : R := 15.
Definition PROB_LO : R := 0.05.
Definition PROB_HI : R := 0.45.
Definition SMA_LOOSENESS : R := 0.003.
Definition ROLLING_MIN_RETURN : R := 0.20.
Definition DIP_MIN_PCT : R := -0.30.
Definition DIP_MIN_RECOVERY : R := 0.20.
Definition MULTI_MIN_1H : R := 0.10.
Definition MULTI_MIN_2H : R := 0.20.
Definition VOLUME_MIN_RATIO : R := 1.50.
Definition VOLUME_MIN_RETURN : R := 0.20.
Definition PSYCH_INCREMENT : Z := 500.
Definition SELLOFF_MIN_DROP : R := -0.50.
Definition SELLOFF_MIN_BOUNCE : R := 0.20.
Definition VOL_EXPANSION_MIN : R := 1.80.
Definition VOL_EXPANSION_MIN_RET : R := 0.10.

Inductive signal_name :=
  | ROLLING_MOMENTUM
  | DIP_RECOVERY
  | MULTI_HOUR
  | VOLUME_MOMENTUM
  | PSYCH_LEVEL
  | SELLOFF_RECOVERY
  | VOL_EXPANSION.

(** The returned tuple
    [(signal_name, strike, entry_price, contracts, fv, vol)]. *)
Record Signal := mkSignal {
  sig_name : signal_name;
  sig_strike : Z;
  sig_entry_price : R;
  sig_contracts : Z;
  sig_fv : R;
  sig_vol : R
}.

(** The seven rules in their order; a later rule is tried only while
    [signal_name] is still [None]. *)
Definition pick_signal (candles : list Candle) (current_price : R)
    (short_trend med_trend : bool) : option signal_name :=
  let ret1h := calc_rolling_return candles current_price 1 in
  if bool_decide (ret1h > ROLLING_MIN_RETURN) && short_trend && med_trend
  then Some ROLLING_MOMENTUM
  else
  let '(dip_pct, rec_pct, bouncing) := calc_dip_recovery candles current_price in
  if bool_decide (dip_pct < DIP_MIN_PCT) && bool_decide (rec_pct > DIP_MIN_RECOVERY)
     && bouncing
  then Some DIP_RECOVERY
  else
  let r1h := calc_rolling_return candles current_price 1 in
  let r2h := calc_rolling_return candles current_price 2 in
  if bool_decide (r1h > MULTI_MIN_1H) && bool_decide (r2h > MULTI_MIN_2H)
     && short_trend
  then Some MULTI_HOUR
  else
  let vr := calc_volume_ratio candles 6 in
  if bool_decide (vr >= VOLUME_MIN_RATIO) && bool_decide (r1h > VOLUME_MIN_RETURN)
     && short_trend
  then Some VOLUME_MOMENTUM
  else
  if crossed_above_psych_level candles current_price PSYCH_INCREMENT && short_trend
  then Some PSYCH_LEVEL
  else
  let selloff_fires :=
    if decide (4 <= length candles)%nat then
      match py_neg 4 candles, py_neg 2 candles with
      | Some c3h, Some c1h =>
          if decide (c_close c3h > 0) then
            let selloff := ((c_close c1h - c_close c3h) / c_close c3h) * 100 in
            let bounce := calc_rolling_return candles current_price 1 in
            bool_decide (selloff < SELLOFF_MIN_DROP)
            && bool_decide (bounce > SELLOFF_MIN_BOUNCE)
          else false
      | _, _ => false
      end
    else false in
  if selloff_fires then Some SELLOFF_RECOVERY
  else
  let exp_ratio := vol_expansion_ratio candles in
  if bool_decide (exp_ratio >= VOL_EXPANSION_MIN)
     && bool_decide (r1h > VOL_EXPANSION_MIN_RET) && short_trend
  then Some VOL_EXPANSION
  else None.

Definition check_all_signals (candles : list Candle) (current_price : R)
    (entry_minute : R) : option Signal :=
  let mins_remaining := 60 - entry_minute in
  if decide (mins_remaining <= MIN_TIME_REMAINING) then None else
  if decide (length candles < 12)%nat then None else
  let sma3 := calc_sma candles 3 in
  let sma6 := calc_sma candles 6 in
  let sma12 := calc_sma candles 12 in
  if decide (sma3 = 0 \/ sma6 = 0 \/ sma12 = 0) then None else
  let short_trend :=
    bool_decide (sma3 > sma6)
    || (bool_decide (sma6 > 0)
        && bool_decide ((sma6 - sma3) / sma6 < SMA_LOOSENESS)) in
  let med_trend :=
    bool_decide (sma6 > sma12)
    || (bool_decide (sma12 > 0)
        && bool_decide ((sma12 - sma6) / sma12 < SMA_LOOSENESS)) in
  lastc ← py_neg 1 candles;
  let vol := calc_volatility lastc in
  name ← pick_signal candles current_price short_trend med_trend;
  let floor_strike := calc_strike current_price in
  let strike := (floor_strike + STRIKE_INCREMENT)%Z in
  let fv := estimate_fair_value current_price (IZR strike) vol mins_remaining in
  if decide (fv < PROB_LO \/ fv > PROB_HI) then None else
  let entry_price := py_min MAX_ENTRY_PRICE (IZR (Zfloor (fv * 100)) / 100) in
  if decide (entry_price <= 0.01) then None else
  let contracts := Zfloor (POSITION_SIZE / entry_price) in
  if decide (contracts <= 0)%Z then None else
  Some (mkSignal name strike entry_price contracts fv vol).

Inductive result_type := win | loss | early_exit.

#[global] Instance result_type_eq_dec : EqDecision result_type.
Proof. solve_decision. Defined.

(** [simulate_trade] returns [(result_type, pnl, adj_prob)]; the model adds
    the state of [rng] after the call.  [None] is the ZeroDivisionError of
    [apply_pinning_discount]. *)
Definition simulate_trade (G : RandomGen) (entry_price : R) (strike : Z)
    (contracts : R) (current_candle : Candle) (vol : R) (rng : rng_state G)
    (entry_minute : R) (use_exit : bool)
    : option (result_type * R * R * rng_state G) :=
  let btc_price := c_open current_candle in
  let mins_remaining := 60 - entry_minute in
  let raw_prob := estimate_fair_value btc_price (IZR strike) vol mins_remaining in
  adj_prob ← apply_pinning_discount raw_prob btc_price strike mins_remaining;
  let '(u, rng1) := rng_random G rng in
  let won := bool_decide (u < adj_prob) in
  let settle rng' :=
    if won then
      (win, calc_net_pnl contracts entry_price 1.0 "settlement" TAKER_FEE_PCT,
       adj_prob, rng')
    else
      (loss, calc_net_pnl contracts entry_price 0.0 "settlement" TAKER_FEE_PCT,
       adj_prob, rng') in
  if use_exit then
    let '(mid_move, rng2) :=
      rng_gauss G 0 (btc_price * (vol / 100) * sqrt 0.25) rng1 in
    let mid_price := btc_price + mid_move in
    let mid_fv := estimate_fair_value mid_price (IZR strike) vol 30 in
    let early_exit_pnl :=
      calc_net_pnl contracts entry_price mid_fv "early" TAKER_FEE_PCT in
    let settle_win_pnl :=
      calc_net_pnl contracts entry_price 1.0 "settlement" TAKER_FEE_PCT in
    let settle_lose_pnl :=
      calc_net_pnl contracts entry_price 0.0 "settlement" TAKER_FEE_PCT in
    let settle_ev := adj_prob * settle_win_pnl + (1 - adj_prob) * settle_lose_pnl in
    if decide (early_exit_pnl > settle_ev /\ early_exit_pnl > 0) then
      Some (early_exit, early_exit_pnl, adj_prob, rng2)
    else Some (settle rng2)
  else
    (* the draw is made to keep the paths identical *)
    let '(_, rng2) := rng_gauss G 0 1 rng1 in
    Some (settle rng2).

(** The local variables of [run_year]; the report books that are only
    written ([signal_counts], [all_probs]) are left out. *)
Record YState (G : RandomGen) := mkYState {
  y_rng : rng_state G;
  y_bankroll : R;
  y_peak_bank : R;
  y_min_bank : R;
  y_max_dd : R;
  y_peak_pnl : R;
  y_total_pnl : R;
  y_trades : Z;
  y_wins : Z;
  y_losses : Z;
  y_early_exits : Z;
  y_ruin_hit : bool;
  y_last_trade_hour : Z
}.
Arguments mkYState {G}.
Arguments y_rng {G}.
Arguments y_bankroll {G}.
Arguments y_peak_bank {G}.
Arguments y_min_bank {G}.
Arguments y_max_dd {G}.
Arguments y_peak_pnl {G}.
Arguments y_total_pnl {G}.
Arguments y_trades {G}.
Arguments y_wins {G}.
Arguments y_losses {G}.
Arguments y_early_exits {G}.
Arguments y_ruin_hit {G}.
Arguments y_last_trade_hour {G}.

Definition ystate_init (G : RandomGen) (rng : rng_state G) : YState G :=
  mkYState rng 100.0 100.0 100.0 0.0 0.0 0.0 0 0 0 0 false (-999).

Definition y_set_ruin {G} (st : YState G) : YState G :=
  mkYState (y_rng st) (y_bankroll st) (y_peak_bank st) (y_min_bank st)
    (y_max_dd st) (y_peak_pnl st) (y_total_pnl st) (y_trades st) (y_wins st)
    (y_losses st) (y_early_exits st) true (y_last_trade_hour st).

(** The bookkeeping after a trade at hour [i]. *)
Definition y_record {G} (st : YState G) (i : nat) (rt : result_type)
    (pnl : R) (rng' : rng_state G) : YState G :=
  let trades' := (y_trades st + 1)%Z in
  let total_pnl' := y_total_pnl st + pnl in
  let bankroll' := y_bankroll st + pnl in
  let early_exits' :=
    if decide (rt = early_exit) then (y_early_exits st + 1)%Z
    else y_early_exits st in
  let is_win := bool_decide (pnl >= 0) in
  let wins' := if is_win then (y_wins st + 1)%Z else y_wins st in
  let losses' := if is_win then y_losses st else (y_losses st + 1)%Z in
  let peak_pnl' :=
    if decide (total_pnl' > y_peak_pnl st) then total_pnl' else y_peak_pnl st in
  let dd := peak_pnl' - total_pnl' in
  let max_dd' := if decide (dd > y_max_dd st) then dd else y_max_dd st in
  let peak_bank' :=
    if decide (bankroll' > y_peak_bank st) then bankroll' else y_peak_bank st in
  let min_bank' :=
    if decide (bankroll' < y_min_bank st) then bankroll' else y_min_bank st in
  mkYState rng' bankroll' peak_bank' min_bank' max_dd' peak_pnl' total_pnl'
    trades' wins' losses' early_exits' (y_ruin_hit st) (Z.of_nat i).

(** The body of [for i in range(13, len(candles))]. *)
Definition year_step (G : RandomGen) (candles : list Candle) (use_exit : bool)
    (st : YState G) (i : nat) : option (YState G) :=
  current_candle ← candles !! i;
  let current_price := c_open current_candle in
  let history := py_slice (i - 13) i candles in
  if decide (Z.of_nat i - y_last_trade_hour st < 1)%Z then Some st
  else if decide (y_bankroll st < POSITION_SIZE * 0.5) then Some (y_set_ruin st)
  else
    let entry_minute := 30 in
    match check_all_signals history current_price entry_minute with
    | None => Some st
    | Some sig =>
        '(rt, pnl, adj_prob, rng') ←
          simulate_trade G (sig_entry_price sig) (sig_strike sig)
            (IZR (sig_contracts sig)) current_candle (sig_vol sig) (y_rng st)
            entry_minute use_exit;
        Some (y_record st i rt pnl rng')
    end.

(** The dict returned by [run_year], without [signal_counts] and
    [avg_prob]. *)
Record YearResult := mkYearResult {
  yr_trades : Z;
  yr_wins : Z;
  yr_losses : Z;
  yr_early_exits : Z;
  yr_win_rate : R;
  yr_total_pnl : R;
  yr_final_bankroll : R;
  yr_peak_bankroll : R;
  yr_min_bankroll : R;
  yr_max_dd : R;
  yr_expectancy : R;
  yr_ruin_hit : bool
}.

Definition year_result {G} (st : YState G) : YearResult :=
  let wr :=
    if decide (y_trades st > 0)%Z
    then IZR (y_wins st) / IZR (y_trades st) * 100 else 0 in
  let exp :=
    if decide (y_trades st > 0)%Z then y_total_pnl st / IZR (y_trades st) else 0 in
  mkYearResult (y_trades st) (y_wins st) (y_losses st) (y_early_exits st) wr
    (y_total_pnl st) (y_bankroll st) (y_peak_bank st) (y_min_bank st)
    (y_max_dd st) exp (y_ruin_hit st).

(** [run_year(candles, path_seed, use_exit)].  The generator is seeded with
    [hash(("combined", path_seed)) & 0xFFFFFFFF], a value that the model
    takes as [seed]. *)
Definition run_year (G : RandomGen) (candles : list Candle) (seed : Z)
    (use_exit : bool) : option YearResult :=
  year_result <$>
    foldl (λ acc i, acc ≫= λ st, year_step G candles use_exit st i)
      (Some (ystate_init G (rng_seed G seed)))
      (seq 13 (length candles - 13)).

End BacktestCombinedEngine.

(** ** Statement vocabulary for backtest_combined.py *)

Module CombinedFacts.
Import BacktestCombinedEngine.

(** What [check_all_signals] promises about a tuple it returns. *)
Definition signal_ok (candles : list Candle) (current_price entry_minute : R)
    (sig : Signal) : Prop :=
  (12 <= length candles)%nat
  /\ entry_minute < 45
  /\ 0 < current_price
  /\ 0 < sig_vol sig
  /\ sig_strike sig = (calc_strike current_price + 250)%Z
  /\ current_price < IZR (sig_strike sig) <= current_price + 250
  /\ 0.05 <= sig_fv sig <= 0.45
  /\ 0.05 <= sig_entry_price sig <= 0.25
  /\ sig_entry_price sig <= sig_fv sig
  /\ (80 <= sig_contracts sig <= 400)%Z
  /\ IZR (sig_contracts sig) * sig_entry_price sig <= 20
  /\ 20 < (IZR (sig_contracts sig) + 1) * sig_entry_price sig.

(** The bookkeeping relations among the local variables of [run_year]
    before the pass for hour [n]. *)
Definition ystate_inv {G : RandomGen} (n : nat) (st : YState G) : Prop :=
  (y_wins st + y_losses st)%Z = y_trades st
  /\ (0 <= y_wins st)%Z /\ (0 <= y_losses st)%Z
  /\ (0 <= y_early_exits st <= y_trades st)%Z
  /\ (y_trades st <= Z.of_nat (n - 13))%Z
  /\ (y_last_trade_hour st < Z.of_nat n)%Z
  /\ y_bankroll st <= y_peak_bank st
  /\ 100 <= y_peak_bank st
  /\ y_total_pnl st <= y_peak_pnl st
  /\ 0 <= y_peak_pnl st
  /\ y_min_bank st <= y_bankroll st
  /\ y_min_bank st <= 100
  /\ 0 <= y_max_dd st
  /\ y_peak_pnl st - y_total_pnl st <= y_max_dd st
  /\ -10.3 <= y_min_bank st
  /\ (y_ruin_hit st = true -> y_bankroll st < 10).

End CombinedFacts.

(** ** experiment_timed_exit.py: exit variants on a minute path *)

Module ExperimentTimedExit.

(** [normal_cdf] and [estimate_fair_value] have the text of
    backtest_combined.py. *)
Definition estimate_fair_value := BacktestCombined.estimate_fair_value.

Definition calc_net_pnl (contracts entry_price exit_price : R)
    (exit_type : string) : R :=
  let TAKER_FEE_PCT := 1.5 in
  let entry_cost := contracts * entry_price in
  let entry_fee := entry_cost * (TAKER_FEE_PCT / 100) in
  let total_entry := entry_cost + entry_fee in
  let revenue := contracts * exit_price in
  if decide (exit_type = "early"%string) then
    let exit_fee := revenue * (TAKER_FEE_PCT / 100) in
    (revenue - exit_fee) - total_entry
  else revenue - total_entry.

(** The discount is computed by the same statements as in
    backtest_combined.py; only the [return] differs. *)
Definition apply_pinning_discount (fair_value btc_price : R) (strike : Z)
    (mins_remaining : R) : option R :=
  pin_discount ←
    BacktestCombinedEngine.pin_discount btc_price strike mins_remaining;
  Some (py_max 0.01 (fair_value * (1 - pin_discount))).

(** The range of a candle in percent of its open, as written three times
    in [calc_volatility_multi]. *)
Definition range_pct (c : Candle) : R :=
  ((c_high c - c_low c) / c_open c) * 100.

(** [total] and [count] after the loop over [lookback]. *)
Definition live_ranges (lookback : list Candle) : R * nat :=
  foldl (λ '(total, count) c,
           if decide (c_open c > 0 /\ c_high c > c_low c)
           then (total + range_pct c, S count)
           else (total, count))
        (0, 0%nat) lookback.

Definition calc_volatility_multi (candles : list Candle) : R :=
  if decide (length candles < 2)%nat then
    match py_neg 1 candles with
    | None => 0
    | Some c => if decide (c_open c = 0) then 0 else range_pct c
    end
  else
    let completed := take (length candles - 1) candles in
    let lookback := py_last_n 6 completed in
    let '(total, count) := live_ranges lookback in
    if decide (count = 0%nat) then
      match py_neg 1 candles with
      | None => 0
      | Some c => if decide (c_open c = 0) then 0 else range_pct c
      end
    else total / INR count.

(** [prices] after [minutes] steps; [rng.gauss] is drawn once per step. *)
Fixpoint minute_path_loop (G : RandomGen) (minute_vol : R) (n : nat) (p : R)
    (prices : list R) (rng : rng_state G) : list R * rng_state G :=
  match n with
  | O => (prices, rng)
  | S n' =>
      let '(ret, rng1) := rng_gauss G 0 minute_vol rng in
      let p' := p * (1 + ret) in
      minute_path_loop G minute_vol n' p' (prices ++ [p']) rng1
  end.

(** [range(minutes)] is empty for a negative [minutes]. *)
Definition simulate_minute_path (G : RandomGen) (btc_open hourly_vol : R)
    (rng : rng_state G) (minutes : Z) : list R * rng_state G :=
  let minute_vol := (hourly_vol / 100) / sqrt 60 in
  minute_path_loop G minute_vol (Z.to_nat minutes) btc_open [btc_open] rng.

(** The variant chain of [should_exit], from [if variant == "baseline"] to
    the final [return False, ""], over the values computed before it. *)
Definition exit_decision (variant : string)
    (mins_remaining early_pnl settle_ev lose_pnl distance price_gain_pct : R)
    : bool * string :=
  let ev_exit := bool_decide (early_pnl > settle_ev /\ early_pnl > 0) in
  let loss_cut_5m := bool_decide (mins_remaining <= 5 /\ early_pnl > lose_pnl) in
  if decide (variant = "baseline"%string) then
    if ev_exit then (true, "EV exit"%string)
    else if loss_cut_5m then (true, "5m loss cut"%string)
    else (false, ""%string)
  else if decide (variant = "15m_profit"%string) then
    if ev_exit then (true, "EV exit"%string)
    else if bool_decide (mins_remaining <= 15 /\ early_pnl > 0)
    then (true, "15m profit lock"%string)
    else if loss_cut_5m then (true, "5m loss cut"%string)
    else (false, ""%string)
  else if decide (variant = "10m_profit"%string) then
    if ev_exit then (true, "EV exit"%string)
    else if bool_decide (mins_remaining <= 10 /\ early_pnl > 0)
    then (true, "10m profit lock"%string)
    else if loss_cut_5m then (true, "5m loss cut"%string)
    else (false, ""%string)
  else if decide (variant = "15m_momentum"%string) then
    if ev_exit then (true, "EV exit"%string)
    else if bool_decide (mins_remaining <= 15)
            && bool_decide (distance < 0 /\ early_pnl > lose_pnl)
    then (true, "15m momentum reversed"%string)
    else if bool_decide (mins_remaining <= 15)
            && bool_decide (early_pnl > 0 /\ price_gain_pct < 10)
    then (true, "15m weak momentum"%string)
    else if loss_cut_5m then (true, "5m loss cut"%string)
    else (false, ""%string)
  else if decide (variant = "10m_momentum"%string) then
    if ev_exit then (true, "EV exit"%string)
    else if bool_decide (mins_remaining <= 10)
            && bool_decide (distance < 0 /\ early_pnl > lose_pnl)
    then (true, "10m momentum reversed"%string)
    else if bool_decide (mins_remaining <= 10)
            && bool_decide (early_pnl > 0 /\ price_gain_pct < 10)
    then (true, "10m weak momentum"%string)
    else if loss_cut_5m then (true, "5m loss cut"%string)
    else (false, ""%string)
  else if decide (variant = "15m_buffer"%string) then
    if ev_exit then (true, "EV exit"%string)
    else if bool_decide (mins_remaining <= 15)
            && bool_decide ((0 < distance /\ distance < 100) /\ early_pnl > 0)
    then (true, "15m thin buffer"%string)
    else if bool_decide (mins_remaining <= 15)
            && bool_decide (distance < 0 /\ early_pnl > lose_pnl)
    then (true, "15m below strike"%string)
    else if loss_cut_5m then (true, "5m loss cut"%string)
    else (false, ""%string)
  else if decide (variant = "combined"%string) then
    if ev_exit then (true, "EV exit"%string)
    else if bool_decide (mins_remaining <= 20 /\ early_pnl > 0
                         /\ price_gain_pct >= 30)
    then (true, "20m big profit lock"%string)
    else if bool_decide (mins_remaining <= 15)
            && bool_decide (distance < 0 /\ early_pnl > lose_pnl)
    then (true, "15m below strike cut"%string)
    else if bool_decide (mins_remaining <= 15)
            && bool_decide ((0 < distance /\ distance < 100) /\ early_pnl > 0)
    then (true, "15m thin buffer lock"%string)
    else if bool_decide (mins_remaining <= 10 /\ early_pnl > lose_pnl
                         /\ distance < 50)
    then (true, "10m loss cut"%string)
    else if loss_cut_5m then (true, "5m loss cut"%string)
    else (false, ""%string)
  else if decide (variant = "aggressive_combined"%string) then
    if ev_exit then (true, "EV exit"%string)
    else if bool_decide (mins_remaining <= 20 /\ early_pnl > 0)
    then (true, "20m any profit lock"%string)
    else if bool_decide (mins_remaining <= 15 /\ early_pnl > lose_pnl)
    then (true, "15m loss cut"%string)
    else (false, ""%string)
  else (false, ""%string).

(** [should_exit] returns [(should_exit, reason)]; [None] is the
    ZeroDivisionError of [apply_pinning_discount].  The parameter [rng] is
    not read by the body and is left out. *)
Definition should_exit (variant : string) (minute btc_price : R) (strike : Z)
    (entry_price contracts vol entry_momentum : R) : option (bool * string) :=
  let mins_remaining := 60 - minute in
  if decide (mins_remaining <= 0) then Some (false, ""%string) else
  let fv := estimate_fair_value btc_price (IZR strike) vol mins_remaining in
  let early_pnl := calc_net_pnl contracts entry_price fv "early" in
  adj_prob ←
    apply_pinning_discount
      (estimate_fair_value btc_price (IZR strike) vol mins_remaining)
      btc_price strike mins_remaining;
  let win_pnl := calc_net_pnl contracts entry_price 1.0 "settlement" in
  let lose_pnl := calc_net_pnl contracts entry_price 0.0 "settlement" in
  let settle_ev := adj_prob * win_pnl + (1 - adj_prob) * lose_pnl in
  let distance := btc_price - IZR strike in
  let price_gain_pct :=
    if decide (entry_price > 0) then (fv - entry_price) / entry_price * 100
    else 0 in
  Some (exit_decision variant mins_remaining early_pnl settle_ev lose_pnl
          distance price_gain_pct).

(** The [VARIANTS] that the script runs. *)
Definition VARIANTS : list string :=
  ["baseline"; "15m_profit"; "10m_profit"; "15m_momentum"; "10m_momentum";
   "15m_buffer"; "combined"; "aggressive_combined"]%string.

(** The dict returned by [simulate_trade_with_exits]. *)
Record TradeExit := mkTradeExit {
  te_outcome : string;
  te_pnl : R;
  te_reason : string;
  te_exit_minute : Z
}.

(** [for m in range(1, remaining_minutes)], over the list of the [m] that
    are left; [Some (inl r)] is the early return, [Some (inr tt)] falling
    out of the loop, [None] an exception ([prices[m]] out of range or the
    ZeroDivisionError of [should_exit]). *)
Fixpoint exit_loop (variant : string) (entry_minute : Z) (prices : list R)
    (strike : Z) (entry_price contracts vol entry_momentum : R) (ms : list nat)
    : option (TradeExit + unit) :=
  match ms with
  | [] => Some (inr tt)
  | m :: rest =>
      let minute := (entry_minute + Z.of_nat m)%Z in
      btc_now ← prices !! m;
      '(should, reason) ←
        should_exit variant (IZR minute) btc_now strike entry_price contracts vol
          entry_momentum;
      if (should : bool) then
        let fv := estimate_fair_value btc_now (IZR strike) vol (60 - IZR minute) in
        let pnl := calc_net_pnl contracts entry_price fv "early" in
        Some (inl (mkTradeExit "early_exit" pnl reason minute))
      else exit_loop variant entry_minute prices strike entry_price contracts vol
             entry_momentum rest
  end.

(** [simulate_trade_with_exits]; the result comes with the state of [rng]
    after the call.  [None] is an exception: [math.sqrt] of a negative
    number for [entry_minute > 60], or the ZeroDivisionError of
    [apply_pinning_discount]. *)
Definition simulate_trade_with_exits (G : RandomGen) (entry_price : R)
    (strike : Z) (contracts vol entry_momentum : R) (variant : string)
    (rng : rng_state G) (entry_minute : Z) : option (TradeExit * rng_state G) :=
  let btc_entry0 := IZR strike - 50 in
  if decide (IZR (60 - entry_minute) / 60 < 0) then None else
  let expected_move :=
    btc_entry0 * (vol / 100) * sqrt (IZR (60 - entry_minute) / 60) in
  let '(btc_entry, rng1) :=
    if decide (expected_move > 0) then
      let '(g, rng1) := rng_gauss G 0 0.3 rng in
      let z_entry := -0.5 + g in
      (IZR strike + z_entry * expected_move, rng1)
    else (IZR strike - 100, rng) in
  let remaining_minutes := (60 - entry_minute)%Z in
  let '(prices, rng2) :=
    simulate_minute_path G btc_entry vol rng1 remaining_minutes in
  early ←
    exit_loop variant entry_minute prices strike entry_price contracts vol
      entry_momentum (seq 1 (Z.to_nat remaining_minutes - 1));
  match early with
  | inl r => Some (r, rng2)
  | inr _ =>
      settle_price ← last prices;
      adj_prob ←
        apply_pinning_discount (estimate_fair_value settle_price (IZR strike) vol 1)
          settle_price strike 1;
      let '(u, rng3) := rng_random G rng2 in
      if decide (u < adj_prob) then
        Some (mkTradeExit "win"
                (calc_net_pnl contracts entry_price 1.0 "settlement")
                "settlement win" 60, rng3)
      else
        Some (mkTradeExit "loss"
                (calc_net_pnl contracts entry_price 0.0 "settlement")
                "settlement loss" 60, rng3)
  end.

End ExperimentTimedExit.

(** ** backtest_interwindow.py: statistics and the parameter sweep *)

Module InterwindowSweep.
Import BacktestInterwindow.

(** [statistics.mean(xs)], called on non-empty lists only. *)
Definition mean (xs : list R) : R := py_sum xs / INR (length xs).

(** [statistics.stdev(xs)], the sample standard deviation, called on lists
    of two or more numbers only. *)
Definition stdev (xs : list R) : R :=
  let m := mean xs in
  sqrt (py_sum ((λ x, (x - m) * (x - m)) <$> xs) / INR (length xs - 1)).

Definition sharpe (returns : list R) : R :=
  if decide (length returns < 2)%nat then 0.0
  else
    let m := mean returns in
    let s := stdev returns in
    if decide (s = 0) then 0.0
    else (m / s) * sqrt (96 * 252).

(** One pass of [for v in equity_curve] over [(peak, mdd)]. *)
Definition drawdown_step (st : R * R) (v : R) : R * R :=
  let '(peak, mdd) := st in
  let peak := if decide (v > peak) then v else peak in
  let dd := if decide (peak <> 0) then (peak - v) / Rabs peak else 0 in
  let mdd := if decide (dd > mdd) then dd else mdd in
  (peak, mdd).

Definition max_drawdown (equity_curve : list R) : R :=
  match equity_curve with
  | [] => 0.0
  | v0 :: _ => (foldl drawdown_step (v0, 0.0) equity_curve).2
  end.

(** The local variables of one parameter combination. *)
Record SweepState := mkSweepState {
  trade_returns : list R;
  equity : list R;
  running_pnl : R;
  trade_count : Z;
  skip_regime : Z;
  skip_threshold : Z
}.

Definition sweep_init : SweepState := mkSweepState [] [0.0] 0.0 0 0 0.

(** The body of [for i in range(1, len(windows))]; [None] is an exception:
    the ZeroDivisionError of a window with an open of 0. *)
Definition sweep_step (windows : list Window) (regimes : list string)
    (threshold : R) (direction regime_filter : string)
    (st : SweepState) (i : nat) : option SweepState :=
  prev_w ← windows !! (i - 1)%nat;
  curr_w ← windows !! i;
  if decide (w_ts curr_w - w_ts prev_w <> 15 * 60)%Z then Some st else
  let curr_regime :=
    if decide (i < length regimes)%nat
    then default "unknown"%string (regimes !! i) else "unknown"%string in
  if decide (regime_filter <> "all"%string /\ curr_regime <> regime_filter) then
    Some (mkSweepState (trade_returns st) (equity st) (running_pnl st)
            (trade_count st) (skip_regime st + 1) (skip_threshold st))
  else
  if decide (w_open prev_w = 0) then None else
  let prev_return := (w_close prev_w - w_open prev_w) / w_open prev_w * 100 in
  if decide (w_open curr_w = 0) then None else
  let curr_return := (w_close curr_w - w_open curr_w) / w_open curr_w * 100 in
  if decide (Rabs prev_return < threshold) then
    Some (mkSweepState (trade_returns st) (equity st) (running_pnl st)
            (trade_count st) (skip_regime st) (skip_threshold st + 1))
  else
  let prev_bullish := bool_decide (prev_return > 0) in
  let predict_up :=
    if decide (direction = "continuation"%string) then prev_bullish
    else negb prev_bullish in
  let curr_bullish := bool_decide (curr_return > 0) in
  let won := bool_decide (predict_up = curr_bullish) in
  let entry_cents := 15.0 in
  let pnl := if won then (100 - entry_cents) * 0.93 else - entry_cents in
  let running_pnl' := running_pnl st + pnl in
  Some (mkSweepState (trade_returns st ++ [pnl]) (equity st ++ [running_pnl'])
          running_pnl' (trade_count st + 1) (skip_regime st) (skip_threshold st)).

Definition sweep_loop (windows : list Window) (regimes : list string)
    (threshold : R) (direction regime_filter : string) : option SweepState :=
  foldl (λ acc i,
           acc ≫= λ st,
             sweep_step windows regimes threshold direction regime_filter st i)
        (Some sweep_init) (seq 1 (length windows - 1)).

(** An entry of [results]. *)
Record SweepResult := mkSweepResult {
  sr_prev_return_threshold : R;
  sr_direction : string;
  sr_regime_filter : string;
  sr_sharpe : R;
  sr_win_rate : R;
  sr_avg_pnl_cents : R;
  sr_trade_count : Z;
  sr_max_drawdown : R;
  sr_skip_regime : Z;
  sr_skip_threshold : Z
}.

(** [list(product(...))]: the last key varies fastest. *)
Definition combos : list (R * string * string) :=
  threshold ← [0.2; 0.3; 0.5; 0.8];
  direction ← ["continuation"; "mean_reversion"]%string;
  regime_filter ← ["all"; "momentum"; "meanReversion"]%string;
  [(threshold, direction, regime_filter)].

(** What one combination adds to [results]: nothing below five trades. *)
Definition combo_result (windows : list Window) (regimes : list string)
    (combo : R * string * string) : option (list SweepResult) :=
  let '(threshold, direction, regime_filter) := combo in
  st ← sweep_loop windows regimes threshold direction regime_filter;
  if decide (trade_count st < 5)%Z then Some []
  else
    let sh := sharpe (trade_returns st) in
    let win_rate :=
      INR (length (filter (λ r, r > 0) (trade_returns st)))
      / INR (length (trade_returns st)) in
    let avg_pnl := mean (trade_returns st) in
    let mdd := max_drawdown (equity st) in
    Some [mkSweepResult threshold direction regime_filter sh win_rate avg_pnl
            (trade_count st) mdd (skip_regime st) (skip_threshold st)].

(** [sorted(results, key=lambda r: r['sharpe'], reverse=True)]: a stable
    sort, so entries with equal keys keep their order. *)
Fixpoint insert_by_sharpe (x : SweepResult) (rs : list SweepResult)
    : list SweepResult :=
  match rs with
  | [] => [x]
  | y :: rest =>
      if decide (sr_sharpe y <= sr_sharpe x) then x :: y :: rest
      else y :: insert_by_sharpe x rest
  end.

Definition sort_by_sharpe (rs : list SweepResult) : list SweepResult :=
  foldr insert_by_sharpe [] rs.

Definition run_interwindow_sweep (windows : list Window)
    (regimes : list string) : option (list SweepResult) :=
  results ← mapM (combo_result windows regimes) combos;
  Some (sort_by_sharpe (concat results)).

End InterwindowSweep.

Module SweepFacts.
Import BacktestInterwindow InterwindowSweep.

(** The bookkeeping relations among the local variables of one parameter
    combination after [n] passes of the loop. *)
Definition sweep_inv (n : nat) (st : SweepState) : Prop :=
  trade_count st = Z.of_nat (length (trade_returns st))
  /\ Forall (λ r, r = 79.05 \/ r = -15) (trade_returns st)
  /\ length (equity st) = S (length (trade_returns st))
  /\ (0 <= skip_regime st)%Z
  /\ (0 <= skip_threshold st)%Z
  /\ (trade_count st + skip_regime st + skip_threshold st <= Z.of_nat n)%Z.

(** Two runs that traded the same windows with opposite results. *)
Definition mirrored (sc sm : SweepState) : Prop :=
  trade_count sc = trade_count sm
  /\ skip_regime sc = skip_regime sm
  /\ skip_threshold sc = skip_threshold sm
  /\ Forall2 (λ a b, (a = 79.05 /\ b = -15) \/ (a = -15 /\ b = 79.05))
       (trade_returns sc) (trade_returns sm).

(** What every entry of the sweep's result list satisfies. *)
Definition result_ok (windows : list Window) (r : SweepResult) : Prop :=
  (sr_prev_return_threshold r, sr_direction r, sr_regime_filter r) ∈ combos
  /\ (5 <= sr_trade_count r)%Z
  /\ (0 <= sr_skip_regime r)%Z
  /\ (0 <= sr_skip_threshold r)%Z
  /\ (sr_trade_count r + sr_skip_regime r + sr_skip_threshold r
      <= Z.of_nat (length windows - 1))%Z
  /\ 0 <= sr_win_rate r <= 1
  /\ -15 <= sr_avg_pnl_cents r <= 79.05
  /\ Rabs (sr_avg_pnl_cents r - (94.05 * sr_win_rate r - 15)) <= 1e-9
  /\ 0 <= sr_max_drawdown r.

End SweepFacts.

(** * Properties *)

(** ** Arithmetic of the Python primitives *)

Lemma py_max_Rmax a b : py_max a b = Rmax a b.
Proof.
  unfold py_max, Rmax. case_decide; destruct (Rle_dec a b); lra.
Qed.

Lemma py_min_Rmin a b : py_min a b = Rmin a b.
Proof.
  unfold py_min, Rmin. case_decide; destruct (Rle_dec a b); lra.
Qed.

Lemma py_max_ge_l a b : a <= py_max a b.
Proof. unfold py_max; case_decide; lra. Qed.

Lemma py_max_ge_r a b : b <= py_max a b.
Proof. unfold py_max; case_decide; lra. Qed.

Lemma py_min_le_l a b : py_min a b <= a.
Proof. unfold py_min; case_decide; lra. Qed.

Lemma py_min_le_r a b : py_min a b <= b.
Proof. unfold py_min; case_decide; lra. Qed.

(** ** Fees *)

Section Fees.
Import Backtest.

Lemma calc_net_pnl_early c e x :
  calc_net_pnl c e x "early" = (c * x - taker_fee (c * x)) - (c * e + taker_fee (c * e)).
Proof. unfold calc_net_pnl, taker_fee. rewrite decide_True by done. lra. Qed.

Lemma calc_net_pnl_not_early c e x ty :
  ty <> "early"%string ->
  calc_net_pnl c e x ty = c * x - (c * e + taker_fee (c * e)).
Proof. intros. unfold calc_net_pnl, taker_fee. rewrite decide_False by done. lra. Qed.

Section Binary64Evaluation.
Import PrimFloat.


(** The same binary64 value is negative and within a billionth of the
    entry cost of minus the entry fee; so is the value at 50 contracts for
    0.40. *)
#[warnings="-inexact-float"]
Lemma calc_net_pnl_within_rounding :
  (Binary64.calc_net_pnl 16 0.6 0.6 "settlement" <? 0)%float = true
  /\ (abs (Binary64.calc_net_pnl 16 0.6 0.6 "settlement" + 16 * 0.6 * 1.5 / 100)
      <=? 1e-9 * (16 * 0.6))%float = true
  /\ (Binary64.calc_net_pnl 50 0.4 0.4 "settlement" <? 0)%float = true
  /\ (abs (Binary64.calc_net_pnl 50 0.4 0.4 "settlement" + 50 * 0.4 * 1.5 / 100)
      <=? 1e-9 * (50 * 0.4))%float = true.
Proof. repeat split; vm_compute; reflexivity. Qed.

End Binary64Evaluation.



End Fees.

(** ** Resale price of a contract *)

Lemma estimate_contract_price_same d m :
  ExperimentConservative.estimate_contract_price d m
  = Backtest.estimate_contract_price d m.
Proof. reflexivity. Qed.

Lemma estimate_contract_price_bounds d m :
  0 <= m <= 60 -> 0.30 <= Backtest.estimate_contract_price d m <= 0.99.
Proof.
  intros Hm. unfold Backtest.estimate_contract_price.
  case_decide as Hd; [lra|].
  set (base := py_min 0.95 (0.5 + d / 1000)).
  assert (Hbase : 0.5 <= base <= 0.95).
  { subst base. unfold py_min. case_decide; lra. }
  assert (Hmult : 1 <= 1 + (60 - m) / 120 <= 1.5) by lra.
  unfold py_min. case_decide; nra.
Qed.

Lemma estimate_contract_price_negative :
  Backtest.estimate_contract_price 100 300 = -0.6.
Proof.
  unfold Backtest.estimate_contract_price, py_min.
  repeat case_decide; lra.
Qed.

(** C10: with between 0 and 60 minutes remaining the resale price lies in
    [[0.30, 0.99]] for every distance from the strike, in both copies of
    the function; the bound on the minutes is needed, because 100 dollars
    in the money with 300 minutes remaining gives a negative price. *)
Theorem estimate_contract_price_range :
  (forall d m, 0 <= m <= 60 ->
     0.30 <= Backtest.estimate_contract_price d m <= 0.99
     /\ 0.30 <= ExperimentConservative.estimate_contract_price d m <= 0.99)
  /\ (exists d m, m > 180 /\ d > 0 /\ Backtest.estimate_contract_price d m < 0).
Proof.
  split.
  - intros d m Hm. split; [|rewrite (estimate_contract_price_same d m)];
      apply estimate_contract_price_bounds; exact Hm.
  - exists 100, 300. rewrite estimate_contract_price_negative. lra.
Qed.

Lemma estimate_contract_price_range_witness :
  0.30 <= Backtest.estimate_contract_price 500 30 <= 0.99.
Proof.
  apply (proj1 estimate_contract_price_range 500 30). lra.
Defined.

(** ** The exit decision of [simulate_trade] *)

Section ExitEngine.
Import Backtest.

Lemma sqrt_between a lo hi :
  0 <= lo -> lo * lo <= a <= hi * hi -> 0 <= hi -> lo <= sqrt a <= hi.
Proof.
  intros Hlo [Ha1 Ha2] Hhi. split.
  - rewrite <- (sqrt_square lo) by done. apply sqrt_le_1_alt. lra.
  - rewrite <- (sqrt_square hi) by done. apply sqrt_le_1_alt. lra.
Qed.

Lemma quotient_between a em lo hi :
  0 < lo -> lo <= em <= hi -> 0 <= a -> a / hi <= a / em <= a / lo.
Proof.
  intros Hlo [H1 H2] Ha. unfold Rdiv.
  assert (/ hi <= / em) by (apply Rinv_le_contravar; lra).
  assert (/ em <= / lo) by (apply Rinv_le_contravar; lra).
  split; apply Rmult_le_compat_l; done.
Qed.

(** At the 30 minute mark of the example candle the z-score is about 0.85,
    in the band of 0.16. *)
Lemma held_risk_mid : calc_risk_of_ruin 50150 50000 0.5 30 = 0.16.
Proof.
  unfold calc_risk_of_ruin, ror_z. cbv zeta.
  assert (Hmax : py_max (30 / 60) 0.01 = 0.5)
    by (unfold py_max; rewrite decide_False by lra; lra).
  rewrite Hmax.
  pose proof (sqrt_between 0.5 0.7 0.72 ltac:(lra) ltac:(lra) ltac:(lra)) as Hs.
  set (em := 50150 * (0.5 / 100) * sqrt 0.5).
  assert (Hem : 175 <= em <= 181) by (subst em; lra).
  rewrite decide_True by lra.
  pose proof (quotient_between (50150 - 50000) em 175 181 ltac:(lra) Hem ltac:(lra))
    as Hz.
  set (z := (50150 - 50000) / em) in *.
  assert (0.8 <= z <= 0.9) by lra.
  unfold ror_lookup. repeat (rewrite decide_False by lra). by rewrite decide_True by lra.
Qed.

(** At the 50 minute mark the z-score is about -0.1, in the band of 0.5. *)
Lemma held_risk_late : calc_risk_of_ruin 49990 50000 0.5 10 = 0.5.
Proof.
  unfold calc_risk_of_ruin, ror_z. cbv zeta.
  assert (Hmax : py_max (10 / 60) 0.01 = 10 / 60)
    by (unfold py_max; by rewrite decide_False by lra).
  rewrite Hmax.
  pose proof (sqrt_between (10 / 60) 0.4 0.41 ltac:(lra) ltac:(lra) ltac:(lra)) as Hs.
  set (em := 49990 * (0.5 / 100) * sqrt (10 / 60)).
  assert (Hem : 99 <= em <= 103) by (subst em; lra).
  rewrite decide_True by lra.
  pose proof (quotient_between 10 em 99 103 ltac:(lra) Hem ltac:(lra)) as Hz.
  replace ((49990 - 50000) / em) with (- (10 / em)) by (unfold Rdiv; lra).
  set (z := 10 / em) in *.
  assert (0.09 <= z <= 0.11) by lra.
  unfold ror_lookup. repeat (rewrite decide_False by lra). by rewrite decide_True by lra.
Qed.

Lemma held_candle_checkpoints :
  ~ critical_risk 50000 0.5 held_candle
  /\ ~ negative_ev_hold 0.60 50000 16 0.5 held_candle
  /\ ~ high_risk_late 0.60 50000 16 0.5 held_candle.
Proof.
  assert (Hmid : (c_open held_candle + c_close held_candle) / 2 = 50150)
    by (cbn; lra).
  assert (Himplied : estimate_contract_price (50150 - 50000) 30 = 0.8125).
  { unfold estimate_contract_price. rewrite decide_False by lra.
    assert (Hbase : py_min 0.95 (0.5 + (50150 - 50000) / 1000) = 0.65)
      by (unfold py_min; rewrite decide_True by lra; lra).
    rewrite Hbase. unfold py_min. rewrite decide_True by lra. lra. }
  assert (Hlate : estimate_contract_price (49990 - 50000) 10 = 0.30).
  { unfold estimate_contract_price. by rewrite decide_True by lra. }
  unfold critical_risk, negative_ev_hold, high_risk_late. cbv zeta.
  rewrite Hmid. change (c_close held_candle) with 49990.
  rewrite held_risk_mid, held_risk_late, Himplied, Hlate.
  rewrite !calc_net_pnl_early, !calc_net_pnl_not_early by done.
  unfold taker_fee, TAKER_FEE_PCT.
  split; [lra|]. split; intros [H1 H2]; lra.
Qed.

(** C1: a trade with at least one later candle is resolved as exactly one
    of win, loss, early_exit_critical, early_exit_ev, early_exit_high_risk
    (the function is total, so it always returns); each early exit is
    returned exactly when its checkpoint test is the first to hold on the
    settlement candle; and when no checkpoint test holds, the outcome is
    win if the close of the settlement candle is strictly above the strike
    and loss otherwise. *)
Theorem simulate_trade_outcome
    (entry_price strike contracts volatility : R) (candles_after : list Candle) :
  candles_after <> [] ->
  exists sc,
    head candles_after = Some sc
    /\ let r := simulate_trade entry_price strike contracts candles_after
                  volatility in
       let critical := critical_risk strike volatility sc in
       let ev := negative_ev_hold entry_price strike contracts volatility sc in
       let late := high_risk_late entry_price strike contracts volatility sc in
       tr_outcome r ∈ resolved_outcomes
       /\ (tr_outcome r = early_exit_critical <-> critical)
       /\ (tr_outcome r = early_exit_ev <-> ~ critical /\ ev)
       /\ (tr_outcome r = early_exit_high_risk <-> ~ critical /\ ~ ev /\ late)
       /\ (~ critical -> ~ ev -> ~ late ->
           tr_outcome r = if decide (c_close sc > strike) then win else loss).
Proof.
  intros Hne. destruct candles_after as [|sc rest]; [done|]. clear Hne.
  exists sc. split; [done|].
  unfold resolved_outcomes, simulate_trade, critical_risk, negative_ev_hold,
    high_risk_late. cbv zeta.
  repeat match goal with
         | |- context [decide ?P] => destruct (decide P)
         end;
    cbn [tr_outcome];
    (split; [apply list_elem_of_In; simpl; tauto|]);
    repeat split; try done; try tauto.
Qed.

Lemma simulate_trade_outcome_witness :
  tr_outcome (simulate_trade 0.60 50000 16 [held_candle] 0.5) = loss.
Proof.
  destruct (simulate_trade_outcome 0.60 50000 16 0.5 [held_candle])
    as (sc & Hhead & _ & _ & _ & _ & Hsettle); [discriminate|].
  injection Hhead as <-.
  destruct held_candle_checkpoints as (Hcritical & Hev & Hlate).
  rewrite (Hsettle Hcritical Hev Hlate).
  apply decide_False. cbn. lra.
Defined.

End ExitEngine.

(** ** The continuous fair-value model *)

Section FairValue.
Import BacktestCombined.

Lemma estimate_fair_value_boundary price strike vol mins :
  vol <= 0 \/ mins <= 0 ->
  estimate_fair_value price strike vol mins
  = if decide (price > strike) then 1.0 else 0.0.
Proof. intros H. unfold estimate_fair_value. rewrite decide_True by done. done. Qed.

Lemma clamp_bounds prob : 0.01 <= py_max 0.01 (py_min 0.99 prob) <= 0.99.
Proof. unfold py_max, py_min. repeat case_decide; lra. Qed.

(** The claim C2 as it is stated fails: with zero volatility and thirty
    minutes left the model returns exactly 1. *)
Lemma estimate_fair_value_zero_vol :
  estimate_fair_value 50500 50000 0 30 = 1
  /\ ~ (forall price strike vol mins, ~ mins <= 0 ->
          0.01 <= estimate_fair_value price strike vol mins <= 0.99).
Proof.
  assert (H : estimate_fair_value 50500 50000 0 30 = 1).
  { rewrite estimate_fair_value_boundary by lra. rewrite decide_True by lra. lra. }
  split; [exact H|]. intros Hall.
  specialize (Hall 50500 50000 0 30). rewrite H in Hall. lra.
Qed.

(** C2, amended: with positive volatility and positive minutes remaining
    the fair value lies in [[0.01, 0.99]], so it is neither 0 nor 1; when
    the volatility or the minutes remaining are not positive it is exactly
    1.0 if the price is above the strike and exactly 0.0 otherwise. *)
Theorem estimate_fair_value_range (price strike vol mins : R) :
  (vol > 0 -> mins > 0 ->
     0.01 <= estimate_fair_value price strike vol mins <= 0.99)
  /\ (vol <= 0 \/ mins <= 0 ->
      estimate_fair_value price strike vol mins
      = if decide (price > strike) then 1.0 else 0.0).
Proof.
  split; [|apply estimate_fair_value_boundary].
  intros Hv Hm. unfold estimate_fair_value.
  rewrite decide_False by lra.
  case_decide; [case_decide; lra|]. apply clamp_bounds.
Qed.

Lemma estimate_fair_value_range_witness :
  0.01 <= estimate_fair_value 50500 50000 1 30 <= 0.99.
Proof.
  apply (proj1 (estimate_fair_value_range 50500 50000 1 30)); lra.
Defined.

End FairValue.

(** ** The polynomial CDF at one standard deviation *)

Lemma exp_neg_half_bounds : 1/2 <= exp (- (1/2)) <= 2/3.
Proof.
  pose proof (exp_ineq1_le (- (1/2))) as Hlo.
  pose proof (exp_ineq1_le (1/2)) as Hhi.
  pose proof (exp_pos (- (1/2))) as Hpos.
  assert (Hprod : exp (- (1/2)) * exp (1/2) = 1).
  { rewrite <- exp_plus. replace (- (1/2) + 1/2) with 0 by lra. apply exp_0. }
  split; [lra|]. nra.
Qed.

Lemma one_over_times d : d <> 0 -> 1.0 / d * d = 1.
Proof. intros Hd. unfold Rdiv. rewrite Rmult_assoc, Rinv_l by exact Hd. lra. Qed.

Lemma normal_cdf_1_bounds :
  0.85 < BacktestCombined.normal_cdf 1 < 0.90.
Proof.
  unfold BacktestCombined.normal_cdf, BacktestCombined.cdf_poly.
  rewrite decide_False by lra. rewrite (Rabs_right 1) by lra.
  replace (exp _) with (exp (- (1/2))) by (f_equal; lra).
  pose proof exp_neg_half_bounds as [Hlo Hhi].
  set (E := exp (- (1/2))) in *.
  pose proof (one_over_times (1.0 + 0.3275911 * 1) ltac:(lra)) as Ht.
  set (t := 1.0 / (1.0 + 0.3275911 * 1)) in *.
  assert (Ht' : t = 10000000 / 13275911) by lra.
  rewrite Ht'. lra.
Qed.

(** ** The risk-of-ruin table *)

Section RiskOfRuin.
Import Backtest.

Lemma calc_risk_of_ruin_same p s v m :
  ExperimentConservative.calc_risk_of_ruin p s v m = calc_risk_of_ruin p s v m.
Proof. reflexivity. Qed.

Lemma ror_lookup_in z : ror_lookup z ∈ ror_values.
Proof.
  unfold ror_lookup, ror_values.
  repeat case_decide; apply list_elem_of_In; simpl; tauto.
Qed.

Lemma ror_values_NoDup : NoDup ror_values.
Proof.
  unfold ror_values.
  repeat (apply NoDup_cons; split;
          [rewrite ?elem_of_cons, elem_of_nil; intuition lra|]).
  apply NoDup_nil_2.
Qed.

Lemma sqrt_one_hour : sqrt (py_max (60 / 60) 0.01) = 1.
Proof.
  unfold py_max. rewrite decide_False by lra.
  replace (60 / 60) with 1 by lra. apply sqrt_1.
Qed.

Lemma ror_z_one_hour p s v :
  p * (v / 100) > 0 -> ror_z p s v 60 = (p - s) / (p * (v / 100)).
Proof.
  intros Hpos. unfold ror_z. rewrite sqrt_one_hour, Rmult_1_r.
  rewrite decide_True by lra. reflexivity.
Qed.

Lemma ror_at_z p s v z :
  p * (v / 100) > 0 -> s = p - z * (p * (v / 100)) ->
  calc_risk_of_ruin p s v 60 = ror_lookup z.
Proof.
  intros Hpos ->. unfold calc_risk_of_ruin. rewrite ror_z_one_hour by done.
  f_equal. set (k := p * (v / 100)) in *. field. lra.
Qed.

Lemma ror_values_attained x :
  x ∈ ror_values -> exists s, calc_risk_of_ruin 50000 s 1 60 = x.
Proof.
  unfold ror_values. rewrite !elem_of_cons, elem_of_nil.
  intros [->|[->|[->|[->|[->|[->|[->|[->|[->|[]]]]]]]]]].
  - exists 51500. rewrite (ror_at_z _ _ _ (-3)) by lra.
    unfold ror_lookup. repeat case_decide; lra.
  - exists 50750. rewrite (ror_at_z _ _ _ (-1.5)) by lra.
    unfold ror_lookup. repeat case_decide; lra.
  - exists 50375. rewrite (ror_at_z _ _ _ (-0.75)) by lra.
    unfold ror_lookup. repeat case_decide; lra.
  - exists 50125. rewrite (ror_at_z _ _ _ (-0.25)) by lra.
    unfold ror_lookup. repeat case_decide; lra.
  - exists 49875. rewrite (ror_at_z _ _ _ 0.25) by lra.
    unfold ror_lookup. repeat case_decide; lra.
  - exists 49625. rewrite (ror_at_z _ _ _ 0.75) by lra.
    unfold ror_lookup. repeat case_decide; lra.
  - exists 49375. rewrite (ror_at_z _ _ _ 1.25) by lra.
    unfold ror_lookup. repeat case_decide; lra.
  - exists 49125. rewrite (ror_at_z _ _ _ 1.75) by lra.
    unfold ror_lookup. repeat case_decide; lra.
  - exists 48500. rewrite (ror_at_z _ _ _ 3) by lra.
    unfold ror_lookup. repeat case_decide; lra.
Qed.

(** The claim C8 as it is stated fails: no list of 8 constants holds every
    value that [calc_risk_of_ruin] returns. *)
Lemma calc_risk_of_ruin_not_eight :
  ~ (exists consts : list R,
       length consts = 8%nat
       /\ forall p s v m, calc_risk_of_ruin p s v m ∈ consts).
Proof.
  intros (consts & Hlen & Hall).
  assert (Hsub : ror_values ⊆+ consts).
  { apply NoDup_submseteq; [apply ror_values_NoDup|].
    intros x Hx. destruct (ror_values_attained x Hx) as [s <-]. apply Hall. }
  apply submseteq_length in Hsub. rewrite Hlen in Hsub.
  unfold ror_values in Hsub. simpl in Hsub. lia.
Qed.

Lemma fair_value_one_sigma :
  0.85 < BacktestCombined.estimate_fair_value 50000 49500 1 60 < 0.90.
Proof.
  unfold BacktestCombined.estimate_fair_value.
  rewrite decide_False by lra.
  assert (Hs : sqrt (py_max 60 0.5 / 60) = 1).
  { unfold py_max. rewrite decide_False by lra.
    replace (60 / 60) with 1 by lra. apply sqrt_1. }
  rewrite Hs, Rmult_1_r. rewrite decide_False by lra.
  replace ((50000 - 49500) / (50000 * (1 / 100))) with 1 by lra.
  pose proof normal_cdf_1_bounds. unfold py_max, py_min.
  repeat case_decide; lra.
Qed.

(** C8, amended: the table has 8 thresholds and therefore 9 bands; for
    every input, in both copies of the function, the result is one of the 9
    pairwise distinct constants 0.98, 0.84, 0.69, 0.5, 0.31, 0.16, 0.07,
    0.02, 0.01, each of which is returned for some input; and the table is
    not the complement of the continuous fair value: at price 50000, strike
    49500, volatility 1 and 60 minutes the two disagree. *)
Theorem calc_risk_of_ruin_nine_bands :
  (forall p s v m,
     calc_risk_of_ruin p s v m ∈ ror_values
     /\ ExperimentConservative.calc_risk_of_ruin p s v m ∈ ror_values)
  /\ length ror_values = 9%nat
  /\ NoDup ror_values
  /\ (forall x, x ∈ ror_values -> exists p s v m, calc_risk_of_ruin p s v m = x)
  /\ 1 - calc_risk_of_ruin 50000 49500 1 60
     <> BacktestCombined.estimate_fair_value 50000 49500 1 60.
Proof.
  split; [|split; [reflexivity|split; [apply ror_values_NoDup|split]]].
  - intros p s v m.
    split; [|rewrite (calc_risk_of_ruin_same p s v m)]; apply ror_lookup_in.
  - intros x Hx. destruct (ror_values_attained x Hx) as [s Hs].
    by exists 50000, s, 1, 60.
  - rewrite (ror_at_z _ _ _ 1) by lra.
    pose proof fair_value_one_sigma.
    unfold ror_lookup. repeat case_decide; lra.
Qed.

End RiskOfRuin.

(** ** Strike-distance filter of the deployed signals *)

Section StrikeDistance.
Import Backtest BacktestSignals.

Lemma strike_ok_antitone dist d1 d2 :
  d1 <= d2 ->
  bool_decide (dist >= d2) = true -> bool_decide (dist >= d1) = true.
Proof.
  intros Hd H. apply bool_decide_eq_true in H. apply bool_decide_eq_true. lra.
Qed.

Lemma check_conservative_well_behaved : well_behaved check_conservative.
Proof.
  intros candles price hour d Hne. unfold check_conservative.
  destruct (last candles) as [lastc|] eqn:Hlast;
    [|by apply last_None in Hlast].
  cbn. eexists. split; [reflexivity|]. cbn. intros ->. by eexists.
Qed.

Lemma check_aggressive_well_behaved : well_behaved check_aggressive.
Proof.
  intros candles price hour d Hne. unfold check_aggressive.
  destruct (last candles) as [lastc|] eqn:Hlast;
    [|by apply last_None in Hlast].
  cbn. eexists. split; [reflexivity|]. cbn. intros ->. by eexists.
Qed.

Lemma check_conservative_antitone : antitone_in_distance check_conservative.
Proof.
  intros candles price hour d1 d2 Hd (sig & Hsig & Hfire).
  unfold signal_fires, check_conservative in *.
  destruct (last candles) as [lastc|]; [|done].
  cbn in *. injection Hsig as <-. cbn in Hfire.
  eexists. split; [reflexivity|]. cbn.
  apply andb_true_iff in Hfire as [Hrest Hok].
  rewrite Hrest. cbn. by apply (strike_ok_antitone _ d1 d2).
Qed.

Lemma check_aggressive_antitone : antitone_in_distance check_aggressive.
Proof.
  intros candles price hour d1 d2 Hd (sig & Hsig & Hfire).
  unfold signal_fires, check_aggressive in *.
  destruct (last candles) as [lastc|]; [|done].
  cbn in *. injection Hsig as <-. cbn in Hfire.
  eexists. split; [reflexivity|]. cbn.
  apply andb_true_iff in Hfire as [Hrest Hok].
  rewrite Hrest. cbn. by apply (strike_ok_antitone _ d1 d2).
Qed.

Lemma py_slice_window_nonempty {A} (l : list A) (i : nat) :
  (i < length l)%nat -> py_slice (i - 12) (i + 1) l <> [].
Proof.
  intros Hi Hnil. apply (f_equal length) in Hnil.
  unfold py_slice in Hnil. rewrite length_take, length_drop in Hnil.
  simpl in Hnil. lia.
Qed.

Lemma py_max_list_snoc xs x : is_Some (py_max_list (xs ++ [x])).
Proof. destruct xs; by eexists. Qed.

Lemma hour_utc_of_Some ms :
  timestamp_ok ms -> hour_utc_of ms = Some ((ms / 3600000) mod 24)%Z.
Proof. intros Hok. unfold hour_utc_of. by rewrite decide_True. Qed.

Lemma hour_utc_of_None ms : hour_utc_of ms = None <-> ~ timestamp_ok ms.
Proof.
  unfold hour_utc_of, timestamp_ok. destruct (decide _); split; try done.
Qed.

(** One pass of the loop raises exactly on a timestamp outside the range
    of [datetime]; otherwise it adds one to the signal count exactly when
    the signal function fires. *)
Lemma backtest_step_signals candles fn d r i :
  well_behaved fn -> (i < length candles)%nat ->
  exists candle,
    candles !! i = Some candle
    /\ match hour_utc_of (open_time candle) with
       | None => backtest_step candles (mkStrategy fn d) r i = None
       | Some hour =>
           exists r' sig,
             fn (py_slice (i - 12) (i + 1) candles) (c_close candle) hour d
             = Some sig
             /\ backtest_step candles (mkStrategy fn d) r i = Some r'
             /\ r_signals r' = (r_signals r + if sig_signal sig then 1 else 0)%Z
       end.
Proof.
  intros Hwb Hi.
  destruct (lookup_lt_is_Some_2 candles i Hi) as [candle Hc].
  exists candle. split; [done|].
  unfold backtest_step. rewrite Hc. cbn [mbind option_bind].
  destruct (hour_utc_of (open_time candle)) as [hour|]; [|done].
  cbn [mbind option_bind st_fn st_min_strike_dist].
  destruct (Hwb (py_slice (i - 12) (i + 1) candles) (c_close candle) hour d
              (py_slice_window_nonempty candles i Hi)) as (sig & Hsig & Hstrike).
  rewrite Hsig. cbn [mbind option_bind].
  destruct (sig_signal sig) eqn:Hfire.
  - destruct (Hstrike eq_refl) as [strike Hs]. rewrite Hs. cbn.
    case_decide.
    + eexists _, sig. repeat split; try done. by rewrite Hfire.
    + destruct (py_max_list_snoc (r_pnl_series r)
                  (r_total_pnl r + tr_pnl
                     (simulate_trade (sig_entry_price sig) (IZR strike)
                        (IZR (sig_contracts sig))
                        (take 2 (drop (i + 1) candles))
                        (calc_volatility candle)))) as [peak Hpeak].
      rewrite Hpeak. cbn.
      eexists _, sig. repeat split; try done. by rewrite Hfire.
  - eexists r, sig. repeat split; try done. rewrite Hfire. lia.
Qed.

Lemma backtest_fold_None candles cfg indices :
  foldl (λ acc i, acc ≫= λ r, backtest_step candles cfg r i) None indices = None.
Proof. induction indices as [|i indices IH]; [done|]. cbn. exact IH. Qed.

(** Two runs over the same indices with thresholds [d1 <= d2]: both raise,
    on a timestamp out of range, or both finish, and then the run with the
    larger threshold never overtakes the other in its signal count. *)
Lemma backtest_loop_signals candles fn d1 d2 indices :
  well_behaved fn -> antitone_in_distance fn -> d1 <= d2 ->
  Forall (λ i, (i < length candles)%nat) indices ->
  forall r1 r2, (r_signals r2 <= r_signals r1)%Z ->
  match
    foldl (λ acc i, acc ≫= λ r, backtest_step candles (mkStrategy fn d1) r i)
      (Some r1) indices,
    foldl (λ acc i, acc ≫= λ r, backtest_step candles (mkStrategy fn d2) r i)
      (Some r2) indices
  with
  | Some r1', Some r2' => (r_signals r2' <= r_signals r1')%Z
  | None, None =>
      exists i candle, i ∈ indices /\ candles !! i = Some candle
                       /\ ~ timestamp_ok (open_time candle)
  | _, _ => False
  end.
Proof.
  intros Hwb Hanti Hd Hall. induction Hall as [|i indices Hi _ IH];
    intros r1 r2 Hle; [done|].
  destruct (backtest_step_signals candles fn d1 r1 i Hwb Hi) as (c1 & Hc1 & Hstep1).
  destruct (backtest_step_signals candles fn d2 r2 i Hwb Hi) as (c2 & Hc2 & Hstep2).
  rewrite Hc1 in Hc2. injection Hc2 as <-.
  cbn [foldl mbind option_bind].
  destruct (hour_utc_of (open_time c1)) as [hour|] eqn:Hhour.
  - destruct Hstep1 as (r1' & s1 & Hs1 & -> & Hn1).
    destruct Hstep2 as (r2' & s2 & Hs2 & -> & Hn2).
    assert (Hle' : (r_signals r2' <= r_signals r1')%Z).
    { rewrite Hn1, Hn2. destruct (sig_signal s2) eqn:Hf2.
      - assert (Hf1 : signal_fires fn (py_slice (i - 12) (i + 1) candles)
                        (c_close c1) hour d1).
        { apply (Hanti _ _ _ d1 d2 Hd). by exists s2. }
        destruct Hf1 as (s1' & Hs1' & Hfire1).
        rewrite Hs1 in Hs1'. injection Hs1' as <-. rewrite Hfire1. lia.
      - destruct (sig_signal s1); lia. }
    specialize (IH r1' r2' Hle').
    destruct (foldl _ (Some r1') indices), (foldl _ (Some r2') indices);
      try done.
    destruct IH as (j & c & Hj & Hc & Hbad).
    exists j, c. split; [apply elem_of_cons; by right|done].
  - rewrite Hstep1, Hstep2, !backtest_fold_None.
    exists i, c1. split; [apply elem_of_cons; by left|].
    split; [done|by apply hour_utc_of_None].
Qed.

Lemma backtest_indices_in_range (candles : list Candle) :
  Forall (λ i, (i < length candles)%nat) (seq 12 (length candles - 1 - 12)).
Proof. apply Forall_forall. intros i Hi. apply elem_of_seq in Hi. lia. Qed.

(** C7: for thresholds [d1 <= d2], a window, price and hour on which
    [check_conservative] (or [check_aggressive]) fires with
    [min_strike_distance = d2] also fires with [d1]; and over any candle
    path [run_backtest] either finishes for both thresholds, with a signal
    count for [d2] that is at most the count for [d1], or raises for both,
    which happens only on a candle whose timestamp [datetime] rejects. *)
Theorem min_strike_distance_antitone
    (candles : list Candle) (price : R) (hour : Z) (d1 d2 : R) :
  d1 <= d2 ->
  (signal_fires check_conservative candles price hour d2 ->
   signal_fires check_conservative candles price hour d1)
  /\ (signal_fires check_aggressive candles price hour d2 ->
      signal_fires check_aggressive candles price hour d1)
  /\ forall fn, fn = check_conservative \/ fn = check_aggressive ->
       match run_backtest candles (mkStrategy fn d1),
             run_backtest candles (mkStrategy fn d2) with
       | Some r1, Some r2 => (r_signals r2 <= r_signals r1)%Z
       | None, None =>
           exists candle, candle ∈ candles /\ ~ timestamp_ok (open_time candle)
       | _, _ => False
       end.
Proof.
  intros Hd. split; [|split].
  - by apply check_conservative_antitone.
  - by apply check_aggressive_antitone.
  - intros fn Hfn. unfold run_backtest.
    assert (Hwb : well_behaved fn).
    { destruct Hfn as [->| ->];
        [apply check_conservative_well_behaved|apply check_aggressive_well_behaved]. }
    assert (Hanti : antitone_in_distance fn).
    { destruct Hfn as [->| ->];
        [apply check_conservative_antitone|apply check_aggressive_antitone]. }
    pose proof (backtest_loop_signals candles fn d1 d2 _ Hwb Hanti Hd
                  (backtest_indices_in_range candles) results_init results_init
                  ltac:(done)) as Hloop.
    destruct (foldl _ _ _), (foldl _ _ _); try done.
    destruct Hloop as (i & c & _ & Hc & Hbad).
    exists c. split; [by eapply list_elem_of_lookup_2|done].
Qed.

Lemma rising_sma3 : calc_sma rising_window 3 = 50100.
Proof. unfold calc_sma, py_last_n, py_sum. rewrite decide_False by (cbn; lia). simpl. lra. Qed.
Lemma rising_sma6 : calc_sma rising_window 6 = 50050.
Proof. unfold calc_sma, py_last_n, py_sum. rewrite decide_False by (cbn; lia). simpl. lra. Qed.
Lemma rising_sma12 : calc_sma rising_window 12 = 50025.
Proof. unfold calc_sma, py_last_n, py_sum. rewrite decide_False by (cbn; lia). simpl. lra. Qed.

Lemma breakout_volatility : 0.5 <= calc_volatility breakout_candle <= 2.0.
Proof.
  unfold calc_volatility, breakout_candle. cbn. rewrite decide_False by lra. lra.
Qed.

Lemma breakout_position : calc_price_position breakout_candle = 80.
Proof.
  unfold calc_price_position, breakout_candle. cbn. rewrite decide_False by lra. lra.
Qed.

Lemma breakout_strike : calc_strike 50300 OTM = 50250%Z.
Proof. unfold calc_strike, STRIKE_INCREMENT. rewrite (Zfloor_eq 201) by lra. reflexivity. Qed.

(** On the example window, at 15h UTC, the conservative check fires exactly
    for thresholds of at most 50. *)
Lemma rising_window_signal d :
  exists sig, check_conservative rising_window 50300 15 d = Some sig
    /\ sig_signal sig = bool_decide (50 >= d).
Proof.
  unfold check_conservative.
  change (last rising_window) with (Some breakout_candle).
  cbn [mbind option_bind].
  rewrite rising_sma3, rising_sma6, rising_sma12, breakout_position, breakout_strike.
  eexists. split; [reflexivity|]. cbn [sig_signal].
  rewrite (bool_decide_eq_true_2 (14 <= 15 < 21)%Z) by lia.
  rewrite (bool_decide_eq_true_2 (50100 > 50050)) by lra.
  rewrite (bool_decide_eq_true_2 (50050 > 50025)) by lra.
  rewrite (bool_decide_eq_true_2 (0.5 <= calc_volatility breakout_candle <= 2.0))
    by apply breakout_volatility.
  rewrite (bool_decide_eq_true_2 (80 > 60)) by lra.
  cbn [andb orb]. apply bool_decide_ext. lra.
Qed.

Lemma rising_window_fires :
  signal_fires check_conservative rising_window 50300 15 0
  /\ ~ signal_fires check_conservative rising_window 50300 15 100.
Proof.
  split.
  - destruct (rising_window_signal 0) as (sig & Hsig & Hfire).
    exists sig. split; [done|]. rewrite Hfire. apply bool_decide_eq_true. lra.
  - intros (sig & Hsig & Hfire).
    destruct (rising_window_signal 100) as (sig' & Hsig' & Hfire').
    rewrite Hsig in Hsig'. injection Hsig' as <-.
    rewrite Hfire in Hfire'. symmetry in Hfire'.
    apply bool_decide_eq_true in Hfire'. lra.
Qed.

Lemma min_strike_distance_antitone_witness :
  signal_fires check_conservative rising_window 50300 15 0.
Proof.
  apply (min_strike_distance_antitone rising_window 50300 15 0 50); [lra|].
  destruct (rising_window_signal 50) as (sig & Hsig & Hfire).
  exists sig. split; [done|]. rewrite Hfire. apply bool_decide_eq_true. lra.
Defined.

End StrikeDistance.

(** ** Ruin in [run_variant] *)

Section Ruin.
Import ExperimentConservative.

Lemma set_ruin_hit_idem st : ruin_hit st = true -> set_ruin_hit st = st.
Proof. destruct st. unfold set_ruin_hit. cbn. by intros ->. Qed.

Lemma variant_loop_app candles params st xs ys :
  variant_loop candles params st (xs ++ ys)
  = variant_loop candles params st xs ≫= λ s, variant_loop candles params s ys.
Proof.
  unfold variant_loop. rewrite foldl_app.
  destruct (foldl _ (Some st) xs) as [s|]; cbn; [done|].
  induction ys as [|y ys IH]; [done|]. cbn. exact IH.
Qed.

Lemma variant_loop_cons candles params st i rest :
  variant_loop candles params st (i :: rest)
  = variant_step candles params st i ≫= λ s, variant_loop candles params s rest.
Proof. apply (variant_loop_app candles params st [i] rest). Qed.

(** At a signal that the bankroll cannot cover, the loop body only raises
    the flag. *)
Lemma variant_step_ruin candles params st i sig :
  signal_at candles params i = Some sig -> cannot_afford params st ->
  variant_step candles params st i = Some (set_ruin_hit st).
Proof.
  unfold signal_at, variant_step, cannot_afford. intros Hsig Hlow.
  destruct (candles !! i) as [candle|]; [|done]. cbn in *.
  rewrite Hsig. by rewrite decide_True.
Qed.

(** Once the flag is up and the bankroll is short, the loop body leaves
    the state as it is. *)
Lemma variant_step_frozen candles params st i :
  (i < length candles)%nat -> ruin_hit st = true -> cannot_afford params st ->
  variant_step candles params st i = Some st.
Proof.
  intros Hi Hruin Hlow.
  destruct (lookup_lt_is_Some_2 candles i Hi) as [candle Hc].
  destruct (signal_at candles params i) as [sig|] eqn:Hsig.
  - rewrite (variant_step_ruin _ _ _ _ _ Hsig Hlow).
    by rewrite set_ruin_hit_idem.
  - unfold signal_at, variant_step in *. rewrite Hc in *. cbn in *.
    by rewrite Hsig.
Qed.

Lemma variant_loop_frozen candles params st indices :
  Forall (λ i, (i < length candles)%nat) indices ->
  ruin_hit st = true -> cannot_afford params st ->
  variant_loop candles params st indices = Some st.
Proof.
  intros Hall Hruin Hlow. unfold variant_loop.
  induction Hall as [|i indices Hi _ IH]; [done|]. cbn.
  rewrite variant_step_frozen by done. exact IH.
Qed.

Lemma variant_indices_in_range (candles : list Candle) :
  Forall (λ i, (i < length candles)%nat) (variant_indices candles).
Proof.
  apply Forall_forall. intros i Hi. apply elem_of_seq in Hi. lia.
Qed.

(** C6: let the loop of [run_variant] reach index [i] in state [st], with a
    signal at [i] and a bankroll below half the position size.  Then the
    loop goes on without an exception, and after step [i] and after every
    later step the state is [st] with the ruin flag set: trade count,
    bankroll and total PnL are those of [st]; and the result of
    [run_variant] reports them with [ruin_hit] true. *)
Theorem ruin_is_terminal candles params pre i post st sig :
  variant_indices candles = pre ++ i :: post ->
  variant_loop candles params vstate_init pre = Some st ->
  signal_at candles params i = Some sig ->
  cannot_afford params st ->
  (forall k,
     exists st',
       variant_loop candles params vstate_init (pre ++ i :: take k post) = Some st'
       /\ ruin_hit st' = true
       /\ trades st' = trades st
       /\ bankroll st' = bankroll st
       /\ total_pnl st' = total_pnl st)
  /\ exists res,
       run_variant candles params = Some res
       /\ vr_ruin_hit res = true
       /\ vr_trades res = trades st
       /\ vr_final_bankroll res = bankroll st
       /\ vr_total_pnl res = total_pnl st.
Proof.
  intros Hidx Hpre Hsig Hlow.
  pose proof (variant_indices_in_range candles) as Hrange.
  rewrite Hidx in Hrange. apply Forall_app in Hrange as [_ Hrange].
  apply Forall_cons in Hrange as [_ Hpost].
  assert (Hloop : forall rest,
            Forall (λ j, (j < length candles)%nat) rest ->
            variant_loop candles params vstate_init (pre ++ i :: rest)
            = Some (set_ruin_hit st)).
  { intros rest Hrest. rewrite variant_loop_app, Hpre.
    change (variant_loop candles params st (i :: rest)
            = Some (set_ruin_hit st)).
    rewrite variant_loop_cons, (variant_step_ruin _ _ _ _ _ Hsig Hlow).
    change (variant_loop candles params (set_ruin_hit st) rest
            = Some (set_ruin_hit st)).
    apply variant_loop_frozen; [done|done|]. destruct st; exact Hlow. }
  split.
  - intros k. exists (set_ruin_hit st). split; [|by destruct st].
    apply Hloop. by apply Forall_take.
  - exists (variant_result (set_ruin_hit st)). split; [|by destruct st].
    unfold run_variant. rewrite Hidx, (Hloop post Hpost). done.
Qed.

(** The first signal of the example path meets a bankroll of 100 against a
    position size of 300. *)
Lemma flat_sma n : (1 <= n <= 12)%nat -> calc_sma (replicate 13 flat_candle) n = 50100.
Proof.
  intros Hn. unfold calc_sma, Backtest.calc_sma.
  rewrite decide_False by (rewrite length_replicate; lia).
  assert (n = 1 \/ n = 2 \/ n = 3 \/ n = 4 \/ n = 5 \/ n = 6 \/ n = 7 \/ n = 8 \/ n = 9 \/ n = 10 \/ n = 11 \/ n = 12)%nat as Hc by lia.
  unfold py_last_n, py_sum.
  repeat destruct Hc as [->|Hc]; try subst n; simpl; lra.
Qed.


Lemma flat_strike : calc_strike 50100 "OTM" = 50000%Z.
Proof.
  unfold calc_strike. rewrite decide_False by done.
  rewrite (Zfloor_eq 200) by lra. reflexivity.
Qed.

Lemma flat_volatility : calc_volatility flat_candle = 0.
Proof.
  unfold calc_volatility, Backtest.calc_volatility, flat_candle. cbn.
  rewrite decide_False by lra. lra.
Qed.

Lemma flat_fair_value : estimate_fair_value 50100 (IZR 50000) 0 (60 - 30) = 1.0.
Proof.
  unfold estimate_fair_value. rewrite decide_True by lra.
  by rewrite decide_True by lra.
Qed.

Lemma flat_signal :
  signal_at flat_path big_position 12
  = Some (mkSignal 50000 (IZR 50 / 100) 600 1.0 0).
Proof.
  unfold signal_at. change (flat_path !! 12%nat) with (Some flat_candle).
  change (py_slice (12 - 12) (12 + 1) flat_path) with (replicate 13 flat_candle).
  cbn [mbind option_bind c_close flat_candle].
  unfold check_signal.
  rewrite !flat_sma by lia.
  change (last (replicate 13 flat_candle)) with (Some flat_candle).
  cbn [mbind option_bind big_position min_time_remaining sma_looseness vol_filter
       pos_filter strike_type min_strike_distance min_probability max_probability
       edge_cushion max_entry_cap position_size negb orb].
  rewrite flat_strike, flat_volatility, flat_fair_value.
  rewrite decide_False by lra. rewrite decide_False by lra.
  change (vol_filter_ok "none" 0) with true.
  change (pos_filter_ok "none" (calc_price_position flat_candle)) with true.
  cbn [negb].
  rewrite decide_False by lra. rewrite decide_False by lra.
  rewrite (Zfloor_eq 50 (1.0 * 0.5 * 100)) by lra.
  rewrite decide_False by lra.
  rewrite !(decide_True (P := 50 / 100 > 0)) by lra.
  replace (300 / (50 / 100)) with (IZR 600) by (field; lra).
  rewrite ZfloorZ.
  rewrite decide_False by lia. reflexivity.
Qed.

Lemma ruin_path_signal_12 :
  signal_at ruin_path full_position 12
  = Some (mkSignal 50000 (IZR 50 / 100) 200 1.0 0).
Proof.
  unfold signal_at. change (ruin_path !! 12%nat) with (Some flat_candle).
  change (py_slice (12 - 12) (12 + 1) ruin_path) with (replicate 13 flat_candle).
  cbn [mbind option_bind c_close flat_candle].
  unfold check_signal.
  rewrite !flat_sma by lia.
  change (last (replicate 13 flat_candle)) with (Some flat_candle).
  cbn [mbind option_bind full_position min_time_remaining sma_looseness vol_filter
       pos_filter strike_type min_strike_distance min_probability max_probability
       edge_cushion max_entry_cap position_size negb orb].
  rewrite flat_strike, flat_volatility, flat_fair_value.
  rewrite decide_False by lra. rewrite decide_False by lra.
  change (vol_filter_ok "none" 0) with true.
  change (pos_filter_ok "none" (calc_price_position flat_candle)) with true.
  cbn [negb].
  rewrite decide_False by lra. rewrite decide_False by lra.
  rewrite (Zfloor_eq 50 (1.0 * 0.5 * 100)) by lra.
  rewrite decide_False by lra.
  rewrite !(decide_True (P := 50 / 100 > 0)) by lra.
  replace (100 / (50 / 100)) with (IZR 200) by (field; lra).
  rewrite ZfloorZ.
  rewrite decide_False by lia. reflexivity.
Qed.

Lemma ruin_path_sma :
  calc_sma (replicate 12 flat_candle ++ [low_candle]) 3 = 150100 / 3
  /\ calc_sma (replicate 12 flat_candle ++ [low_candle]) 6 = 300400 / 6
  /\ calc_sma (replicate 12 flat_candle ++ [low_candle]) 12 = 601000 / 12.
Proof.
  unfold calc_sma, Backtest.calc_sma, py_last_n, py_sum.
  repeat split; rewrite decide_False by (cbn; lia); simpl; lra.
Qed.

Lemma ruin_path_signal_13 :
  signal_at ruin_path full_position 13
  = Some (mkSignal 49750 (IZR 50 / 100) 200 1.0 0).
Proof.
  unfold signal_at. change (ruin_path !! 13%nat) with (Some low_candle).
  change (py_slice (13 - 12) (13 + 1) ruin_path)
    with (replicate 12 flat_candle ++ [low_candle]).
  cbn [mbind option_bind c_close low_candle].
  unfold check_signal.
  destruct ruin_path_sma as (-> & -> & ->).
  change (last (replicate 12 flat_candle ++ [low_candle])) with (Some low_candle).
  cbn [mbind option_bind full_position min_time_remaining sma_looseness vol_filter
       pos_filter strike_type min_strike_distance min_probability max_probability
       edge_cushion max_entry_cap position_size negb orb].
  assert (Hstrike : calc_strike 49900 "OTM" = 49750%Z).
  { unfold calc_strike. rewrite decide_False by done.
    rewrite (Zfloor_eq 199) by lra. reflexivity. }
  assert (Hvol : calc_volatility low_candle = 0).
  { unfold calc_volatility, Backtest.calc_volatility, low_candle. cbn.
    rewrite decide_False by lra. lra. }
  assert (Hfv : estimate_fair_value 49900 (IZR 49750) 0 (60 - 30) = 1.0).
  { unfold estimate_fair_value. rewrite decide_True by lra.
    by rewrite decide_True by lra. }
  rewrite Hstrike, Hvol, Hfv.
  rewrite decide_False by lra.
  rewrite decide_False by (intros [?|[?|?]]; lra).
  change (vol_filter_ok "none" 0) with true.
  change (pos_filter_ok "none" (calc_price_position low_candle)) with true.
  cbn [negb].
  rewrite decide_False by lra. rewrite decide_False by lra.
  rewrite (Zfloor_eq 50 (1.0 * 0.5 * 100)) by lra.
  rewrite decide_False by lra.
  rewrite !(decide_True (P := 50 / 100 > 0)) by lra.
  replace (100 / (50 / 100)) with (IZR 200) by (field; lra).
  rewrite ZfloorZ.
  rewrite decide_False by lia. reflexivity.
Qed.

(** The trade of index 12 is held to the close of index 13, below the
    strike: a loss of the entry cost and its fee. *)
Lemma ruin_path_first_trade :
  variant_loop ruin_path full_position vstate_init [12%nat]
  = Some (record_trade vstate_init loss
            (calc_net_pnl (IZR 200) (IZR 50 / 100) 0.0 "settlement")).
Proof.
  unfold variant_loop. cbn [foldl mbind option_bind]. unfold variant_step.
  pose proof ruin_path_signal_12 as Hsig. unfold signal_at in Hsig.
  change (ruin_path !! 12%nat) with (Some flat_candle) in *.
  cbn [mbind option_bind] in *. rewrite Hsig.
  rewrite decide_False by (cbn; lra).
  change (py_slice (12 + 1) (12 + 3) ruin_path) with [low_candle; low_candle].
  cbn [sig_entry_price sig_strike sig_contracts sig_volatility full_position
       use_exit_logic].
  unfold simulate_trade. cbn [negb c_close low_candle].
  rewrite decide_False by lra. by rewrite decide_False by done.
Qed.

Lemma ruin_path_bankroll :
  bankroll (record_trade vstate_init loss
              (calc_net_pnl (IZR 200) (IZR 50 / 100) 0.0 "settlement")) < 0.
Proof.
  unfold record_trade. cbn [bankroll vstate_init].
  unfold calc_net_pnl, TAKER_FEE_PCT. rewrite decide_False by done. lra.
Qed.

Lemma ruin_is_terminal_witness :
  exists res,
    run_variant ruin_path full_position = Some res
    /\ vr_ruin_hit res = true
    /\ vr_trades res = 1%Z
    /\ vr_final_bankroll res < 0.
Proof.
  destruct (ruin_is_terminal ruin_path full_position [12%nat] 13%nat
              [14%nat; 15%nat; 16%nat]
              (record_trade vstate_init loss
                 (calc_net_pnl (IZR 200) (IZR 50 / 100) 0.0 "settlement"))
              (mkSignal 49750 (IZR 50 / 100) 200 1.0 0)
              eq_refl ruin_path_first_trade ruin_path_signal_13)
    as [_ (res & Hres & Hruin & Htr & Hbank & _)].
  - unfold cannot_afford. pose proof ruin_path_bankroll. cbn [position_size full_position]. lra.
  - exists res. split; [exact Hres|]. split; [exact Hruin|].
    split; [rewrite Htr; reflexivity|]. rewrite Hbank. exact ruin_path_bankroll.
Defined.

End Ruin.

(** ** Rounding to cents *)

Lemma py_round_cases x :
  py_round x = Zfloor x \/ py_round x = (Zfloor x + 1)%Z.
Proof.
  unfold py_round. repeat case_decide; try destruct (Z.even (Zfloor x)); auto.
Qed.

Lemma py_round_mono x y : x <= y -> (py_round x <= py_round y)%Z.
Proof.
  intros Hxy. pose proof (Zfloor_le x y Hxy) as Hfl.
  destruct (decide (Zfloor x = Zfloor y)) as [Heq|Hne].
  - unfold py_round. rewrite <- Heq.
    repeat case_decide; destruct (Z.even (Zfloor x)); lia || lra.
  - destruct (py_round_cases x) as [-> | ->], (py_round_cases y) as [-> | ->]; lia.
Qed.

Lemma py_round2_mono x y : x <= y -> py_round2 x <= py_round2 y.
Proof.
  intros Hxy. unfold py_round2.
  assert (H : (py_round (x * 100) <= py_round (y * 100))%Z)
    by (apply py_round_mono; lra).
  apply IZR_le in H. lra.
Qed.

Lemma py_round2_0 : py_round2 0 = 0.
Proof.
  unfold py_round2, py_round. rewrite Rmult_0_l.
  change 0 with (IZR 0) at 1 2 3. rewrite ZfloorZ.
  rewrite decide_True by lra. lra.
Qed.

Lemma py_round2_nonneg x : 0 <= x -> 0 <= py_round2 x.
Proof. intros Hx. rewrite <- py_round2_0. by apply py_round2_mono. Qed.

(** ** The candle generator *)

Section Generator.
Import BacktestData.

Lemma rng_uniform_range G a b s :
  a <= b -> a <= fst (rng_uniform G a b s) <= b.
Proof.
  intros Hab. unfold rng_uniform.
  pose proof (rng_random_range G s) as Hu.
  destruct (rng_random G s) as [u s']. cbn in *. nra.
Qed.

Lemma bisect_right_le a x hi : (bisect_right a x hi <= hi)%nat.
Proof.
  unfold bisect_right.
  etrans; [apply length_filter|]. rewrite length_take. lia.
Qed.

Lemma rng_choices_some {A} G (population : list A) weights s total :
  last (accumulate_from 0 weights) = Some total -> ~ total <= 0 ->
  population <> [] ->
  is_Some (rng_choices G population weights s).
Proof.
  intros Hlast Hpos Hne. unfold rng_choices. rewrite Hlast.
  cbn [mbind option_bind]. rewrite decide_False by done.
  destruct (rng_random G s) as [u s'].
  set (idx := bisect_right _ _ _).
  destruct (lookup_lt_is_Some_2 population idx) as [x Hx].
  { pose proof (bisect_right_le (accumulate_from 0 weights) (u * total)
                  (length population - 1)) as Hle.
    fold idx in Hle. destruct population; [done|]. cbn in *. lia. }
  rewrite Hx. by eexists.
Qed.

Lemma rng_choices_regime G r s :
  is_Some (rng_choices G regime_names (transition_weights r) s).
Proof.
  assert (Hlast : exists total,
            last (accumulate_from 0 (transition_weights r)) = Some total
            /\ ~ total <= 0).
  { destruct r; cbn; eexists; (split; [reflexivity|lra]). }
  destruct Hlast as (total & Hlast & Hpos).
  by apply (rng_choices_some G regime_names _ s total).
Qed.

Lemma rounded_candle_ok ts op hi lo cl vol ts' :
  op <= hi -> cl <= hi -> lo <= op -> lo <= cl -> 0 <= vol ->
  candle_ok (mkCandle ts (py_round2 op) (py_round2 hi) (py_round2 lo)
               (py_round2 cl) (py_round2 vol) ts').
Proof.
  intros. unfold candle_ok. cbn.
  pose proof (py_round2_mono op hi). pose proof (py_round2_mono cl hi).
  pose proof (py_round2_mono lo op). pose proof (py_round2_mono lo cl).
  pose proof (py_round2_nonneg vol).
  unfold py_max, py_min. repeat case_decide; lra.
Qed.

Lemma py_max3_ge a b c : b <= py_max3 a b c /\ c <= py_max3 a b c.
Proof. unfold py_max3, py_max. repeat case_decide; lra. Qed.

Lemma py_min3_le a b c : py_min3 a b c <= b /\ py_min3 a b c <= c.
Proof. unfold py_min3, py_min. repeat case_decide; lra. Qed.

Lemma gen_step_spec G st h :
  exists st' candle,
    gen_step G st h = Some st'
    /\ g_candles st' = g_candles st ++ [candle]
    /\ candle_ok candle.
Proof.
  unfold gen_step.
  destruct (rng_random G (g_rng st)) as [u_switch s1].
  set (sw := if decide (u_switch < 0.02 + IZR (g_duration st + 1) / 500) then _ else _).
  assert (Hsw : is_Some sw).
  { subst sw. case_decide; [|by eexists].
    destruct (rng_choices_regime G (g_regime st) s1) as [[r s] ->]. by eexists. }
  destruct Hsw as [[[cur dur] s2] ->]. cbn.
  destruct (regimes cur) as [[drift vol_mult] name].
  destruct (rng_random G s2) as [u_tail s3].
  set (gs := if decide (u_tail < 0.05) then _ else _).
  destruct gs as [ret s4].
  destruct (rng_uniform G 0.3 1.5 s4) as [x_intra s5].
  set (hl := if decide (g_price st * (1 + ret) >= g_price st) then _ else _).
  destruct hl as [[high low] s7].
  pose proof (rng_uniform_range G 500 5000 s7 ltac:(lra)) as Hvol.
  destruct (rng_uniform G 500 5000 s7) as [x_vol s8]. cbn in Hvol.
  eexists _, _. split; [reflexivity|]. cbn. split; [reflexivity|].
  pose proof (py_max3_ge high (g_price st) (g_price st * (1 + ret))) as [? ?].
  pose proof (py_min3_le low (g_price st) (g_price st * (1 + ret))) as [? ?].
  apply rounded_candle_ok; lra.
Qed.

Lemma gen_loop_spec G hs st :
  Forall candle_ok (g_candles st) ->
  exists st',
    foldl (λ acc h, acc ≫= λ st, gen_step G st h) (Some st) hs = Some st'
    /\ Forall candle_ok (g_candles st')
    /\ length (g_candles st') = (length (g_candles st) + length hs)%nat.
Proof.
  revert st. induction hs as [|h hs IH]; intros st Hok.
  - exists st. cbn. split; [done|split; [done|lia]].
  - destruct (gen_step_spec G st h) as (st1 & candle & Hstep & Hcs & Hc).
    destruct (IH st1) as (st' & Hloop & Hok' & Hlen).
    { rewrite Hcs. apply Forall_app. split; [done|]. by apply Forall_singleton. }
    exists st'. cbn. rewrite Hstep. cbn. split; [done|split; [done|]].
    rewrite Hlen, Hcs, length_app. cbn. lia.
Qed.

(** C4: every candle of a sequence that [generate_realistic_btc_data]
    returns, for any seed, any number of days and any random generator,
    has its stored (cent-rounded) high at least the larger of open and
    close, its low at most the smaller, and a volume that is not negative;
    and for one day or more the function does return, with 24 candles per
    day. *)
Theorem generated_candles_ok (G : RandomGen) (days seed : Z) :
  (forall candles,
     generate_realistic_btc_data G days seed = Some candles ->
     Forall candle_ok candles)
  /\ ((1 <= days)%Z ->
      exists candles,
        generate_realistic_btc_data G days seed = Some candles
        /\ length candles = Z.to_nat (days * 24)).
Proof.
  unfold generate_realistic_btc_data, gen_loop.
  destruct (gen_loop_spec G (py_range (days * 24))
              (mkGenState 42000.0 bull_trend 0%Z (rng_seed G seed) []))
    as (st' & -> & Hok & Hlen); [by apply Forall_nil|].
  cbn [mbind option_bind]. cbn in Hlen.
  unfold py_range in Hlen. rewrite length_fmap, length_seq in Hlen.
  split.
  - intros candles Hc. destruct (g_candles st'); [done|]. by injection Hc as <-.
  - intros Hdays. destruct (g_candles st') as [|c cs] eqn:Hcs.
    + cbn in Hlen. lia.
    + by eexists.
Qed.

Lemma generated_candles_ok_witness :
  exists candles,
    generate_realistic_btc_data const_gen 1 42 = Some candles
    /\ length candles = 24%nat
    /\ Forall candle_ok candles.
Proof.
  destruct (generated_candles_ok const_gen 1 42) as [Hok Hex].
  destruct (Hex ltac:(lia)) as (candles & Hc & Hlen).
  exists candles. split; [done|]. split; [done|]. by apply Hok.
Defined.

End Generator.

(** ** Grouping 5-minute candles into 15-minute windows *)

Section Windows.
Import BacktestInterwindow.

Lemma fold_buckets_lookup candles b ws :
  default [] (foldl bucket_append b candles !! ws)
  = default [] (b !! ws) ++ bucket_of ws candles.
Proof.
  revert b. induction candles as [|x candles IH]; intros b.
  - cbn. by rewrite app_nil_r.
  - cbn [foldl]. rewrite IH. unfold bucket_append at 1, bucket_of.
    rewrite filter_cons. destruct (decide (window_start x = ws)) as [<-|Hne].
    + rewrite lookup_insert_eq. cbn. by rewrite <- app_assoc.
    + by rewrite lookup_insert_ne.
Qed.

Lemma fold_buckets_is_Some candles b ws :
  is_Some (foldl bucket_append b candles !! ws)
  <-> is_Some (b !! ws) \/ bucket_of ws candles <> [].
Proof.
  revert b. induction candles as [|x candles IH]; intros b.
  - cbn. split; [by left|intros [?|?]; done].
  - cbn [foldl]. rewrite IH. unfold bucket_append at 1, bucket_of.
    rewrite filter_cons. destruct (decide (window_start x = ws)) as [<-|Hne].
    + rewrite lookup_insert_eq. split; intros _; [by right|left; by eexists].
    + by rewrite lookup_insert_ne.
Qed.

Lemma fill_buckets_lookup candles ws :
  default [] (fill_buckets candles !! ws) = bucket_of ws candles.
Proof. unfold fill_buckets. by rewrite fold_buckets_lookup, lookup_empty. Qed.

Lemma fill_buckets_is_Some candles ws :
  is_Some (fill_buckets candles !! ws) <-> bucket_of ws candles <> [].
Proof.
  unfold fill_buckets. rewrite fold_buckets_is_Some, lookup_empty.
  split; [intros [[? ?]|?]; done|by right].
Qed.

Lemma elem_of_sorted_keys (b : gmap Z (list Candle5)) ws :
  ws ∈ sorted_keys b <-> is_Some (b !! ws).
Proof.
  unfold sorted_keys. rewrite merge_sort_Permutation, list_elem_of_fmap.
  split.
  - intros ([k x] & -> & Hin). apply elem_of_map_to_list in Hin. by eexists.
  - intros [x Hx]. exists (ws, x). split; [done|]. by apply elem_of_map_to_list.
Qed.

Lemma sorted_keys_NoDup (b : gmap Z (list Candle5)) : NoDup (sorted_keys b).
Proof.
  unfold sorted_keys. rewrite merge_sort_Permutation.
  apply NoDup_fst_map_to_list.
Qed.

Lemma sorted_keys_sorted (b : gmap Z (list Candle5)) : Sorted Z.le (sorted_keys b).
Proof. apply Sorted_merge_sort. apply _. Qed.

Lemma make_window_Some ws cs w :
  make_window ws cs = Some w ->
  length cs = 3%nat /\ w_ts w = ws /\ w_candles w = cs.
Proof.
  unfold make_window. destruct cs as [|c0 [|c1 [|c2 [|? ?]]]]; try done.
  intros [= <-]. done.
Qed.

Lemma make_window_is_Some ws cs :
  length cs = 3%nat -> is_Some (make_window ws cs).
Proof.
  intros Hlen. by destruct cs as [|c0 [|c1 [|c2 [|? ?]]]].
Qed.

Lemma insert_by_t_Permutation x cs : insert_by_t x cs ≡ₚ x :: cs.
Proof.
  induction cs as [|y cs IH]; [done|]. cbn. case_decide; [done|].
  rewrite IH. apply Permutation_swap.
Qed.

Lemma sort_by_t_Permutation cs : sort_by_t cs ≡ₚ cs.
Proof.
  induction cs as [|x cs IH]; [done|]. cbn.
  by rewrite insert_by_t_Permutation, IH.
Qed.

Lemma sort_by_t_length cs : length (sort_by_t cs) = length cs.
Proof. by rewrite sort_by_t_Permutation. Qed.

Lemma elem_of_group candles w :
  w ∈ group_15min_windows candles
  <-> make_window (w_ts w) (sort_by_t (bucket_of (w_ts w) candles)) = Some w.
Proof.
  unfold group_15min_windows. rewrite list_elem_of_omap. split.
  - intros (ws & Hws & Hw). rewrite fill_buckets_lookup in Hw.
    destruct (make_window_Some _ _ _ Hw) as (_ & <- & _). done.
  - intros Hw. exists (w_ts w). rewrite fill_buckets_lookup. split; [|done].
    apply elem_of_sorted_keys, fill_buckets_is_Some.
    destruct (make_window_Some _ _ _ Hw) as (Hlen & _ & _).
    rewrite sort_by_t_length in Hlen. intros Hnil. by rewrite Hnil in Hlen.
Qed.

(** C9: a window is emitted only for a 15-minute bucket that holds exactly
    three of the input candles, and it carries exactly those candles in
    time order; a bucket with any other number of candles (fewer than
    three in particular) has no window in the output; and every bucket of
    exactly three candles does get its window. *)
Theorem incomplete_windows_rejected (candles : list Candle5) :
  (forall w, w ∈ group_15min_windows candles ->
     length (bucket_of (w_ts w) candles) = 3%nat
     /\ w_candles w = sort_by_t (bucket_of (w_ts w) candles))
  /\ (forall ws, length (bucket_of ws candles) <> 3%nat ->
        forall w, w ∈ group_15min_windows candles -> w_ts w <> ws)
  /\ (forall ws, length (bucket_of ws candles) = 3%nat ->
        exists w, w ∈ group_15min_windows candles /\ w_ts w = ws).
Proof.
  assert (Hsound : forall w, w ∈ group_15min_windows candles ->
            length (bucket_of (w_ts w) candles) = 3%nat
            /\ w_candles w = sort_by_t (bucket_of (w_ts w) candles)).
  { intros w Hw. apply elem_of_group in Hw.
    destruct (make_window_Some _ _ _ Hw) as (Hlen & _ & Hcs).
    by rewrite sort_by_t_length in Hlen. }
  split; [exact Hsound|split].
  - intros ws Hlen w Hw <-. by destruct (Hsound w Hw).
  - intros ws Hlen.
    destruct (make_window_is_Some ws (sort_by_t (bucket_of ws candles)))
      as [w Hw]; [by rewrite sort_by_t_length|].
    destruct (make_window_Some _ _ _ Hw) as (_ & Hts & _).
    exists w. split; [|done]. apply elem_of_group. by rewrite Hts.
Qed.

Lemma incomplete_windows_rejected_witness :
  (exists w, w ∈ group_15min_windows example_feed /\ w_ts w = 0%Z)
  /\ (forall w, w ∈ group_15min_windows example_feed -> w_ts w <> 900%Z).
Proof.
  destruct (incomplete_windows_rejected example_feed) as (_ & Hreject & Hemit).
  split.
  - apply Hemit. reflexivity.
  - apply Hreject. intros Hlen. vm_compute in Hlen. discriminate Hlen.
Defined.

End Windows.

(** ** Monotonicity of the fair value in the price *)

Section FairValueMonotone.
Import BacktestCombined.













Lemma normal_cdf_nonneg x :
  0 <= x -> normal_cdf x = 0.5 * (1.0 + (1.0 - cdf_tail x)).
Proof.
  intros Hx. unfold normal_cdf, cdf_tail.
  rewrite decide_False by lra. rewrite (Rabs_pos_eq x) by done. lra.
Qed.

Lemma normal_cdf_neg x :
  x < 0 -> normal_cdf x = 0.5 * cdf_tail (- x).
Proof.
  intros Hx. unfold normal_cdf, cdf_tail.
  rewrite decide_True by lra. rewrite (Rabs_left x) by done. lra.
Qed.





(** Negative strikes fail as well: at strike -100 a price of -50 is priced
    at 0.99 by the same guard, a price of 100 (one standard deviation above
    the strike at volatility 200) below 0.90. *)
Lemma estimate_fair_value_negative_strike :
  estimate_fair_value 100 (-100) 200 60 < estimate_fair_value (-50) (-100) 200 60.
Proof.
  assert (Hs : sqrt (py_max 60 0.5 / 60) = 1).
  { unfold py_max. rewrite decide_False by lra.
    replace (60 / 60) with 1 by lra. apply sqrt_1. }
  assert (H0 : estimate_fair_value (-50) (-100) 200 60 = 0.99).
  { unfold estimate_fair_value. rewrite decide_False by lra.
    rewrite Hs. rewrite decide_True by lra. by rewrite decide_True by lra. }
  assert (H1 : estimate_fair_value 100 (-100) 200 60 < 0.90).
  { unfold estimate_fair_value. rewrite decide_False by lra.
    rewrite Hs. rewrite decide_False by lra.
    replace ((100 - -100) / (100 * (200 / 100) * 1)) with 1 by lra.
    pose proof normal_cdf_1_bounds. unfold py_max, py_min.
    repeat case_decide; lra. }
  lra.
Qed.




End FairValueMonotone.

(** * Further properties of the code *)

(** ** Strikes and indicators of backtest.py *)

Section Indicators.
Import Backtest.

Lemma py_round_near x : - (1/2) <= x - IZR (py_round x) <= 1/2.
Proof.
  pose proof (Zfloor_bound x) as [Hlo Hhi].
  unfold py_round.
  repeat case_decide; try destruct (Z.even (Zfloor x));
    rewrite ?plus_IZR; lra.
Qed.

(** X1: the OTM strike is the multiple of 250 with
    [strike <= price < strike + 250]; the ATM strike is a multiple of 250
    at most 125 away from the price. *)
Theorem calc_strike_bounds (price : R) :
  (250 | calc_strike price OTM)%Z
  /\ IZR (calc_strike price OTM) <= price < IZR (calc_strike price OTM) + 250
  /\ (250 | calc_strike price ATM)%Z
  /\ -125 <= price - IZR (calc_strike price ATM) <= 125.
Proof.
  unfold calc_strike, STRIKE_INCREMENT.
  pose proof (Zfloor_bound (price / 250)) as [Hlo Hhi].
  pose proof (py_round_near (price / 250)) as Hr.
  rewrite !mult_IZR.
  split; [by apply Z.divide_factor_r|]. split; [lra|].
  split; [by apply Z.divide_factor_r|]. lra.
Qed.

Lemma py_sum_from acc xs : foldl Rplus acc xs = acc + py_sum xs.
Proof.
  unfold py_sum. revert acc. induction xs as [|x xs IH]; intros acc; cbn.
  - lra.
  - rewrite IH, (IH (0 + x)). lra.
Qed.

Lemma py_sum_cons x xs : py_sum (x :: xs) = x + py_sum xs.
Proof. unfold py_sum at 1. cbn. rewrite py_sum_from. lra. Qed.

Lemma py_sum_bounds lo hi xs :
  Forall (λ x, lo <= x <= hi) xs ->
  INR (length xs) * lo <= py_sum xs <= INR (length xs) * hi.
Proof.
  induction 1 as [|x xs Hx _ IH].
  - unfold py_sum. cbn. lra.
  - rewrite py_sum_cons. cbn [length]. rewrite S_INR. lra.
Qed.

Lemma py_last_n_length {A} (n : nat) (l : list A) :
  (n <= length l)%nat -> length (py_last_n n l) = n.
Proof. intros Hn. unfold py_last_n. rewrite length_drop. lia. Qed.

(** X2: with fewer candles than the period the moving average is 0;
    otherwise, for a period of at most 1000 and closes that are not
    negative, it lies between any bounds that hold for the closes of the
    last [period] candles, up to a relative rounding slack of [1e-9], and
    it is positive when those closes are. *)
Theorem calc_sma_bounds (candles : list Candle) (period : nat) (lo hi : R) :
  (0 < period <= 1000)%nat -> 0 <= lo ->
  Forall (λ c, lo <= c_close c <= hi) (py_last_n period candles) ->
  ((length candles < period)%nat -> calc_sma candles period = 0)
  /\ ((period <= length candles)%nat ->
      lo * (1 - 1e-9) <= calc_sma candles period <= hi * (1 + 1e-9)
      /\ (0 < lo -> 0 < calc_sma candles period)).
Proof.
  intros Hpos Hlo Hall. unfold calc_sma. split; intros Hlen.
  - rewrite decide_True by done. reflexivity.
  - rewrite decide_False by lia.
    assert (Hb : Forall (λ x, lo <= x <= hi) (c_close <$> py_last_n period candles))
      by (by apply Forall_fmap).
    apply py_sum_bounds in Hb.
    rewrite length_fmap, py_last_n_length in Hb by done.
    assert (Hn : 0 < INR period) by (apply lt_0_INR; lia).
    set (s := py_sum (c_close <$> py_last_n period candles)) in *.
    assert (Hl : lo <= s / INR period).
    { apply Rmult_le_reg_r with (INR period); [done|].
      unfold Rdiv. rewrite Rmult_assoc, Rinv_l by lra. lra. }
    assert (Hh : s / INR period <= hi).
    { apply Rmult_le_reg_r with (INR period); [done|].
      unfold Rdiv. rewrite Rmult_assoc, Rinv_l by lra. lra. }
    repeat split; try intros ?; lra.
Qed.

Lemma calc_sma_bounds_witness :
  50000 * (1 - 1e-9) <= calc_sma BacktestSignals.rising_window 3
    <= 50300 * (1 + 1e-9)
  /\ 0 < calc_sma BacktestSignals.rising_window 3.
Proof.
  assert (H : 0 < 50000) by lra.
  destruct (calc_sma_bounds BacktestSignals.rising_window 3 50000 50300)
    as [_ Hb]; [lia|lra| |].
  - repeat constructor; cbn; lra.
  - destruct Hb as [Hb Hp]; [cbn; lia|]. split; [exact Hb|exact (Hp H)].
Defined.

Lemma div_range a b : 0 < b -> 0 <= a <= b -> 0 <= a / b * 100 <= 100.
Proof.
  intros Hb Ha. pose proof (Rinv_0_lt_compat b Hb) as Hi.
  assert (Hab : a / b <= 1).
  { apply Rmult_le_reg_r with b; [done|].
    unfold Rdiv. rewrite Rmult_assoc, Rinv_l by lra. lra. }
  assert (0 <= a / b) by (unfold Rdiv; apply Rmult_le_pos; lra).
  lra.
Qed.

(** X3: on a candle that satisfies the candle invariant the price
    position lies in [[0, 100]] (50 on a candle without range), and the
    volatility is not negative when the open is not negative (0 on an
    open of 0). *)
Theorem indicators_on_valid_candle (c : Candle) :
  candle_ok c ->
  0 <= calc_price_position c <= 100
  /\ (c_high c = c_low c -> calc_price_position c = 50)
  /\ (0 <= c_open c -> 0 <= calc_volatility c)
  /\ (c_open c = 0 -> calc_volatility c = 0).
Proof.
  intros (Hhi & Hlo & _).
  assert (Hh : c_open c <= c_high c /\ c_close c <= c_high c).
  { pose proof (py_max_ge_l (c_open c) (c_close c)).
    pose proof (py_max_ge_r (c_open c) (c_close c)). lra. }
  assert (Hl : c_low c <= c_open c /\ c_low c <= c_close c).
  { pose proof (py_min_le_l (c_open c) (c_close c)).
    pose proof (py_min_le_r (c_open c) (c_close c)). lra. }
  unfold calc_price_position, calc_volatility.
  split; [|split; [|split]].
  - case_decide; [lra|]. apply div_range; lra.
  - intros Heq. rewrite decide_True by lra. done.
  - intros Hopen. case_decide; [lra|].
    apply Rmult_le_pos; [|lra]. unfold Rdiv. apply Rmult_le_pos; [lra|].
    left. apply Rinv_0_lt_compat. lra.
  - intros Hopen. by rewrite decide_True.
Qed.

Lemma indicators_on_valid_candle_witness :
  0 <= calc_price_position BacktestSignals.breakout_candle <= 100.
Proof.
  apply (indicators_on_valid_candle BacktestSignals.breakout_candle).
  unfold candle_ok, py_max, py_min. cbn. repeat case_decide; lra.
Defined.

End Indicators.

(** ** Risk of ruin and the exit engine of backtest.py *)

Section ExitEngineMore.
Import Backtest.

Lemma ror_lookup_antitone z1 z2 : z1 <= z2 -> ror_lookup z2 <= ror_lookup z1.
Proof. intros Hz. unfold ror_lookup. repeat case_decide; lra. Qed.

Lemma ror_lookup_critical z : ror_lookup z >= 0.5 <-> z <= 0.
Proof. unfold ror_lookup. repeat case_decide; split; lra. Qed.

Lemma expected_move_pos price vol mins :
  0 < price -> 0 < vol ->
  0 < price * (vol / 100) * sqrt (py_max (mins / 60) 0.01).
Proof.
  intros Hp Hv. apply Rmult_lt_0_compat; [nra|].
  apply sqrt_lt_R0. unfold py_max. case_decide; lra.
Qed.

Lemma ror_z_positive_move price strike vol mins :
  0 < price -> 0 < vol ->
  exists em, 0 < em /\ ror_z price strike vol mins = (price - strike) / em.
Proof.
  intros Hp Hv. pose proof (expected_move_pos price vol mins Hp Hv) as Hem.
  eexists. split; [exact Hem|]. unfold ror_z. by rewrite decide_True.
Qed.

Lemma div_sign a b : 0 < b -> (a / b <= 0 <-> a <= 0).
Proof.
  intros Hb. pose proof (Rinv_0_lt_compat b Hb) as Hi. unfold Rdiv. split; intros H.
  - assert (a = a * / b * b) as -> by (rewrite Rmult_assoc, Rinv_l by lra; lra). nra.
  - nra.
Qed.

Lemma div_mono a1 a2 b : 0 < b -> a1 <= a2 -> a1 / b <= a2 / b.
Proof.
  intros Hb Ha. pose proof (Rinv_0_lt_compat b Hb). unfold Rdiv. nra.
Qed.

Lemma risk_critical_iff price strike vol mins :
  0 < price -> 0 < vol ->
  calc_risk_of_ruin price strike vol mins >= 0.5 <-> price <= strike.
Proof.
  intros Hp Hv. unfold calc_risk_of_ruin.
  destruct (ror_z_positive_move price strike vol mins Hp Hv) as (em & Hem & ->).
  rewrite ror_lookup_critical, div_sign by done. lra.
Qed.

(** X4: for a positive price and volatility, the risk of ruin is critical
    (at least 0.5) exactly when the price is at or below the strike, and it
    never decreases when the strike is raised. *)
Theorem calc_risk_of_ruin_strike (price vol mins : R) :
  0 < price -> 0 < vol ->
  (forall strike, calc_risk_of_ruin price strike vol mins >= 0.5 <-> price <= strike)
  /\ (forall s1 s2, s1 <= s2 ->
        calc_risk_of_ruin price s1 vol mins <= calc_risk_of_ruin price s2 vol mins).
Proof.
  intros Hp Hv. split.
  - intros strike. by apply risk_critical_iff.
  - intros s1 s2 Hs. unfold calc_risk_of_ruin, ror_z.
    pose proof (expected_move_pos price vol mins Hp Hv) as Hem.
    rewrite !decide_True by done.
    apply ror_lookup_antitone, div_mono; [done|lra].
Qed.

Lemma calc_risk_of_ruin_strike_witness :
  calc_risk_of_ruin 50000 50250 1 30 >= 0.5.
Proof.
  apply (proj1 (calc_risk_of_ruin_strike 50000 1 30 ltac:(lra) ltac:(lra))). lra.
Defined.

Lemma resale_pnl_bounds c e p :
  0 <= c -> 0 <= e -> 0.30 <= p <= 0.99 ->
  - (c * e * 1.015) <= calc_net_pnl c e p "early" <= c * (1 - e * 1.015).
Proof.
  intros Hc He Hp. rewrite calc_net_pnl_early.
  unfold taker_fee, TAKER_FEE_PCT. nra.
Qed.

(** X5: the PnL of a simulated trade with non-negative contract count and
    entry price lies between the two settlement PnLs the function itself
    computes: it is never below [calc_net_pnl] at exit price 0.0 (a
    settlement loss) and never above [calc_net_pnl] at exit price 1.0 (a
    settlement win). *)
Theorem simulate_trade_pnl_bounds
    (entry_price strike contracts volatility : R) (candles_after : list Candle) :
  0 <= contracts -> 0 <= entry_price -> candles_after <> [] ->
  let r := simulate_trade entry_price strike contracts candles_after volatility in
  calc_net_pnl contracts entry_price 0.0 "settlement" <= tr_pnl r
  /\ tr_pnl r <= calc_net_pnl contracts entry_price 1.0 "settlement".
Proof.
  intros Hc He Hne. destruct candles_after as [|sc rest]; [done|]. clear Hne.
  pose proof (resale_pnl_bounds contracts entry_price
                (estimate_contract_price ((c_open sc + c_close sc) / 2 - strike) 30)
                Hc He (estimate_contract_price_bounds _ 30 ltac:(lra))) as H30.
  pose proof (resale_pnl_bounds contracts entry_price
                (estimate_contract_price (c_close sc - strike) 10)
                Hc He (estimate_contract_price_bounds _ 10 ltac:(lra))) as H10.
  assert (Hl : calc_net_pnl contracts entry_price 0.0 "settlement"
               = - (contracts * entry_price * 1.015))
    by (rewrite calc_net_pnl_not_early by done; unfold taker_fee, TAKER_FEE_PCT; lra).
  assert (Hw : calc_net_pnl contracts entry_price 1.0 "settlement"
               = contracts * (1 - entry_price * 1.015))
    by (rewrite calc_net_pnl_not_early by done; unfold taker_fee, TAKER_FEE_PCT; lra).
  unfold simulate_trade. cbv zeta.
  repeat match goal with
         | |- context [decide ?P] => destruct (decide P)
         end; cbn [tr_pnl]; split; lra.
Qed.

Lemma simulate_trade_pnl_bounds_witness :
  calc_net_pnl 16 0.60 0.0 "settlement"
  <= tr_pnl (simulate_trade 0.60 50000 16 [held_candle] 0.5)
  <= calc_net_pnl 16 0.60 1.0 "settlement".
Proof.
  apply (simulate_trade_pnl_bounds 0.60 50000 16 0.5 [held_candle]);
    [lra|lra|discriminate].
Defined.

(** X6: with a positive volatility and a positive mid price of the
    settlement candle, a mid price at or below the strike always ends in
    the critical early exit, so a win needs both the mid price and the
    close above the strike; and the negative-EV early exit is only taken
    at a profit. *)
Theorem simulate_trade_decisions
    (entry_price strike contracts volatility : R) (sc : Candle) (rest : list Candle) :
  0 < volatility -> 0 < (c_open sc + c_close sc) / 2 ->
  let r := simulate_trade entry_price strike contracts (sc :: rest) volatility in
  ((c_open sc + c_close sc) / 2 <= strike -> tr_outcome r = early_exit_critical)
  /\ (tr_outcome r = win ->
      strike < (c_open sc + c_close sc) / 2 /\ strike < c_close sc)
  /\ (tr_outcome r = early_exit_ev -> 0 < tr_pnl r).
Proof.
  intros Hv Hmid.
  pose proof (risk_critical_iff ((c_open sc + c_close sc) / 2) strike
                volatility 30 Hmid Hv) as Hcrit.
  unfold simulate_trade. cbv zeta.
  repeat match goal with
         | |- context [decide ?P] => destruct (decide P)
         end; cbn [tr_outcome tr_pnl]; (split; [|split]); try done; try lra;
    intros; try tauto; try (split; lra).
Qed.

Lemma simulate_trade_decisions_witness :
  tr_outcome (simulate_trade 0.60 50000 16
                [mkCandle 0 49900 49990 49880 49950 1000 3599999] 1)
  = early_exit_critical.
Proof.
  apply (simulate_trade_decisions 0.60 50000 16 1
           (mkCandle 0 49900 49990 49880 49950 1000 3599999) []); cbn; lra.
Defined.

End ExitEngineMore.

(** ** What a fired signal of backtest.py guarantees *)

Section FiredSignals.
Import Backtest BacktestSignals BacktestFacts.

Lemma otm_distance_range price :
  0 <= price - IZR (calc_strike price OTM) < 250.
Proof.
  unfold calc_strike, STRIKE_INCREMENT.
  pose proof (Zfloor_bound (price / 250)) as [Hlo Hhi].
  rewrite mult_IZR. lra.
Qed.

Lemma calc_sma_short candles period :
  (length candles < period)%nat -> calc_sma candles period = 0.
Proof. intros Hlen. unfold calc_sma. by rewrite decide_True. Qed.

Lemma medium_trend_needs_six candles :
  bool_decide (calc_sma candles 6 > calc_sma candles 12) = true ->
  (6 <= length candles)%nat.
Proof.
  intros Ht. apply bool_decide_eq_true in Ht.
  destruct (decide (6 <= length candles)%nat) as [|Hshort]; [done|].
  rewrite !calc_sma_short in Ht by lia. lra.
Qed.

Lemma conservative_contracts : Zfloor (10 / 0.60) = 16%Z.
Proof. apply Zfloor_eq. lra. Qed.

Lemma aggressive_contracts : Zfloor (20 / 0.40) = 50%Z.
Proof. apply Zfloor_eq. lra. Qed.

Lemma check_conservative_fired candles price hour d sig :
  check_conservative candles price hour d = Some sig -> sig_signal sig = true ->
  fired_ok 10 0.60 16 candles price hour d sig.
Proof.
  unfold check_conservative. destruct (last candles) as [lastc|]; [|done].
  cbn [mbind option_bind]. intros [= <-]. cbn [sig_signal].
  intros Hp. apply andb_prop in Hp as [Hp Hok].
  apply andb_prop in Hp as [Hp Hpos]. apply andb_prop in Hp as [Hp Hvol].
  apply andb_prop in Hp as [Hp Hmed]. apply andb_prop in Hp as [Hm Hs].
  pose proof (bool_decide_eq_true_1 _ Hm) as Hm'.
  pose proof (bool_decide_eq_true_1 _ Hok) as Hok'.
  pose proof (otm_distance_range price) as Hrange.
  unfold fired_ok. cbn. rewrite Hm, Hs, Hmed, Hvol, Hpos, Hok. cbn.
  rewrite conservative_contracts.
  repeat split; try done; try lra; try lia.
  - by apply medium_trend_needs_six.
  - apply Hrange.
Qed.

Lemma check_aggressive_fired candles price hour d sig :
  check_aggressive candles price hour d = Some sig -> sig_signal sig = true ->
  fired_ok 20 0.40 50 candles price hour d sig.
Proof.
  unfold check_aggressive. destruct (last candles) as [lastc|]; [|done].
  cbn [mbind option_bind]. intros [= <-]. cbn [sig_signal].
  intros Hp. apply andb_prop in Hp as [Hp Hok].
  apply andb_prop in Hp as [Hp Hhr]. apply andb_prop in Hp as [Hp Hmom].
  apply andb_prop in Hp as [Hp Hmed]. apply andb_prop in Hp as [Hm Hs].
  pose proof (bool_decide_eq_true_1 _ Hm) as Hm'.
  pose proof (bool_decide_eq_true_1 _ Hok) as Hok'.
  pose proof (otm_distance_range price) as Hrange.
  unfold fired_ok. cbn. rewrite Hm, Hs, Hmed, Hmom, Hhr, Hok. cbn.
  rewrite aggressive_contracts.
  repeat split; try done; try lra; try lia.
  - by apply medium_trend_needs_six.
  - apply Hrange.
Qed.

(** X7: a signal of [check_conservative] or [check_aggressive] fires only
    between 14h and 21h UTC and on at least six candles; its strike is the
    OTM strike, the price is at least [min_strike_distance] and less than
    250 above it, the entry price and contract count are the fixed ones
    (0.60 and 16, 0.40 and 50) and their product stays within the position
    size (10, 20); so a threshold of 250 or more blocks every signal. *)
Theorem fired_signal_guarantees
    (candles : list Candle) (price : R) (hour : Z) (d : R) :
  (forall sig, check_conservative candles price hour d = Some sig ->
     sig_signal sig = true -> fired_ok 10 0.60 16 candles price hour d sig)
  /\ (forall sig, check_aggressive candles price hour d = Some sig ->
        sig_signal sig = true -> fired_ok 20 0.40 50 candles price hour d sig)
  /\ (250 <= d ->
      ~ signal_fires check_conservative candles price hour d
      /\ ~ signal_fires check_aggressive candles price hour d).
Proof.
  split; [|split].
  - intros sig. apply check_conservative_fired.
  - intros sig. apply check_aggressive_fired.
  - intros Hd. split; intros (sig & Hsig & Hfire).
    + destruct (check_conservative_fired _ _ _ _ _ Hsig Hfire)
        as (_ & _ & _ & Hdist & _). lra.
    + destruct (check_aggressive_fired _ _ _ _ _ Hsig Hfire)
        as (_ & _ & _ & Hdist & _). lra.
Qed.

Lemma fired_signal_guarantees_witness :
  exists sig, check_conservative rising_window 50300 15 50 = Some sig
    /\ fired_ok 10 0.60 16 rising_window 50300 15 50 sig.
Proof.
  destruct (rising_window_signal 50) as (sig & Hsig & Hfire).
  exists sig. split; [done|].
  apply (proj1 (fired_signal_guarantees rising_window 50300 15 50) sig Hsig).
  rewrite Hfire. apply bool_decide_eq_true. lra.
Defined.

End FiredSignals.

(** ** Bookkeeping of [run_backtest] *)

Section BacktestBooks.
Import Backtest BacktestSignals BacktestFacts.

Lemma py_sum_snoc xs x : py_sum (xs ++ [x]) = py_sum xs + x.
Proof.
  induction xs as [|y xs IH]; cbn [app].
  - rewrite py_sum_cons. unfold py_sum. cbn. lra.
  - rewrite !py_sum_cons, IH. lra.
Qed.

Lemma simulate_trade_resolved entry strike contracts vol sc rest :
  tr_outcome (simulate_trade entry strike contracts (sc :: rest) vol) <> no_data.
Proof.
  unfold simulate_trade. cbv zeta.
  repeat match goal with
         | |- context [decide ?P] => destruct (decide P)
         end; done.
Qed.

Lemma candles_after_nonempty (candles : list Candle) i :
  (i + 1 < length candles)%nat ->
  exists sc rest, take 2 (drop (i + 1) candles) = sc :: rest.
Proof.
  intros Hi. destruct (drop (i + 1) candles) as [|sc rest] eqn:Hd.
  - apply (f_equal length) in Hd. rewrite length_drop in Hd. cbn in Hd. lia.
  - by exists sc, (take 1 rest).
Qed.

Lemma py_max_list_ge xs x :
  exists peak, py_max_list (xs ++ [x]) = Some peak /\ x <= peak.
Proof.
  assert (Hfold : forall ys a, a <= foldl py_max a ys
                               /\ Forall (λ y, y <= foldl py_max a ys) ys).
  { induction ys as [|y ys IH]; intros a; cbn [foldl];
      [split; [lra|apply Forall_nil_2]|].
    destruct (IH (py_max a y)) as [Ha Hall].
    pose proof (py_max_ge_l a y). pose proof (py_max_ge_r a y).
    split; [lra|]. constructor; [lra|done]. }
  destruct xs as [|y ys]; cbn.
  - eexists. split; [done|]. cbn. lra.
  - eexists. split; [done|].
    destruct (Hfold (ys ++ [x]) y) as [_ Hall].
    apply Forall_app in Hall as [_ Hx]. exact (proj1 (Forall_singleton _ _) Hx).
Qed.

(** One pass of the loop keeps the bookkeeping relations and adds at most
    one signal. *)
Lemma backtest_step_inv candles fn d r i :
  well_behaved fn -> (i + 1 < length candles)%nat ->
  Forall (λ c, timestamp_ok (open_time c)) candles -> results_inv r ->
  exists r',
    backtest_step candles (mkStrategy fn d) r i = Some r'
    /\ results_inv r'
    /\ (r_signals r <= r_signals r' <= r_signals r + 1)%Z.
Proof.
  intros Hwb Hi Htime Hinv.
  destruct (lookup_lt_is_Some_2 candles i ltac:(lia)) as [candle Hc].
  assert (Hok : timestamp_ok (open_time candle)).
  { rewrite Forall_forall in Htime. apply Htime. by eapply list_elem_of_lookup_2. }
  unfold backtest_step. rewrite Hc. cbn [mbind option_bind].
  rewrite (hour_utc_of_Some _ Hok). cbn [mbind option_bind st_fn st_min_strike_dist].
  destruct (Hwb (py_slice (i - 12) (i + 1) candles) (c_close candle)
              ((open_time candle / 3600000) mod 24)%Z d
              (py_slice_window_nonempty candles i ltac:(lia)))
    as (sig & Hsig & Hstrike).
  rewrite Hsig. cbn [mbind option_bind].
  destruct (sig_signal sig) eqn:Hfire; [|exists r; split; [done|split; [done|lia]]].
  destruct (Hstrike eq_refl) as [strike ->]. cbn [mbind option_bind].
  destruct (candles_after_nonempty candles i Hi) as (sc & rest & ->).
  rewrite decide_False by apply simulate_trade_resolved.
  set (res := simulate_trade _ _ _ _ _).
  destruct (py_max_list_ge (r_pnl_series r) (r_total_pnl r + tr_pnl res))
    as (peak & Hpeak & Hge).
  cbn [r_pnl_series r_total_pnl r_signals r_trades r_wins r_losses r_early_exits
       r_max_drawdown r_win_pnls r_loss_pnls r_strike_dist_at_entry].
  rewrite Hpeak. cbn [mbind option_bind].
  eexists. split; [reflexivity|].
  destruct Hinv as (Ht & Hwl & Hee & Hser & Hw & Hl & Hsd & Hwp & Hlp & Hlast & Hdd).
  split; [|cbn; lia].
  unfold results_inv.
  cbn [r_pnl_series r_total_pnl r_signals r_trades r_wins r_losses r_early_exits
       r_max_drawdown r_win_pnls r_loss_pnls r_strike_dist_at_entry].
  assert (Hn : (0 <= r_trades r)%Z) by lia.
  destruct (bool_decide (tr_pnl res >= 0)) eqn:Hwin.
  - apply bool_decide_eq_true_1 in Hwin.
    repeat split; rewrite ?length_app, ?last_snoc; cbn [length];
      try lia; try lra; try done.
    + destruct (is_early_exit _); lia.
    + destruct (is_early_exit _); lia.
    + apply Forall_app. split; [done|]. by apply Forall_singleton.
    + by rewrite decide_False by lia.
    + destruct (decide (_ > _)); lra.
  - apply bool_decide_eq_false_1 in Hwin.
    repeat split; rewrite ?length_app, ?last_snoc; cbn [length];
      try lia; try lra; try done.
    + destruct (is_early_exit _); lia.
    + destruct (is_early_exit _); lia.
    + apply Forall_app. split; [done|]. apply Forall_singleton. lra.
    + by rewrite decide_False by lia.
    + destruct (decide (_ > _)); lra.
Qed.

Lemma backtest_loop_inv candles fn d indices :
  well_behaved fn ->
  Forall (λ c, timestamp_ok (open_time c)) candles ->
  Forall (λ i, (i + 1 < length candles)%nat) indices ->
  forall r, results_inv r ->
  exists r',
    foldl (λ acc i, acc ≫= λ r, backtest_step candles (mkStrategy fn d) r i)
      (Some r) indices = Some r'
    /\ results_inv r'
    /\ (r_signals r' <= r_signals r + Z.of_nat (length indices))%Z.
Proof.
  intros Hwb Htime Hall. induction Hall as [|i indices Hi _ IH]; intros r Hinv.
  - exists r. cbn. split; [done|split; [done|lia]].
  - destruct (backtest_step_inv candles fn d r i Hwb Hi Htime Hinv)
      as (r1 & Hstep & Hinv1 & Hsig1).
    destruct (IH r1 Hinv1) as (r' & Hloop & Hinv' & Hsig').
    exists r'. cbn [foldl mbind option_bind]. rewrite Hstep.
    split; [exact Hloop|split; [done|]]. cbn [length]. lia.
Qed.

Lemma results_init_inv : results_inv results_init.
Proof.
  unfold results_inv, results_init. cbn.
  repeat split; try done; try lia; try lra; try constructor.
Qed.

(** X8: with [check_conservative] or [check_aggressive] and any threshold,
    on every candle path whose timestamps [datetime] accepts (the years 1
    to 9999), [run_backtest] finishes, every signal becomes a trade, wins
    and losses add up to the trades, the early exits are among the trades,
    the lists of PnL values have the lengths of their counters and the
    signs of their names, the total PnL is the last entry of the PnL
    series, the drawdown is not negative, and there is at most one signal
    per candle from index 12 to the last but one. *)
Theorem run_backtest_books (candles : list Candle) (d : R)
    (fn : list Candle -> R -> Z -> R -> option Signal) :
  fn = check_conservative \/ fn = check_aggressive ->
  Forall (λ c, timestamp_ok (open_time c)) candles ->
  exists r,
    run_backtest candles (mkStrategy fn d) = Some r
    /\ results_inv r
    /\ (r_signals r <= Z.of_nat (length candles - 13))%Z.
Proof.
  intros Hfn Htime. unfold run_backtest.
  destruct (backtest_loop_inv candles fn d (seq 12 (length candles - 1 - 12)))
    with (r := results_init) as (r & Hrun & Hinv & Hsig).
  - destruct Hfn as [-> | ->];
      [apply check_conservative_well_behaved|apply check_aggressive_well_behaved].
  - exact Htime.
  - apply Forall_forall. intros i Hin. apply elem_of_seq in Hin. lia.
  - apply results_init_inv.
  - exists r. split; [done|split; [done|]].
    rewrite length_seq in Hsig. cbn in Hsig. lia.
Qed.

Lemma trade_window_sma :
  calc_sma (replicate 12 quiet_candle ++ [breakout_at_15h]) 3 = 50100
  /\ calc_sma (replicate 12 quiet_candle ++ [breakout_at_15h]) 6 = 50050
  /\ calc_sma (replicate 12 quiet_candle ++ [breakout_at_15h]) 12 = 50025.
Proof.
  unfold calc_sma, py_last_n, py_sum.
  repeat split; rewrite decide_False by (cbn; lia); simpl; lra.
Qed.

(** On the window of the example path at index 12, at 15h UTC, the
    conservative check fires exactly for thresholds of at most 50. *)
Lemma trade_window_signal d :
  exists sig,
    check_conservative (replicate 12 quiet_candle ++ [breakout_at_15h]) 50300 15 d
    = Some sig
    /\ sig_signal sig = bool_decide (50 >= d).
Proof.
  unfold check_conservative.
  change (last (replicate 12 quiet_candle ++ [breakout_at_15h]))
    with (Some breakout_at_15h).
  cbn [mbind option_bind].
  destruct trade_window_sma as (-> & -> & ->).
  change (calc_volatility breakout_at_15h) with (calc_volatility breakout_candle).
  change (calc_price_position breakout_at_15h)
    with (calc_price_position breakout_candle).
  rewrite breakout_position, breakout_strike.
  eexists. split; [reflexivity|]. cbn [sig_signal].
  rewrite (bool_decide_eq_true_2 (14 <= 15 < 21)%Z) by lia.
  rewrite (bool_decide_eq_true_2 (50100 > 50050)) by lra.
  rewrite (bool_decide_eq_true_2 (50050 > 50025)) by lra.
  rewrite (bool_decide_eq_true_2 (0.5 <= calc_volatility breakout_candle <= 2.0))
    by apply breakout_volatility.
  rewrite (bool_decide_eq_true_2 (80 > 60)) by lra.
  cbn [andb orb]. apply bool_decide_ext. lra.
Qed.

Lemma trade_path_times : Forall (λ c, timestamp_ok (open_time c)) trade_path.
Proof. unfold trade_path, timestamp_ok. repeat constructor; cbn; lia. Qed.

(** On the example path the loop runs once, at index 12, and counts one
    signal. *)
Lemma trade_path_one_signal r :
  run_backtest trade_path (mkStrategy check_conservative 50) = Some r ->
  r_signals r = 1%Z.
Proof.
  unfold run_backtest.
  change (seq 12 (length trade_path - 1 - 12)) with [12%nat].
  cbn [foldl mbind option_bind].
  destruct (backtest_step_signals trade_path check_conservative 50 results_init 12
              check_conservative_well_behaved ltac:(cbn; lia))
    as (candle & Hc & Hstep).
  change (trade_path !! 12%nat) with (Some breakout_at_15h) in Hc.
  injection Hc as <-.
  change (hour_utc_of (open_time breakout_at_15h)) with (Some 15%Z) in Hstep.
  destruct Hstep as (r' & sig & Hsig & -> & Hn). intros [= <-].
  change (py_slice (12 - 12) (12 + 1) trade_path)
    with (replicate 12 quiet_candle ++ [breakout_at_15h]) in Hsig.
  change (c_close breakout_at_15h) with 50300 in Hsig.
  destruct (trade_window_signal 50) as (sig' & Hsig' & Hfire).
  rewrite Hsig in Hsig'. injection Hsig' as <-.
  rewrite Hn, Hfire. rewrite bool_decide_eq_true_2 by lra. reflexivity.
Qed.

Lemma run_backtest_books_witness :
  exists r,
    run_backtest trade_path (mkStrategy check_conservative 50) = Some r
    /\ results_inv r
    /\ (r_signals r <= Z.of_nat (length trade_path - 13))%Z
    /\ r_signals r = 1%Z.
Proof.
  destruct (run_backtest_books trade_path 50 check_conservative
              ltac:(by left) trade_path_times) as (r & Hrun & Hinv & Hle).
  exists r. split; [exact Hrun|]. split; [exact Hinv|]. split; [exact Hle|].
  exact (trade_path_one_signal r Hrun).
Defined.

End BacktestBooks.

(** ** Shape of a generated path *)

Section GeneratorShape.
Import BacktestData GeneratorFacts BacktestMonteCarlo.

Lemma py_round_IZR n : py_round (IZR n) = n.
Proof.
  unfold py_round. rewrite ZfloorZ. rewrite decide_True by lra. done.
Qed.

Lemma py_round2_cents n : py_round2 (IZR n / 100) = IZR n / 100.
Proof.
  unfold py_round2. replace (IZR n / 100 * 100) with (IZR n) by lra.
  by rewrite py_round_IZR.
Qed.

Lemma py_round2_42000 : py_round2 42000.0 = 42000.
Proof.
  replace 42000.0 with (IZR 4200000 / 100) by lra.
  rewrite py_round2_cents. lra.
Qed.

Lemma py_round2_band x :
  20000 < py_round2 x < 80000 -> 20000 <= x <= 80000.
Proof.
  intros [Hlo Hhi].
  assert (H2 : py_round2 20000 = 20000).
  { replace 20000 with (IZR 2000000 / 100) by lra. apply py_round2_cents. }
  assert (H8 : py_round2 80000 = 80000).
  { replace 80000 with (IZR 8000000 / 100) by lra. apply py_round2_cents. }
  split.
  - destruct (Rle_lt_dec 20000 x) as [|Hx]; [done|].
    pose proof (py_round2_mono x 20000 ltac:(lra)). lra.
  - destruct (Rle_lt_dec x 80000) as [|Hx]; [done|].
    pose proof (py_round2_mono 80000 x ltac:(lra)). lra.
Qed.

(** One pass of the loop, in full: the candle it appends and the price it
    carries on. *)
Lemma gen_step_candle G st h :
  exists st' candle,
    gen_step G st h = Some st'
    /\ g_candles st' = g_candles st ++ [candle]
    /\ open_time candle = (start_ts + h * 3600 * 1000)%Z
    /\ close_time candle = (open_time candle + 3599999)%Z
    /\ c_open candle = py_round2 (g_price st)
    /\ (20000 < c_close candle < 80000 -> py_round2 (g_price st') = c_close candle).
Proof.
  unfold gen_step.
  destruct (rng_random G (g_rng st)) as [u_switch s1].
  set (sw := if decide (u_switch < 0.02 + IZR (g_duration st + 1) / 500) then _ else _).
  assert (Hsw : is_Some sw).
  { subst sw. case_decide; [|by eexists].
    destruct (rng_choices_regime G (g_regime st) s1) as [[r s] ->]. by eexists. }
  destruct Hsw as [[[cur dur] s2] ->]. cbn.
  destruct (regimes cur) as [[drift vol_mult] name].
  destruct (rng_random G s2) as [u_tail s3].
  set (gs := if decide (u_tail < 0.05) then _ else _).
  destruct gs as [ret s4].
  destruct (rng_uniform G 0.3 1.5 s4) as [x_intra s5].
  set (hl := if decide (g_price st * (1 + ret) >= g_price st) then _ else _).
  destruct hl as [[high low] s7].
  destruct (rng_uniform G 500 5000 s7) as [x_vol s8].
  eexists _, _. split; [reflexivity|]. cbn.
  split; [reflexivity|]. split; [reflexivity|]. split; [reflexivity|].
  split; [reflexivity|].
  intros Hband. apply py_round2_band in Hband.
  rewrite !decide_False by lra. reflexivity.
Qed.

Lemma gen_step_inv G st n :
  gen_inv n st ->
  exists st', gen_step G st (Z.of_nat n) = Some st' /\ gen_inv (S n) st'.
Proof.
  intros (Hlen & Htime & Hjoin & Hlast & Hfirst).
  destruct (gen_step_candle G st (Z.of_nat n))
    as (st' & candle & Hstep & Hcs & Hot & Hct & Hopen & Hcarry).
  exists st'. split; [done|]. unfold gen_inv. rewrite Hcs.
  split; [rewrite length_app; cbn; lia|]. split; [|split; [|split]].
  - intros k c Hk. apply lookup_app_Some in Hk as [Hk|[Hge Hk]].
    + by apply Htime.
    + apply list_lookup_singleton_Some in Hk as [Hk <-].
      unfold hourly. split; [|done]. rewrite Hot.
      replace k with n by lia. lia.
  - intros k c c' Hk Hk' Hband.
    apply lookup_app_Some in Hk' as [Hk'|[Hge Hk']].
    + rewrite lookup_app_l in Hk by (apply lookup_lt_Some in Hk'; lia).
      by apply (Hjoin k).
    + apply list_lookup_singleton_Some in Hk' as [Hk' <-].
      assert (k = (n - 1)%nat /\ (0 < n)%nat) as [-> Hn] by lia.
      rewrite lookup_app_l in Hk by lia.
      rewrite Hopen. rewrite last_lookup in Hlast.
      replace (Init.Nat.pred (length (g_candles st))) with (n - 1)%nat in Hlast by lia.
      rewrite Hk in Hlast. by apply Hlast.
  - rewrite last_snoc. exact Hcarry.
  - intros c Hc. destruct (g_candles st) as [|c0 cs] eqn:Hnil.
    + cbn in Hc. injection Hc as <-. rewrite Hopen.
      cbn in Hlast. rewrite Hlast. apply py_round2_42000.
    + cbn in Hc. injection Hc as <-. by apply Hfirst.
Qed.

Lemma gen_loop_inv G a n st :
  gen_inv a st ->
  exists st',
    foldl (λ acc h, acc ≫= λ st, gen_step G st h) (Some st)
      (Z.of_nat <$> seq a n) = Some st'
    /\ gen_inv (a + n) st'.
Proof.
  revert a st. induction n as [|n IH]; intros a st Hinv.
  - exists st. cbn. split; [done|]. by replace (a + 0)%nat with a by lia.
  - destruct (gen_step_inv G st a Hinv) as (st1 & Hstep & Hinv1).
    destruct (IH (S a) st1 Hinv1) as (st' & Hloop & Hinv').
    exists st'. cbn [seq fmap list_fmap foldl mbind option_bind].
    rewrite Hstep. split; [exact Hloop|].
    by replace (a + S n)%nat with (S a + n)%nat by lia.
Qed.

Lemma gen_inv_init G seed :
  gen_inv 0 (mkGenState (G := G) 42000.0 bull_trend 0%Z (rng_seed G seed) []).
Proof. unfold gen_inv. cbn. repeat split; done. Qed.

(** What [generate_realistic_btc_data] returns, read off the loop
    invariant. *)
Lemma generate_shape G days seed :
  (forall candles,
     generate_realistic_btc_data G days seed = Some candles ->
     exists st : GenState G,
       gen_inv (Z.to_nat (days * 24)) st /\ g_candles st = candles)
  /\ ((1 <= days)%Z -> is_Some (generate_realistic_btc_data G days seed)).
Proof.
  unfold generate_realistic_btc_data, gen_loop, py_range.
  destruct (gen_loop_inv G 0 (Z.to_nat (days * 24)) _ (gen_inv_init G seed))
    as (st & -> & Hinv).
  cbn [mbind option_bind]. split.
  - intros candles Hc. exists st. split; [done|].
    destruct (g_candles st); [done|]. by injection Hc.
  - intros Hdays. destruct (g_candles st) as [|c cs] eqn:Hcs; [|by eexists].
    destruct Hinv as (Hlen & _). rewrite Hcs in Hlen. cbn in Hlen. lia.
Qed.

(** X9: the candles of a generated path are hourly and contiguous: the
    candle at position [k] opens [k] hours after the start timestamp
    1739232000000 and closes 3599999 ms later. *)
Theorem generated_candles_hourly G (days seed : Z) candles k c :
  generate_realistic_btc_data G days seed = Some candles ->
  candles !! k = Some c ->
  open_time c = (1739232000000 + Z.of_nat k * 3600000)%Z
  /\ close_time c = (open_time c + 3599999)%Z.
Proof.
  intros Hgen Hk.
  destruct (proj1 (generate_shape G days seed) candles Hgen)
    as (st & (_ & Htime & _) & <-).
  exact (Htime k c Hk).
Qed.

(** X10: a generated path starts at an open of 42000, and each candle
    opens at the stored close of the candle before it whenever that close
    lies strictly between 20000 and 80000 (outside that band the carried
    price is pulled back by 0.01 percent first). *)
Theorem generated_candles_join G (days seed : Z) candles :
  generate_realistic_btc_data G days seed = Some candles ->
  (forall c, candles !! 0%nat = Some c -> c_open c = 42000)
  /\ (forall k c c', candles !! k = Some c -> candles !! S k = Some c' ->
        20000 < c_close c < 80000 -> c_open c' = c_close c).
Proof.
  intros Hgen.
  destruct (proj1 (generate_shape G days seed) candles Hgen)
    as (st & (_ & _ & Hjoin & _ & Hfirst) & <-).
  split; [exact Hfirst|exact Hjoin].
Qed.

Lemma const_gen_day :
  exists candles c,
    generate_realistic_btc_data const_gen 1 42 = Some candles
    /\ candles !! 0%nat = Some c.
Proof.
  destruct (proj2 (generate_shape const_gen 1 42) ltac:(lia)) as [candles Hc].
  destruct (proj1 (generate_shape const_gen 1 42) candles Hc)
    as (st & (Hlen & _) & Hcs).
  rewrite Hcs in Hlen.
  destruct (lookup_lt_is_Some_2 candles 0) as [c Hc0]; [rewrite Hlen; cbn; lia|].
  by exists candles, c.
Qed.

Lemma generated_candles_hourly_witness :
  exists candles c,
    generate_realistic_btc_data const_gen 1 42 = Some candles
    /\ candles !! 0%nat = Some c
    /\ open_time c = 1739232000000%Z.
Proof.
  destruct const_gen_day as (candles & c & Hgen & Hc).
  exists candles, c. split; [done|]. split; [done|].
  destruct (generated_candles_hourly const_gen 1 42 candles 0 c Hgen Hc) as [H _].
  rewrite H. lia.
Defined.

Lemma generated_candles_join_witness :
  exists candles c,
    generate_realistic_btc_data const_gen 1 42 = Some candles
    /\ candles !! 0%nat = Some c
    /\ c_open c = 42000.
Proof.
  destruct const_gen_day as (candles & c & Hgen & Hc).
  exists candles, c. split; [done|]. split; [done|].
  by apply (proj1 (generated_candles_join const_gen 1 42 candles Hgen)).
Defined.

Lemma generate_some G days seed :
  (1 <= days)%Z ->
  exists candles,
    generate_realistic_btc_data G days seed = Some candles
    /\ length candles = Z.to_nat (days * 24)
    /\ Forall candle_ok candles.
Proof.
  intros Hdays. unfold generate_realistic_btc_data, gen_loop.
  destruct (gen_loop_spec G (py_range (days * 24))
              (mkGenState 42000.0 bull_trend 0%Z (rng_seed G seed) []))
    as (st & -> & Hok & Hlen); [by apply Forall_nil|].
  cbn [mbind option_bind]. cbn in Hlen.
  unfold py_range in Hlen. rewrite length_fmap, length_seq in Hlen.
  destruct (g_candles st) as [|c cs] eqn:Hcs; [cbn in Hlen; lia|].
  by eexists.
Qed.

Lemma generate_none G days seed :
  (days <= 0)%Z -> generate_realistic_btc_data G days seed = None.
Proof.
  intros Hdays. unfold generate_realistic_btc_data, gen_loop, py_range.
  replace (Z.to_nat (days * 24)) with 0%nat by lia. done.
Qed.

(** X11: for one day or more, [generate_multi_seed_data] returns one path
    per seed index, each with 24 candles per day that all satisfy the
    candle invariant; for zero or fewer days and at least one seed it
    raises, like the single-path generator. *)
Theorem generate_multi_seed_data_paths G (days num_seeds : Z) :
  ((1 <= days)%Z ->
   exists paths,
     generate_multi_seed_data G days num_seeds = Some paths
     /\ length paths = Z.to_nat num_seeds
     /\ Forall (λ path, length path = Z.to_nat (days * 24)
                         /\ Forall candle_ok path) paths)
  /\ ((days <= 0)%Z -> (1 <= num_seeds)%Z ->
      generate_multi_seed_data G days num_seeds = None).
Proof.
  unfold generate_multi_seed_data. split.
  - intros Hdays.
    destruct (mapM_is_Some_2
                (λ seed, generate_realistic_btc_data G days (seed * 17 + 42)%Z)
                (py_range num_seeds)) as [paths Hpaths].
    { apply Forall_forall. intros seed _. cbn.
      destruct (generate_some G days (seed * 17 + 42) Hdays) as (c & -> & _).
      by eexists. }
    exists paths. split; [done|]. split.
    + apply length_mapM in Hpaths. rewrite <- Hpaths.
      unfold py_range. by rewrite length_fmap, length_seq.
    + apply mapM_Some_1 in Hpaths.
      apply Forall_forall. intros path Hin.
      apply list_elem_of_lookup in Hin as [i Hi].
      destruct (Forall2_lookup_r _ _ _ _ _ Hpaths Hi) as (seed & _ & Hgen).
      destruct (generate_some G days (seed * 17 + 42) Hdays)
        as (c & Hc & Hlen & Hok).
      rewrite Hgen in Hc. by injection Hc as ->.
  - intros Hdays Hn. apply mapM_None_2.
    unfold py_range. destruct (Z.to_nat num_seeds) as [|n] eqn:Hz; [lia|].
    cbn. apply Exists_cons_hd. by apply generate_none.
Qed.

Lemma generate_multi_seed_data_paths_witness :
  exists paths,
    generate_multi_seed_data const_gen 1 5 = Some paths /\ length paths = 5%nat.
Proof.
  destruct (proj1 (generate_multi_seed_data_paths const_gen 1 5) ltac:(lia))
    as (paths & Hp & Hlen & _).
  by exists paths.
Defined.

End GeneratorShape.

(** ** experiment_conservative.py: bucketed fair value and signals *)

Section ConservativeSignals.
Import ExperimentConservative ConservativeFacts.

(** X12: with positive volatility and minutes remaining, this file's
    bucketed fair value and the risk of ruin add up to exactly 1 as long as
    the z-score is above -3; in the deepest band (z at most -3) the fair
    value is 0.001 against a risk of ruin of 0.98. *)
Theorem bucketed_fair_value_complement (price strike vol mins : R) :
  0 < vol -> 0 < mins ->
  (-3 < Backtest.ror_z price strike vol mins ->
   estimate_fair_value price strike vol mins
   + calc_risk_of_ruin price strike vol mins = 1)
  /\ (Backtest.ror_z price strike vol mins <= -3 ->
      estimate_fair_value price strike vol mins = 0.001
      /\ calc_risk_of_ruin price strike vol mins = 0.98).
Proof.
  intros Hv Hm. unfold estimate_fair_value, calc_risk_of_ruin.
  rewrite decide_False by lra. cbv zeta.
  change (if decide (price * (vol / 100) * sqrt (py_max (mins / 60) 0.01) > 0)
          then (price - strike) / (price * (vol / 100) * sqrt (py_max (mins / 60) 0.01))
          else 0) with (Backtest.ror_z price strike vol mins).
  set (z := Backtest.ror_z price strike vol mins).
  split; intros Hz; repeat case_decide; lra.
Qed.

Lemma bucketed_fair_value_complement_witness :
  estimate_fair_value 50100 50000 1 30 + calc_risk_of_ruin 50100 50000 1 30 = 1.
Proof.
  apply (proj1 (bucketed_fair_value_complement 50100 50000 1 30
                  ltac:(lra) ltac:(lra))).
  pose proof (Backtest.ror_z 50100 50000 1 30) as z.
  unfold Backtest.ror_z.
  assert (Hem : 0 < 50100 * (1 / 100) * sqrt (py_max (30 / 60) 0.01)).
  { apply Rmult_lt_0_compat; [lra|]. apply sqrt_lt_R0.
    unfold py_max. case_decide; lra. }
  rewrite decide_True by lra.
  assert (0 <= (50100 - 50000) / (50100 * (1 / 100) * sqrt (py_max (30 / 60) 0.01))).
  { unfold Rdiv at 1. apply Rmult_le_pos; [lra|].
    left. by apply Rinv_0_lt_compat. }
  lra.
Defined.

Lemma sma_nonzero_length candles period :
  calc_sma candles period <> 0 -> (period <= length candles)%nat.
Proof.
  intros Hne. destruct (decide (period <= length candles)%nat); [done|].
  exfalso. apply Hne. unfold calc_sma, Backtest.calc_sma.
  by rewrite decide_True by lia.
Qed.

Lemma floor_times_le a b :
  0 < b -> IZR (Zfloor (a / b)) * b <= a < (IZR (Zfloor (a / b)) + 1) * b.
Proof.
  intros Hb. pose proof (Zfloor_bound (a / b)) as [Hlo Hhi].
  assert (Ha : a = a / b * b).
  { unfold Rdiv. rewrite Rmult_assoc, Rinv_l by lra. lra. }
  split.
  - rewrite Ha at 2. apply Rmult_le_compat_r; lra.
  - rewrite Ha at 1. apply Rmult_lt_compat_r; lra.
Qed.

Lemma check_signal_ok candles current_price minute params sig :
  check_signal candles current_price minute params = Some sig ->
  signal_ok candles current_price minute params sig.
Proof.
  unfold check_signal.
  destruct (decide (60 - minute <= min_time_remaining params)) as [|Htime]; [done|].
  destruct (decide (_ \/ _)) as [|Hsma]; [done|].
  destruct (last candles) as [lastc|]; [|done]. cbn [mbind option_bind].
  destruct (match sma_looseness params with
            | Some _ => _ | None => _ end) as [short_trend medium_trend].
  destruct (negb short_trend || negb medium_trend); [done|].
  destruct (negb (vol_filter_ok _ _)); [done|].
  destruct (negb (pos_filter_ok _ _)); [done|].
  destruct (decide (_ < min_strike_distance params)) as [|Hdist]; [done|].
  destruct (decide (_ < min_probability params)) as [|Hprob]; [done|].
  set (fv := estimate_fair_value _ _ _ _) in *.
  destruct (match max_probability params with
            | Some mp => bool_decide (fv > mp) | None => false end) eqn:Hmax; [done|].
  set (raw := IZR (Zfloor (fv * edge_cushion params * 100)) / 100).
  set (entry := match max_entry_cap params with
                | Some cap => py_min raw cap | None => raw end).
  destruct (decide (entry > 0.95)) as [|Hcap]; [done|].
  destruct (decide (_ <= 0)%Z) as [|Hcontracts]; [done|].
  intros [= <-].
  assert (Hpos : 0 < entry).
  { destruct (decide (entry > 0)) as [H|H]; [lra|lia]. }
  rewrite decide_True in Hcontracts by lra.
  assert (Hraw : raw <= fv * edge_cushion params).
  { subst raw. pose proof (Zfloor_bound (fv * edge_cushion params * 100)). lra. }
  assert (Hentry : entry <= raw).
  { subst entry. destruct (max_entry_cap params); [apply py_min_le_l|lra]. }
  pose proof (floor_times_le (position_size params) entry Hpos) as [Hcost Hnext].
  unfold signal_ok. cbn [sig_strike sig_entry_price sig_contracts sig_fair_value].
  rewrite decide_True by lra.
  split; [apply sma_nonzero_length; tauto|].
  split; [lra|]. split; [done|]. split; [lra|]. split; [lra|].
  split.
  { intros mp Hmp. rewrite Hmp in Hmax. apply bool_decide_eq_false_1 in Hmax. lra. }
  split; [lra|]. split; [lra|]. split.
  { intros cap Hc. subst entry. rewrite Hc. apply py_min_le_r. }
  split; [lia|]. split; [exact Hcost|exact Hnext].
Qed.

(** X13: a signal returned by [check_signal] comes from at least twelve
    candles with more than the minimum time remaining; its strike is the
    configured strike of the price and at least the minimum distance below
    it; its fair value is within the configured probability band; its entry
    price is positive, at most 0.95, at most fair value times the edge
    cushion and at most the cap; and its contract count is the largest
    integer, at least 1, whose cost at the entry price fits the position
    size. *)
Theorem check_signal_guarantees
    (candles : list Candle) (current_price minute : R) (params : Params)
    (sig : Signal) :
  check_signal candles current_price minute params = Some sig ->
  signal_ok candles current_price minute params sig.
Proof. apply check_signal_ok. Qed.

Lemma check_signal_guarantees_witness :
  signal_ok (replicate 13 flat_candle) 50100 30 big_position
    (mkSignal 50000 (IZR 50 / 100) 600 1.0 0).
Proof.
  apply (check_signal_guarantees (replicate 13 flat_candle) 50100 30 big_position).
  pose proof flat_signal as H. unfold signal_at in H.
  change (flat_path !! 12%nat) with (Some flat_candle) in H.
  exact H.
Defined.

End ConservativeSignals.

(** ** experiment_conservative.py: trade simulation and bankroll *)

Section ConservativeBankroll.
Import ExperimentConservative ConservativeFacts.

Lemma calc_net_pnl_same c e x ty :
  calc_net_pnl c e x ty = Backtest.calc_net_pnl c e x ty.
Proof. reflexivity. Qed.

(** X14: with the exit logic on, this file's [simulate_trade] returns the
    PnL of backtest.py's [simulate_trade] and the same outcome with the
    three early-exit reasons merged; with the exit logic off it only holds
    to settlement: a win, with the PnL [calc_net_pnl] gives at exit price
    1.0, exactly when the close is above the strike, and otherwise a loss
    with the PnL [calc_net_pnl] gives at exit price 0.0. *)
Theorem simulate_trade_refines
    (entry_price strike contracts volatility : R) (candles_after : list Candle) :
  simulate_trade entry_price strike contracts candles_after volatility true
  = (let r := Backtest.simulate_trade entry_price strike contracts
                candles_after volatility in
     (collapse_outcome (Backtest.tr_outcome r), Backtest.tr_pnl r))
  /\ (forall sc rest, candles_after = sc :: rest ->
        simulate_trade entry_price strike contracts candles_after volatility false
        = if decide (c_close sc > strike)
          then (win, calc_net_pnl contracts entry_price 1.0 "settlement")
          else (loss, calc_net_pnl contracts entry_price 0.0 "settlement")).
Proof.
  split.
  - destruct candles_after as [|sc rest]; [done|].
    unfold simulate_trade, Backtest.simulate_trade. cbv zeta.
    cbn [negb].
    change calc_risk_of_ruin with Backtest.calc_risk_of_ruin.
    change estimate_contract_price with Backtest.estimate_contract_price.
    change calc_net_pnl with Backtest.calc_net_pnl.
    repeat match goal with
           | |- context [decide ?P] => destruct (decide P)
           end; reflexivity.
  - intros sc rest ->. unfold simulate_trade. cbn [negb]. cbv zeta.
    destruct (decide (c_close sc > strike)); reflexivity.
Qed.

Lemma simulate_trade_refines_witness :
  simulate_trade 0.6 50000 16 [flat_candle] 1 false
  = if decide (c_close flat_candle > 50000)
    then (win, calc_net_pnl 16 0.6 1.0 "settlement")
    else (loss, calc_net_pnl 16 0.6 0.0 "settlement").
Proof.
  apply (proj2 (simulate_trade_refines 0.6 50000 16 1 [flat_candle])
           flat_candle []).
  reflexivity.
Defined.

Lemma simulate_trade_settles entry strike contracts vol use_exit sc rest :
  fst (simulate_trade entry strike contracts (sc :: rest) vol use_exit) <> no_data.
Proof.
  unfold simulate_trade. cbv zeta. destruct use_exit; cbn [negb];
  repeat match goal with
         | |- context [decide ?P] => destruct (decide P)
         end; done.
Qed.

Lemma record_trade_keeps params st o pnl :
  vstate_inv params st -> ruin_hit st = false ->
  vstate_inv params (record_trade st o pnl).
Proof.
  intros (Hwl & Hw & Hl & Hee & Hls & Hmls & Hb & Hpb & Htp & Hpp & Hmb & Hm100
          & Hdd & Hdd' & Hruin) Hr.
  unfold vstate_inv, record_trade. cbv zeta.
  cbn [trades wins losses early_exits total_pnl max_dd peak_pnl bankroll
       peak_bank min_bankroll ruin_hit losing_streak max_losing_streak].
  rewrite Hr.
  destruct (bool_decide (pnl >= 0)) eqn:Hwin;
    repeat match goal with
           | |- context [decide ?P] => destruct (decide P)
           end;
    repeat split; try lia; try lra; try done.
Qed.

Lemma set_ruin_hit_keeps params st :
  vstate_inv params st -> cannot_afford params st ->
  vstate_inv params (set_ruin_hit st).
Proof.
  intros Hinv Hlow. unfold vstate_inv, set_ruin_hit in *.
  cbn [trades wins losses early_exits total_pnl max_dd peak_pnl bankroll
       peak_bank min_bankroll ruin_hit losing_streak max_losing_streak].
  repeat split; try tauto. all: try (intros _; exact Hlow).
  all: destruct Hinv as (?&?&?&?&?&?&?&?&?&?&?&?&?&?&?); lia || lra.
Qed.

Lemma trade_candles_nonempty (candles : list Candle) i :
  (i + 1 < length candles)%nat ->
  exists sc rest, py_slice (i + 1) (i + 3) candles = sc :: rest.
Proof.
  intros Hi. unfold py_slice.
  destruct (drop (i + 1) candles) as [|sc rest] eqn:Hd.
  - apply (f_equal length) in Hd. rewrite length_drop in Hd. cbn in Hd. lia.
  - replace (i + 3 - (i + 1))%nat with 2%nat by lia. by exists sc, (take 1 rest).
Qed.

Lemma variant_step_inv candles params st i :
  (i + 1 < length candles)%nat -> vstate_inv params st ->
  exists st',
    variant_step candles params st i = Some st'
    /\ vstate_inv params st'
    /\ (trades st <= trades st' <= trades st + 1)%Z.
Proof.
  intros Hi Hinv.
  destruct (lookup_lt_is_Some_2 candles i ltac:(lia)) as [candle Hc].
  unfold variant_step. rewrite Hc. cbn [mbind option_bind].
  destruct (check_signal _ _ _ _) as [sig|]; [|exists st; split; [done|split; [done|lia]]].
  destruct (decide (bankroll st < position_size params * 0.5)) as [Hlow|Hok].
  - exists (set_ruin_hit st). split; [done|].
    split; [by apply set_ruin_hit_keeps|]. destruct st; cbn; lia.
  - destruct (trade_candles_nonempty candles i Hi) as (sc & rest & ->).
    pose proof (simulate_trade_settles (sig_entry_price sig) (IZR (sig_strike sig))
                  (IZR (sig_contracts sig)) (sig_volatility sig)
                  (use_exit_logic params) sc rest) as Hres.
    destruct (simulate_trade _ _ _ _ _ _) as [o pnl]. cbn in Hres.
    rewrite decide_False by done.
    exists (record_trade st o pnl). split; [done|]. split.
    + apply record_trade_keeps; [done|].
      destruct (ruin_hit st) eqn:Hr; [|done]. exfalso. apply Hok.
      by apply Hinv.
    + unfold record_trade. cbn. lia.
Qed.

Lemma variant_loop_inv candles params indices :
  Forall (λ i, (i + 1 < length candles)%nat) indices ->
  forall st, vstate_inv params st ->
  exists st',
    variant_loop candles params st indices = Some st'
    /\ vstate_inv params st'
    /\ (trades st <= trades st' <= trades st + Z.of_nat (length indices))%Z.
Proof.
  intros Hall. induction Hall as [|i indices Hi _ IH]; intros st Hinv.
  - exists st. cbn. split; [done|split; [done|lia]].
  - destruct (variant_step_inv candles params st i Hi Hinv)
      as (st1 & Hstep & Hinv1 & Ht1).
    destruct (IH st1 Hinv1) as (st' & Hloop & Hinv' & Ht').
    exists st'. rewrite variant_loop_cons, Hstep.
    split; [exact Hloop|split; [done|]]. cbn [length]. lia.
Qed.

Lemma vstate_init_inv params : vstate_inv params vstate_init.
Proof.
  unfold vstate_inv, vstate_init. cbn.
  repeat split; try lia; try lra; try done.
Qed.

Lemma run_variant_final candles params :
  exists st,
    run_variant candles params = Some (variant_result st)
    /\ vstate_inv params st
    /\ (0 <= trades st <= Z.of_nat (length candles - 13))%Z.
Proof.
  destruct (variant_loop_inv candles params (variant_indices candles))
    with (st := vstate_init) as (st & Hloop & Hinv & Ht).
  - apply Forall_forall. intros i Hin. apply elem_of_seq in Hin. lia.
  - apply vstate_init_inv.
  - exists st. unfold run_variant. rewrite Hloop. split; [done|split; [done|]].
    unfold variant_indices in Ht. rewrite length_seq in Ht. cbn in Ht. lia.
Qed.

(** X15: [run_variant] finishes on every candle path and configuration,
    and its report is consistent: wins plus losses are the trades, at most
    one trade per candle from index 12 to the last but one, the early
    exits are among the trades, the final bankroll is never below the
    minimum bankroll, which is at most 100; the drawdown is not negative,
    the longest losing streak is at most the losses, and the win rate lies
    in [[0, 100]]. *)
Theorem run_variant_report (candles : list Candle) (params : Params) :
  exists res,
    run_variant candles params = Some res
    /\ (vr_wins res + vr_losses res)%Z = vr_trades res
    /\ (0 <= vr_trades res <= Z.of_nat (length candles - 13))%Z
    /\ (0 <= vr_early_exits res <= vr_trades res)%Z
    /\ (0 <= vr_max_losing_streak res <= vr_losses res)%Z
    /\ vr_min_bankroll res <= vr_final_bankroll res
    /\ vr_min_bankroll res <= 100
    /\ 0 <= vr_max_dd res
    /\ 0 <= vr_win_rate res <= 100.
Proof.
  destruct (run_variant_final candles params) as (st & Hrun & Hinv & Ht).
  destruct Hinv as (Hwl & Hw & Hl & Hee & Hls & Hmls & Hb & Hpb & Htp & Hpp
                    & Hmb & Hm100 & Hdd & _).
  exists (variant_result st). split; [done|].
  unfold variant_result. cbn.
  repeat split; try lia; try lra.
  - case_decide; [|lra]. apply Rmult_le_pos; [|lra].
    unfold Rdiv. apply Rmult_le_pos; [apply IZR_le; lia|].
    left. apply Rinv_0_lt_compat. apply IZR_lt. lia.
  - case_decide; [|lra].
    assert (Hq : IZR (wins st) / IZR (trades st) <= 1).
    { apply Rmult_le_reg_r with (IZR (trades st)); [apply IZR_lt; lia|].
      unfold Rdiv. rewrite Rmult_assoc, Rinv_l.
      - rewrite Rmult_1_r, Rmult_1_l. apply IZR_le. lia.
      - apply not_0_IZR. lia. }
    lra.
Qed.

(** X16: when [run_variant] reports [ruin_hit], the final bankroll is below
    half the position size: the flag is only raised at a signal the
    bankroll cannot cover, and no trade changes the bankroll afterwards. *)
Theorem run_variant_ruin_bankroll (candles : list Candle) (params : Params) res :
  run_variant candles params = Some res ->
  vr_ruin_hit res = true ->
  vr_final_bankroll res < position_size params * 0.5.
Proof.
  intros Hres Hruin.
  destruct (run_variant_final candles params) as (st & Hrun & Hinv & _).
  rewrite Hrun in Hres. injection Hres as <-.
  cbn in *. by apply Hinv.
Qed.

Lemma run_variant_ruin_bankroll_witness :
  exists res,
    run_variant flat_path big_position = Some res
    /\ vr_final_bankroll res < position_size big_position * 0.5.
Proof.
  assert (Hres : run_variant flat_path big_position
                 = Some (variant_result (set_ruin_hit vstate_init))).
  { unfold run_variant. change (variant_indices flat_path) with [12%nat].
    rewrite variant_loop_cons, (variant_step_ruin _ _ _ _ _ flat_signal); [done|].
    unfold cannot_afford. cbn. lra. }
  eexists. split; [exact Hres|].
  by apply (run_variant_ruin_bankroll _ _ _ Hres).
Defined.

End ConservativeBankroll.

(** ** backtest_combined.py: pinning discount and signals *)

Section CombinedSignals.
Import BacktestCombined BacktestCombinedEngine CombinedFacts.

Lemma pin_discount_range price strike mins d :
  pin_discount price strike mins = Some d -> 0.03 <= d <= 0.375.
Proof.
  unfold pin_discount.
  repeat match goal with
         | |- context [decide ?P] => destruct (decide P)
         end; cbn [mbind option_bind]; try done; intros [= <-]; lra.
Qed.

Lemma pin_discount_None price strike mins :
  pin_discount price strike mins = None <-> price = 0 /\ (0 < strike)%Z.
Proof.
  unfold pin_discount. split.
  - repeat match goal with
           | |- context [decide ?P] => destruct (decide P)
           end; cbn [mbind option_bind]; try done; intros _.
    all: split; [done|]; apply lt_IZR; lra.
  - intros [-> Hs]. apply IZR_lt in Hs.
    rewrite decide_True by lra. by rewrite decide_True.
Qed.

(** X17: the pinning discount fails only at a price of 0 below a positive
    strike (a division by zero); otherwise the adjusted probability is at
    least 0.01, and for a fair value [fv >= 0] it lies between
    [max(0.01, 0.625 fv)] and [max(0.01, 0.97 fv)]: the discount is between
    3 and 37.5 percent and never raises a fair value of 0.01 or more. *)
Theorem apply_pinning_discount_bounds
    (fair_value btc_price : R) (strike : Z) (mins_remaining : R) :
  (apply_pinning_discount fair_value btc_price strike mins_remaining = None
   <-> btc_price = 0 /\ (0 < strike)%Z)
  /\ forall adj,
       apply_pinning_discount fair_value btc_price strike mins_remaining = Some adj ->
       0.01 <= adj
       /\ (0 <= fair_value ->
           py_max 0.01 (0.625 * fair_value) <= adj
           /\ adj <= py_max 0.01 (0.97 * fair_value))
       /\ (0.01 <= fair_value -> adj <= fair_value).
Proof.
  unfold apply_pinning_discount. split.
  - rewrite <- (pin_discount_None btc_price strike mins_remaining).
    destruct (pin_discount btc_price strike mins_remaining);
      cbn [mbind option_bind]; split; congruence.
  - intros adj.
    destruct (pin_discount btc_price strike mins_remaining) as [d|] eqn:Hd;
      [|done].
    apply pin_discount_range in Hd. cbn [mbind option_bind]. intros [= <-].
    split; [apply py_max_ge_l|]. split.
    + intros Hfv. unfold py_max, py_min. repeat case_decide; nra.
    + intros Hfv. unfold py_max, py_min. repeat case_decide; nra.
Qed.

Lemma apply_pinning_discount_bounds_witness :
  exists adj,
    apply_pinning_discount 0.3 50000 50250 30 = Some adj
    /\ 0.01 <= adj <= 0.3.
Proof.
  destruct (apply_pinning_discount 0.3 50000 50250 30) as [adj|] eqn:Hadj.
  - exists adj. split; [reflexivity|].
    destruct (proj2 (apply_pinning_discount_bounds 0.3 50000 50250 30) adj Hadj)
      as (Hlo & _ & Hhi).
    split; [exact Hlo|apply Hhi; lra].
  - apply (proj1 (apply_pinning_discount_bounds 0.3 50000 50250 30)) in Hadj
      as [Hzero _].
    lra.
Defined.

Lemma estimate_fair_value_unit price strike vol mins :
  0 <= estimate_fair_value price strike vol mins <= 1.
Proof.
  unfold estimate_fair_value.
  pose proof (clamp_bounds (normal_cdf ((price - strike)
                / (price * (vol / 100) * sqrt (py_max mins 0.5 / 60))))).
  repeat match goal with
         | |- context [decide ?P] => destruct (decide P)
         end; lra.
Qed.

Lemma fair_value_in_band price strike vol mins :
  0.05 <= estimate_fair_value price strike vol mins <= 0.45 ->
  0 < vol /\ 0 < price.
Proof.
  unfold estimate_fair_value.
  destruct (decide (vol <= 0 \/ mins <= 0)) as [|Hg];
    [destruct (decide (price > strike)); lra|].
  set (s := sqrt (py_max mins 0.5 / 60)).
  assert (Hs : 0 < s).
  { subst s. apply sqrt_lt_R0. unfold py_max. case_decide; lra. }
  destruct (decide (price * (vol / 100) * s <= 0)) as [|Hem];
    [destruct (decide (price >= strike)); lra|].
  intros _. split; [lra|].
  destruct (Rlt_le_dec 0 price) as [|Hp]; [done|]. exfalso. apply Hem.
  assert (0 <= vol / 100 * s) by (apply Rmult_le_pos; lra). nra.
Qed.

Lemma next_strike_above price :
  price < IZR (calc_strike price + 250) <= price + 250.
Proof.
  unfold calc_strike, STRIKE_INCREMENT.
  pose proof (Zfloor_bound (price / 250)) as [Hlo Hhi].
  rewrite plus_IZR, mult_IZR. lra.
Qed.

Lemma check_all_signals_ok candles current_price entry_minute sig :
  check_all_signals candles current_price entry_minute = Some sig ->
  signal_ok candles current_price entry_minute sig.
Proof.
  unfold check_all_signals, MIN_TIME_REMAINING, PROB_LO, PROB_HI,
    MAX_ENTRY_PRICE, POSITION_SIZE.
  destruct (decide (60 - entry_minute <= 15)) as [|Htime]; [done|].
  destruct (decide (length candles < 12)%nat) as [|Hlen]; [done|].
  destruct (decide (_ \/ _)) as [|Hsma]; [done|].
  destruct (py_neg 1 candles) as [lastc|]; [|done]. cbn [mbind option_bind].
  destruct (pick_signal _ _ _ _) as [name|]; [|done]. cbn [mbind option_bind].
  set (fv := estimate_fair_value _ _ _ _).
  destruct (decide (fv < 0.05 \/ fv > 0.45)) as [|Hband]; [done|].
  set (entry := py_min 0.25 (IZR (Zfloor (fv * 100)) / 100)).
  destruct (decide (entry <= 0.01)) as [|Hentry]; [done|].
  destruct (decide (_ <= 0)%Z) as [|Hcontracts]; [done|].
  intros [= <-].
  assert (Hfv : 0.05 <= fv <= 0.45) by lra.
  destruct (fair_value_in_band _ _ _ _ Hfv) as [Hvol Hprice].
  pose proof (next_strike_above current_price) as Hstrike.
  pose proof (Zfloor_bound (fv * 100)) as [Hfl Hfl'].
  assert (Hfloor : (5 <= Zfloor (fv * 100))%Z).
  { apply Zfloor_lub. lra. }
  apply IZR_le in Hfloor.
  assert (He : 0.05 <= entry <= 0.25 /\ entry <= fv).
  { subst entry. unfold py_min. case_decide; lra. }
  destruct He as [He Hefv].
  pose proof (floor_times_le 20 entry ltac:(lra)) as [Hcost Hnext].
  assert (Hc80 : (80 <= Zfloor (20 / entry))%Z).
  { apply Zfloor_lub. apply Rmult_le_reg_r with entry; [lra|].
    unfold Rdiv. rewrite Rmult_assoc, Rinv_l by lra. lra. }
  assert (Hc400 : (Zfloor (20 / entry) <= 400)%Z).
  { apply le_IZR. pose proof (Zfloor_bound (20 / entry)) as [Hq _].
    assert (20 / entry <= 400).
    { apply Rmult_le_reg_r with entry; [lra|].
      unfold Rdiv. rewrite Rmult_assoc, Rinv_l by lra. lra. }
    lra. }
  unfold signal_ok.
  cbn [sig_strike sig_entry_price sig_contracts sig_fv sig_vol].
  repeat split; try lia; try lra; try done.
  all: unfold STRIKE_INCREMENT in *; try lra; try apply Hstrike.
Qed.

(** A twelve-candle window closing at 49800 under a price of 50000. *)
Lemma momentum_sma n :
  (n = 3 \/ n = 6 \/ n = 12)%nat ->
  calc_sma (replicate 12 (mkCandle 0 50000 50125 49875 49800 1000 3599999)) n
  = 49800.
Proof.
  intros Hn. unfold calc_sma, Backtest.calc_sma, py_last_n, py_sum.
  destruct Hn as [->|[->| ->]]; cbn; rewrite decide_False by lia; lra.
Qed.

Lemma momentum_fair_value :
  0.10 <= estimate_fair_value 50000 (IZR (calc_strike 50000 + STRIKE_INCREMENT))
            (calc_volatility (mkCandle 0 50000 50125 49875 49800 1000 3599999))
            (60 - 0) <= 0.15.
Proof.
  assert (Hk : calc_strike 50000 = 50000%Z).
  { unfold calc_strike, STRIKE_INCREMENT. rewrite (Zfloor_eq 200) by lra. reflexivity. }
  rewrite Hk.
  assert (Hv : calc_volatility (mkCandle 0 50000 50125 49875 49800 1000 3599999) = 0.5).
  { unfold calc_volatility, Backtest.calc_volatility. cbn.
    rewrite decide_False by lra. lra. }
  rewrite Hv. unfold estimate_fair_value, STRIKE_INCREMENT.
  rewrite decide_False by (intros [?|?]; lra).
  assert (Hs : sqrt (py_max (60 - 0) 0.5 / 60) = 1).
  { unfold py_max. rewrite decide_False by lra.
    replace ((60 - 0) / 60) with 1 by lra. apply sqrt_1. }
  rewrite Hs. rewrite decide_False by lra.
  replace ((50000 - IZR (50000 + 250)) / (50000 * (0.5 / 100) * 1)) with (-1).
  2:{ rewrite plus_IZR. lra. }
  rewrite normal_cdf_neg by lra. replace (- -1) with 1 by lra.
  pose proof normal_cdf_1_bounds as Hb.
  rewrite normal_cdf_nonneg in Hb by lra.
  unfold py_max, py_min. repeat case_decide; lra.
Qed.

Lemma momentum_window_fires :
  is_Some (check_all_signals
             (replicate 12 (mkCandle 0 50000 50125 49875 49800 1000 3599999))
             50000 0).
Proof.
  unfold check_all_signals.
  rewrite decide_False by (unfold MIN_TIME_REMAINING; lra).
  rewrite decide_False by (cbn; lia).
  rewrite !momentum_sma by tauto.
  rewrite decide_False by (intros [?|[?|?]]; lra).
  change (py_neg 1 (replicate 12 ?c)) with (Some c). cbn [mbind option_bind].
  assert (Hpick : pick_signal
            (replicate 12 (mkCandle 0 50000 50125 49875 49800 1000 3599999)) 50000
            (bool_decide (49800 > 49800)
             || bool_decide (49800 > 0)
                && bool_decide ((49800 - 49800) / 49800 < SMA_LOOSENESS))
            (bool_decide (49800 > 49800)
             || bool_decide (49800 > 0)
                && bool_decide ((49800 - 49800) / 49800 < SMA_LOOSENESS))
          = Some ROLLING_MOMENTUM).
  { unfold pick_signal, SMA_LOOSENESS, ROLLING_MIN_RETURN.
    rewrite (bool_decide_eq_false_2 (49800 > 49800)) by lra.
    rewrite (bool_decide_eq_true_2 (49800 > 0)) by lra.
    rewrite (bool_decide_eq_true_2 (_ < 0.003)) by lra.
    assert (Hr : calc_rolling_return
              (replicate 12 (mkCandle 0 50000 50125 49875 49800 1000 3599999)) 50000 1
              = (50000 - 49800) / 49800 * 100).
    { unfold calc_rolling_return. rewrite decide_False by (cbn; lia).
      change (py_neg (1 + 1) (replicate 12 ?c)) with (Some c). cbn.
      rewrite decide_False by lra. done. }
    rewrite Hr. rewrite bool_decide_eq_true_2 by lra. done. }
  rewrite Hpick. cbn [mbind option_bind].
  pose proof momentum_fair_value as Hfv.
  set (fv := estimate_fair_value _ _ _ _) in *.
  unfold PROB_LO, PROB_HI, MAX_ENTRY_PRICE, POSITION_SIZE.
  rewrite decide_False by (intros [?|?]; lra).
  pose proof (Zfloor_bound (fv * 100)) as Hfl.
  assert (Hfl10 : (10 <= Zfloor (fv * 100))%Z).
  { apply Zfloor_lub. lra. }
  apply IZR_le in Hfl10.
  set (entry := py_min 0.25 _).
  assert (He : 0.10 <= entry <= 0.25).
  { subst entry. unfold py_min. case_decide; lra. }
  rewrite decide_False by lra.
  assert (Hcn : (80 <= Zfloor (20 / entry))%Z).
  { apply Zfloor_lub. apply Rmult_le_reg_r with entry; [lra|].
    unfold Rdiv. rewrite Rmult_assoc, Rinv_l by lra. nra. }
  rewrite decide_False by lia. by eexists.
Qed.
(** X18: a tuple returned by [check_all_signals] comes from at least
    twelve candles before minute 45, at a positive price and volatility;
    its strike is the next multiple of 250 strictly above the price; its
    fair value lies in [[0.05, 0.45]]; its entry price lies in
    [[0.05, 0.25]] and is at most the fair value; and its contract count,
    between 80 and 400, is the largest whose cost fits the 20 dollar
    position. *)
Theorem check_all_signals_guarantees
    (candles : list Candle) (current_price entry_minute : R) (sig : Signal) :
  check_all_signals candles current_price entry_minute = Some sig ->
  signal_ok candles current_price entry_minute sig.
Proof. apply check_all_signals_ok. Qed.

Lemma check_all_signals_guarantees_witness :
  exists sig,
    check_all_signals
      (replicate 12 (mkCandle 0 50000 50125 49875 49800 1000 3599999)) 50000 0
    = Some sig
    /\ signal_ok
         (replicate 12 (mkCandle 0 50000 50125 49875 49800 1000 3599999)) 50000 0
         sig.
Proof.
  destruct momentum_window_fires as [sig Hsig]. exists sig.
  split; [exact Hsig|].
  exact (check_all_signals_guarantees _ _ _ _ Hsig).
Defined.

End CombinedSignals.

(** ** backtest_combined.py: trades and the yearly run *)

Section CombinedTrades.
Import BacktestCombined BacktestCombinedEngine CombinedFacts.

Lemma combined_pnl_settle c e x :
  calc_net_pnl c e x "settlement" TAKER_FEE_PCT = c * x - c * e * 1.015.
Proof.
  unfold calc_net_pnl, TAKER_FEE_PCT. rewrite decide_False by done. lra.
Qed.

Lemma combined_pnl_early c e x :
  calc_net_pnl c e x "early" TAKER_FEE_PCT = c * x * 0.985 - c * e * 1.015.
Proof.
  unfold calc_net_pnl, TAKER_FEE_PCT. rewrite decide_True by done. lra.
Qed.

(** What a returned tuple of [simulate_trade] satisfies, with the two
    settlement PnLs in closed form over the reals. *)
Lemma combined_trade_result G entry strike contracts candle vol rng minute
    use_exit rt pnl adj rng' :
  0 <= contracts -> 0 <= entry ->
  simulate_trade G entry strike contracts candle vol rng minute use_exit
  = Some (rt, pnl, adj, rng') ->
  - (contracts * entry * 1.015) <= pnl <= contracts * (1 - entry * 1.015)
  /\ 0.01 <= adj
  /\ (rt = early_exit -> use_exit = true /\ 0 < pnl)
  /\ (rt = win ->
      fst (rng_random G rng) < adj /\ pnl = contracts * (1 - entry * 1.015))
  /\ (rt = loss ->
      adj <= fst (rng_random G rng) /\ pnl = - (contracts * entry * 1.015)).
Proof.
  intros Hc He. unfold simulate_trade.
  destruct (apply_pinning_discount _ _ _ _) as [a|] eqn:Hadj; [|done].
  cbn [mbind option_bind].
  assert (Ha : 0.01 <= a).
  { unfold apply_pinning_discount in Hadj.
    destruct (pin_discount _ _ _); [|done]. cbn in Hadj.
    injection Hadj as <-. apply py_max_ge_l. }
  destruct (rng_random G rng) as [u rng1]. cbn [fst].
  destruct use_exit.
  - destruct (rng_gauss G 0 _ rng1) as [mid_move rng2].
    set (mid_fv := estimate_fair_value _ _ _ 30).
    pose proof (estimate_fair_value_unit (c_open candle + mid_move) (IZR strike)
                  vol 30) as Hmid. fold mid_fv in Hmid.
    rewrite !combined_pnl_settle, combined_pnl_early.
    destruct (decide (_ /\ _)) as [[Hev Hpos]|Hno].
    + intros [= <- <- <- <-]. repeat split; try done; try nra.
    + destruct (bool_decide (u < a)) eqn:Hwon; intros [= <- <- <- <-];
        [apply bool_decide_eq_true_1 in Hwon|apply bool_decide_eq_false_1 in Hwon];
        repeat split; try done; try nra; try lra.
  - destruct (rng_gauss G 0 1 rng1) as [x rng2].
    rewrite !combined_pnl_settle.
    destruct (bool_decide (u < a)) eqn:Hwon; intros [= <- <- <- <-];
      [apply bool_decide_eq_true_1 in Hwon|apply bool_decide_eq_false_1 in Hwon];
      repeat split; try done; try nra; try lra.
Qed.

Lemma combined_trade_is_Some G entry strike contracts candle vol rng minute
    use_exit :
  c_open candle <> 0 ->
  is_Some (simulate_trade G entry strike contracts candle vol rng minute use_exit).
Proof.
  intros Hopen. unfold simulate_trade, apply_pinning_discount.
  destruct (pin_discount (c_open candle) strike (60 - minute)) as [d|] eqn:Hd.
  - cbn [mbind option_bind]. destruct (rng_random G rng) as [u rng1].
    destruct use_exit.
    + destruct (rng_gauss G 0 _ rng1) as [m rng2].
      destruct (decide _); by eexists.
    + destruct (rng_gauss G 0 1 rng1) as [m rng2]. by eexists.
  - apply pin_discount_None in Hd as [Hd _]. done.
Qed.

(** X19: the PnL of a trade simulated by [simulate_trade] for a
    non-negative contract count and entry price lies between the two
    settlement PnLs the function computes with [calc_net_pnl] (exit price
    0.0 and exit price 1.0); the adjusted probability it reports is at
    least 0.01; an early exit happens only with the exit logic on and at a
    profit; and a win or loss at settlement is decided by the first uniform
    draw against the adjusted probability and carries the matching
    settlement PnL. *)
Theorem combined_simulate_trade_result G (entry : R) (strike : Z)
    (contracts : R) (candle : Candle) (vol : R) (rng : rng_state G)
    (minute : R) (use_exit : bool) rt pnl adj rng' :
  0 <= contracts -> 0 <= entry ->
  simulate_trade G entry strike contracts candle vol rng minute use_exit
  = Some (rt, pnl, adj, rng') ->
  calc_net_pnl contracts entry 0.0 "settlement" TAKER_FEE_PCT <= pnl
    <= calc_net_pnl contracts entry 1.0 "settlement" TAKER_FEE_PCT
  /\ 0.01 <= adj
  /\ (rt = early_exit -> use_exit = true /\ 0 < pnl)
  /\ (rt = win ->
      fst (rng_random G rng) < adj
      /\ pnl = calc_net_pnl contracts entry 1.0 "settlement" TAKER_FEE_PCT)
  /\ (rt = loss ->
      adj <= fst (rng_random G rng)
      /\ pnl = calc_net_pnl contracts entry 0.0 "settlement" TAKER_FEE_PCT).
Proof.
  intros Hc He Hres.
  destruct (combined_trade_result G _ _ _ _ _ _ _ _ _ _ _ _ Hc He Hres)
    as (Hb & Ha & Hee & Hw & Hl).
  rewrite !combined_pnl_settle.
  split; [lra|]. split; [done|]. split; [done|].
  split; intros Hrt; [destruct (Hw Hrt)|destruct (Hl Hrt)]; split; lra.
Qed.

Lemma combined_simulate_trade_result_witness :
  exists rt pnl adj rng',
    simulate_trade const_gen 0.10 50250 100
      (mkCandle 0 50000 50100 49800 49900 1000 3599999) 0.6 0%nat 30 false
    = Some (rt, pnl, adj, rng')
    /\ calc_net_pnl 100 0.10 0.0 "settlement" TAKER_FEE_PCT <= pnl
       <= calc_net_pnl 100 0.10 1.0 "settlement" TAKER_FEE_PCT.
Proof.
  destruct (combined_trade_is_Some const_gen 0.10 50250 100
              (mkCandle 0 50000 50100 49800 49900 1000 3599999) 0.6 0%nat 30 false)
    as [[[[rt pnl] adj] rng'] Hres]; [cbn; intros H0; lra|].
  exists rt, pnl, adj, rng'. split; [exact Hres|].
  apply (combined_simulate_trade_result const_gen 0.10 50250 100
           (mkCandle 0 50000 50100 49800 49900 1000 3599999) 0.6 0%nat 30 false
           rt pnl adj rng'); [lra|lra|exact Hres].
Defined.

Lemma y_record_keeps G (st : YState G) i rt pnl rng' :
  ystate_inv i st -> (13 <= i)%nat -> ~ y_bankroll st < 10 -> -20.3 <= pnl ->
  ystate_inv (S i) (y_record st i rt pnl rng').
Proof.
  intros (Hwl & Hw & Hl & Hee & Htr & Hlast & Hb & Hpb & Htp & Hpp & Hmb & Hm100
          & Hdd & Hdd' & Hmin & Hruin) Hi Hok Hpnl.
  assert (Hr : y_ruin_hit st = false).
  { destruct (y_ruin_hit st); [|done]. exfalso. by apply Hok, Hruin. }
  unfold ystate_inv, y_record. cbv zeta.
  cbn [y_rng y_bankroll y_peak_bank y_min_bank y_max_dd y_peak_pnl y_total_pnl
       y_trades y_wins y_losses y_early_exits y_ruin_hit y_last_trade_hour].
  rewrite Hr.
  destruct (bool_decide (pnl >= 0)) eqn:Hwin;
    repeat match goal with
           | |- context [decide ?P] => destruct (decide P)
           end;
    repeat split; try lia; try lra; try done.
Qed.

Lemma ystate_inv_next G (st : YState G) i :
  ystate_inv i st -> ystate_inv (S i) st.
Proof.
  unfold ystate_inv. intros H. repeat split; try apply H; try lia.
  all: destruct H as (?&?&?&?&?&?&_); lia.
Qed.

Lemma y_set_ruin_keeps G (st : YState G) i :
  ystate_inv i st -> y_bankroll st < POSITION_SIZE * 0.5 ->
  ystate_inv (S i) (y_set_ruin st).
Proof.
  intros H Hlow. apply ystate_inv_next in H. unfold POSITION_SIZE in Hlow.
  unfold ystate_inv, y_set_ruin in *.
  cbn [y_rng y_bankroll y_peak_bank y_min_bank y_max_dd y_peak_pnl y_total_pnl
       y_trades y_wins y_losses y_early_exits y_ruin_hit y_last_trade_hour].
  repeat split; try apply H. intros _. lra.
Qed.

Lemma year_step_inv G candles use_exit (st : YState G) i :
  (13 <= i < length candles)%nat -> ystate_inv i st ->
  exists st',
    year_step G candles use_exit st i = Some st' /\ ystate_inv (S i) st'.
Proof.
  intros Hi Hinv.
  destruct (lookup_lt_is_Some_2 candles i ltac:(lia)) as [candle Hc].
  unfold year_step. rewrite Hc. cbn [mbind option_bind].
  destruct (decide (_ < 1)%Z) as [|_];
    [exists st; split; [done|by apply ystate_inv_next]|].
  destruct (decide (y_bankroll st < POSITION_SIZE * 0.5)) as [Hlow|Hok].
  { exists (y_set_ruin st). split; [done|by apply y_set_ruin_keeps]. }
  destruct (check_all_signals _ _ _) as [sig|] eqn:Hsig;
    [|exists st; split; [done|by apply ystate_inv_next]].
  apply check_all_signals_ok in Hsig.
  destruct Hsig as (_ & _ & Hprice & _ & _ & _ & _ & He & _ & Hcn & Hcost & _).
  destruct (combined_trade_is_Some G (sig_entry_price sig) (sig_strike sig)
              (IZR (sig_contracts sig)) candle (sig_vol sig) (y_rng st) 30 use_exit)
    as [[[[rt pnl] adj] rng'] Hres]; [lra|].
  rewrite Hres. cbn [mbind option_bind].
  exists (y_record st i rt pnl rng'). split; [done|].
  assert (Hc0 : 0 <= IZR (sig_contracts sig)) by (apply IZR_le; lia).
  assert (He0 : 0 <= sig_entry_price sig) by lra.
  destruct (combined_trade_result G _ _ _ _ _ _ _ _ _ _ _ _ Hc0 He0 Hres)
    as [[Hlo _] _].
  apply y_record_keeps; [done|lia| |nra].
  unfold POSITION_SIZE in Hok. lra.
Qed.

Lemma year_loop_inv G candles use_exit a n (st : YState G) :
  (13 <= a)%nat -> (a + n <= length candles)%nat -> ystate_inv a st ->
  exists st',
    foldl (λ acc i, acc ≫= λ st, year_step G candles use_exit st i)
      (Some st) (seq a n) = Some st'
    /\ ystate_inv (a + n) st'.
Proof.
  revert a st. induction n as [|n IH]; intros a st Ha Hlen Hinv.
  - exists st. cbn. split; [done|]. by replace (a + 0)%nat with a by lia.
  - destruct (year_step_inv G candles use_exit st a ltac:(lia) Hinv)
      as (st1 & Hstep & Hinv1).
    destruct (IH (S a) st1 ltac:(lia) ltac:(lia) Hinv1) as (st' & Hloop & Hinv').
    exists st'. cbn [seq foldl mbind option_bind]. rewrite Hstep.
    split; [exact Hloop|]. by replace (a + S n)%nat with (S a + n)%nat by lia.
Qed.

Lemma ystate_init_inv G rng : ystate_inv 13 (ystate_init G rng).
Proof.
  unfold ystate_inv, ystate_init. cbn.
  repeat split; try lia; try lra; try done.
Qed.

(** X20: [run_year] finishes on every candle path, for every generator,
    seed and exit setting, and its report is consistent: wins plus losses
    are the trades, at most one trade per candle from index 13 on, the
    early exits are among the trades, the final bankroll lies between the
    minimum and the peak bankroll, the peak bankroll is at least 100, the
    minimum bankroll is at most 100 and never below -10.30 (a trade is
    entered only with 10 dollars or more and costs at most 20.30), the
    drawdown is not negative, and a raised ruin flag means a final
    bankroll below 10. *)
Theorem run_year_report G (candles : list Candle) (seed : Z) (use_exit : bool) :
  exists res,
    run_year G candles seed use_exit = Some res
    /\ (yr_wins res + yr_losses res)%Z = yr_trades res
    /\ (0 <= yr_trades res <= Z.of_nat (length candles - 13))%Z
    /\ (0 <= yr_early_exits res <= yr_trades res)%Z
    /\ yr_min_bankroll res <= yr_final_bankroll res <= yr_peak_bankroll res
    /\ 100 <= yr_peak_bankroll res
    /\ -10.3 <= yr_min_bankroll res <= 100
    /\ 0 <= yr_max_dd res
    /\ (yr_ruin_hit res = true -> yr_final_bankroll res < 10).
Proof.
  unfold run_year.
  destruct (decide (13 <= length candles)%nat) as [Hlen|Hshort].
  - destruct (year_loop_inv G candles use_exit 13 (length candles - 13)
                (ystate_init G (rng_seed G seed)) ltac:(lia) ltac:(lia)
                (ystate_init_inv G _)) as (st & -> & Hinv).
    replace (13 + (length candles - 13))%nat with (length candles) in Hinv by lia.
    destruct Hinv as (Hwl & Hw & Hl & Hee & Htr & Hlast & Hb & Hpb & Htp & Hpp
                      & Hmb & Hm100 & Hdd & Hdd' & Hmin & Hruin).
    exists (year_result st). split; [done|].
    unfold year_result. cbn. repeat split; try lia; try lra. exact Hruin.
  - replace (length candles - 13)%nat with 0%nat by lia. cbn.
    eexists. split; [reflexivity|]. cbn. repeat split; try lia; try lra; done.
Qed.

End CombinedTrades.

(** ** experiment_timed_exit.py: the exit variants *)

Section TimedExit.
Import BacktestCombined ExperimentTimedExit.

(** X21: the pinning discount of experiment_timed_exit.py and the one of
    backtest_combined.py, which also caps the result at the fair value,
    return the same number (or fail together) on every input. *)
Theorem apply_pinning_discount_agree
    (fair_value btc_price : R) (strike : Z) (mins_remaining : R) :
  apply_pinning_discount fair_value btc_price strike mins_remaining
  = BacktestCombinedEngine.apply_pinning_discount fair_value btc_price strike
      mins_remaining.
Proof.
  unfold apply_pinning_discount, BacktestCombinedEngine.apply_pinning_discount.
  destruct (BacktestCombinedEngine.pin_discount _ _ _) as [d|] eqn:Hd; [|done].
  cbn [mbind option_bind]. f_equal.
  apply pin_discount_range in Hd.
  replace (fair_value * (1 - d)) with (fair_value - fair_value * d) by ring.
  assert (Hprod : (0 <= fair_value -> 0 <= fair_value * d <= 0.375 * fair_value)
                  /\ (fair_value < 0 ->
                      0.375 * fair_value <= fair_value * d <= 0.03 * fair_value))
    by (split; intros; split; nra).
  destruct Hprod as [Hpos Hneg].
  set (x := fair_value * d) in *.
  unfold py_min.
  destruct (Rle_dec 0 fair_value) as [H0|H0];
    [specialize (Hpos H0); clear Hneg
    |specialize (Hneg ltac:(lra)); clear Hpos];
    (destruct (decide (fair_value < fair_value - x)); unfold py_max;
     repeat match goal with
            | |- context [decide ?P] => destruct (decide P)
            end; lra).
Qed.

Lemma timed_pnl_early c e x :
  calc_net_pnl c e x "early" = c * x * 0.985 - c * e * 1.015.
Proof. unfold calc_net_pnl. rewrite decide_True by done. lra. Qed.

Lemma timed_pnl_settle c e x :
  calc_net_pnl c e x "settlement" = c * x - c * e * 1.015.
Proof. unfold calc_net_pnl. rewrite decide_False by done. lra. Qed.

Ltac string_decides :=
  repeat match goal with
         | |- context [@decide (?a = ?b) ?d] =>
             first [ rewrite (@decide_True _ (a = b) d) by reflexivity
                   | rewrite (@decide_False _ (a = b) d) by discriminate ]
         end.

Ltac split_props :=
  repeat match goal with
         | H : _ /\ _ |- _ => destruct H
         | H : ~ (_ /\ _) |- _ => apply not_and_l in H; destruct H
         end.

Ltac bool_cases :=
  repeat (case_bool_decide; cbn [andb fst]);
  try done; split_props; lra.

Lemma exit_decision_baseline v m e s l d g :
  v ∈ VARIANTS ->
  (exit_decision "baseline" m e s l d g).1 = true ->
  (exit_decision v m e s l d g).1 = true.
Proof.
  intros Hv. unfold VARIANTS in Hv.
  repeat (apply elem_of_cons in Hv as [->|Hv]); [..|by apply elem_of_nil in Hv];
    unfold exit_decision; string_decides; bool_cases.
Qed.

Lemma exit_decision_aggressive v m e s l d g :
  (exit_decision v m e s l d g).1 = true ->
  (exit_decision "aggressive_combined" m e s l d g).1 = true.
Proof.
  unfold exit_decision; string_decides.
  repeat match goal with
         | |- context [decide (v = ?b)] => destruct (decide (v = b))
         end; bool_cases.
Qed.

Lemma exit_decision_shorter m e s l d g :
  ((exit_decision "10m_profit" m e s l d g).1 = true ->
   (exit_decision "15m_profit" m e s l d g).1 = true)
  /\ ((exit_decision "10m_momentum" m e s l d g).1 = true ->
      (exit_decision "15m_momentum" m e s l d g).1 = true).
Proof. split; unfold exit_decision; string_decides; bool_cases. Qed.

Lemma exit_decision_unknown v m e s l d g :
  v ∉ VARIANTS -> exit_decision v m e s l d g = (false, ""%string).
Proof.
  intros Hv. unfold VARIANTS in Hv. rewrite !not_elem_of_cons in Hv.
  destruct Hv as (?&?&?&?&?&?&?&?&_).
  unfold exit_decision.
  repeat match goal with
         | |- context [decide (v = ?b)] =>
             rewrite (decide_False (P := v = b)) by done
         end.
  done.
Qed.

Lemma exit_decision_beats_loss v m e s l d g :
  l <= 0 -> (exit_decision v m e s l d g).1 = true -> e > l.
Proof.
  intros Hl. unfold exit_decision.
  repeat match goal with
         | |- context [decide (v = ?b)] => destruct (decide (v = b))
         end; bool_cases.
Qed.

Lemma should_exit_true v minute price strike e c vol mom reason :
  should_exit v minute price strike e c vol mom = Some (true, reason) ->
  exists adj,
    minute < 60
    /\ apply_pinning_discount
         (estimate_fair_value price (IZR strike) vol (60 - minute))
         price strike (60 - minute) = Some adj
    /\ exit_decision v (60 - minute)
         (calc_net_pnl c e (estimate_fair_value price (IZR strike) vol (60 - minute))
            "early")
         (adj * calc_net_pnl c e 1.0 "settlement"
          + (1 - adj) * calc_net_pnl c e 0.0 "settlement")
         (calc_net_pnl c e 0.0 "settlement")
         (price - IZR strike)
         (if decide (e > 0)
          then (estimate_fair_value price (IZR strike) vol (60 - minute) - e) / e * 100
          else 0)
       = (true, reason).
Proof.
  unfold should_exit. destruct (decide (60 - minute <= 0)); [done|].
  destruct (apply_pinning_discount _ _ _ _) as [adj|]; [|done].
  cbn [mbind option_bind]. intros [= H]. exists adj. split; [lra|done].
Qed.

Lemma should_exit_lift (f g : string) minute price strike e c vol mom :
  (forall m x s l d p,
     (exit_decision f m x s l d p).1 = true ->
     (exit_decision g m x s l d p).1 = true) ->
  (exists r, should_exit f minute price strike e c vol mom = Some (true, r)) ->
  exists r, should_exit g minute price strike e c vol mom = Some (true, r).
Proof.
  intros Hfg [r Hr]. apply should_exit_true in Hr as (adj & Hmin & Hadj & Hdec).
  unfold should_exit. rewrite decide_False by lra. rewrite Hadj.
  cbn [mbind option_bind].
  match goal with
  | |- exists r, Some ?x = _ => destruct x as [b r'] eqn:Hx
  end.
  exists r'. f_equal. f_equal.
  eapply (f_equal fst) in Hdec. apply Hfg in Hdec.
  cbn [fst] in Hdec. rewrite Hx in Hdec. done.
Qed.

(** X22: the exit variants are nested.  At any minute and price, whenever
    the baseline rule exits, each of the eight variants exits, and whenever
    one of them exits, the aggressive_combined rule exits too. *)
Theorem should_exit_nesting (variant : string) (minute btc_price : R)
    (strike : Z) (entry_price contracts vol entry_momentum : R) :
  variant ∈ VARIANTS ->
  ((exists r, should_exit "baseline" minute btc_price strike entry_price
                contracts vol entry_momentum = Some (true, r)) ->
   exists r, should_exit variant minute btc_price strike entry_price
               contracts vol entry_momentum = Some (true, r))
  /\ ((exists r, should_exit variant minute btc_price strike entry_price
                   contracts vol entry_momentum = Some (true, r)) ->
      exists r, should_exit "aggressive_combined" minute btc_price strike
                  entry_price contracts vol entry_momentum = Some (true, r)).
Proof.
  intros Hv. split; apply should_exit_lift; intros m x s l d p.
  - by apply exit_decision_baseline.
  - apply exit_decision_aggressive.
Qed.

Lemma should_exit_nesting_witness :
  ((exists r, should_exit "baseline" 56 50100 50000 0.10 100 0 0
              = Some (true, r)) ->
   exists r, should_exit "combined" 56 50100 50000 0.10 100 0 0
             = Some (true, r))
  /\ ((exists r, should_exit "combined" 56 50100 50000 0.10 100 0 0
                 = Some (true, r)) ->
      exists r, should_exit "aggressive_combined" 56 50100 50000 0.10 100 0 0
                = Some (true, r)).
Proof.
  apply (should_exit_nesting "combined" 56 50100 50000 0.10 100 0 0).
  unfold VARIANTS.
  repeat (apply elem_of_cons; first [left; reflexivity|right]).
Defined.

Lemma should_exit_above_loss (variant : string) (minute btc_price : R)
    (strike : Z) (entry_price contracts vol entry_momentum : R)
    (reason : string) :
  0 <= contracts -> 0 <= entry_price ->
  should_exit variant minute btc_price strike entry_price contracts vol
    entry_momentum = Some (true, reason) ->
  let fv := estimate_fair_value btc_price (IZR strike) vol (60 - minute) in
  minute < 60
  /\ variant ∈ VARIANTS
  /\ calc_net_pnl contracts entry_price fv "early"
     > calc_net_pnl contracts entry_price 0.0 "settlement"
  /\ 0 < contracts /\ 0 < fv.
Proof.
  intros Hc He Hexit fv.
  apply should_exit_true in Hexit as (adj & Hmin & Hadj & Hdec). fold fv in Hdec.
  split; [exact Hmin|]. split.
  { destruct (decide (variant ∈ VARIANTS)) as [|Hv]; [done|].
    rewrite (exit_decision_unknown _ _ _ _ _ _ _ Hv) in Hdec. done. }
  assert (Hbeat : calc_net_pnl contracts entry_price fv "early"
                  > calc_net_pnl contracts entry_price 0.0 "settlement").
  { eapply exit_decision_beats_loss; [|by rewrite Hdec].
    rewrite timed_pnl_settle. nra. }
  split; [exact Hbeat|].
  rewrite timed_pnl_early, timed_pnl_settle in Hbeat.
  pose proof (estimate_fair_value_unit btc_price (IZR strike) vol (60 - minute))
    as Hfv. change (0 <= fv <= 1) in Hfv.
  assert (Hcf : 0 < contracts * fv) by lra.
  split.
  - destruct (Rle_lt_dec contracts 0) as [Hle|Hlt]; [|exact Hlt].
    assert (Hz : contracts = 0) by lra. rewrite Hz, Rmult_0_l in Hcf. lra.
  - destruct (Rle_lt_dec fv 0) as [Hle|Hlt]; [|exact Hlt].
    assert (Hz : fv = 0) by lra. rewrite Hz, Rmult_0_r in Hcf. lra.
Qed.

(** X23: with a non-negative contract count and entry price, an exit is
    signalled only before minute 60, only by one of the eight variants, and
    only when the resale is worth strictly more than a settlement loss, so
    only for a positive fair value and at least some contracts. *)
Theorem should_exit_beats_loss (variant : string) (minute btc_price : R)
    (strike : Z) (entry_price contracts vol entry_momentum : R)
    (reason : string) :
  0 <= contracts -> 0 <= entry_price ->
  should_exit variant minute btc_price strike entry_price contracts vol
    entry_momentum = Some (true, reason) ->
  let fv := estimate_fair_value btc_price (IZR strike) vol (60 - minute) in
  minute < 60
  /\ variant ∈ VARIANTS
  /\ calc_net_pnl contracts entry_price fv "early"
     > calc_net_pnl contracts entry_price 0.0 "settlement"
  /\ 0 < contracts /\ 0 < fv.
Proof. apply should_exit_above_loss. Qed.

Lemma baseline_exit_example :
  should_exit "baseline" 56 50100 50000 0.10 100 0 0 = Some (true, "EV exit"%string).
Proof.
  unfold should_exit. rewrite decide_False by lra.
  assert (Hfv : estimate_fair_value 50100 (IZR 50000) 0 (60 - 56) = 1.0).
  { unfold estimate_fair_value, BacktestCombined.estimate_fair_value.
    rewrite decide_True by (left; lra). by rewrite decide_True by lra. }
  rewrite Hfv.
  assert (Hadj : apply_pinning_discount 1.0 50100 50000 (60 - 56)
                 = Some (py_max 0.01 (1.0 * (1 - (0.15 + 0.05) * 1.5)))).
  { unfold apply_pinning_discount, BacktestCombinedEngine.pin_discount.
    rewrite (decide_False (P := 50100 - IZR 50000 < 0)) by lra.
    rewrite (decide_True (P := 50100 - IZR 50000 < 200)) by lra.
    cbn [mbind option_bind].
    rewrite (decide_True (P := (50000 mod 1000 = 0)%Z)) by reflexivity.
    by rewrite (decide_True (P := 60 - 56 < 15)) by lra. }
  rewrite Hadj. cbn [mbind option_bind]. f_equal.
  unfold exit_decision. string_decides.
  rewrite timed_pnl_early, !timed_pnl_settle.
  rewrite bool_decide_eq_true_2; [done|].
  unfold py_max. destruct (decide (_ > _)); lra.
Qed.

Lemma should_exit_beats_loss_witness :
  56 < 60
  /\ "baseline"%string ∈ VARIANTS
  /\ calc_net_pnl 100 0.10 (estimate_fair_value 50100 (IZR 50000) 0 (60 - 56))
       "early"
     > calc_net_pnl 100 0.10 0.0 "settlement"
  /\ 0 < 100
  /\ 0 < estimate_fair_value 50100 (IZR 50000) 0 (60 - 56).
Proof.
  apply (should_exit_beats_loss "baseline" 56 50100 50000 0.10 100 0 0
           "EV exit"); [lra|lra|].
  exact baseline_exit_example.
Defined.

(** ** experiment_timed_exit.py: a trade on a minute path *)

Lemma exit_loop_early v em prices strike e c vol mom ms r :
  exit_loop v em prices strike e c vol mom ms = Some (inl r) ->
  exists m btc_now reason,
    m ∈ ms
    /\ prices !! m = Some btc_now
    /\ should_exit v (IZR (em + Z.of_nat m)) btc_now strike e c vol mom
       = Some (true, reason)
    /\ r = mkTradeExit "early_exit"
             (calc_net_pnl c e
                (estimate_fair_value btc_now (IZR strike) vol
                   (60 - IZR (em + Z.of_nat m))) "early")
             reason (em + Z.of_nat m).
Proof.
  induction ms as [|m ms IH]; [done|]. cbn [exit_loop].
  destruct (prices !! m) as [btc_now|] eqn:Hp; [|done]. cbn [mbind option_bind].
  destruct (should_exit _ _ _ _ _ _ _ _) as [[should reason]|] eqn:Hs; [|done].
  cbn [mbind option_bind]. destruct should.
  - intros [= <-]. exists m, btc_now, reason.
    split; [apply elem_of_cons; by left|done].
  - intros Hrest. destruct (IH Hrest) as (m' & b & rs & Hm & H).
    exists m', b, rs. split; [apply elem_of_cons; by right|done].
Qed.

(** X24: what [simulate_trade_with_exits] returns for a non-negative
    contract count and entry price.  An early exit happens strictly between
    the entry minute and minute 60, only under one of the eight variants,
    and its PnL is strictly above the settlement loss and at most what
    [calc_net_pnl] gives for an early exit at price 1.0; otherwise the
    trade settles at minute 60 as a win or a loss, with the PnL
    [calc_net_pnl] gives at settlement for exit price 1.0 or 0.0. *)
Theorem simulate_trade_with_exits_result (G : RandomGen) (entry_price : R)
    (strike : Z) (contracts vol entry_momentum : R) (variant : string)
    (rng : rng_state G) (entry_minute : Z) (r : TradeExit)
    (rng' : rng_state G) :
  0 <= contracts -> 0 <= entry_price ->
  simulate_trade_with_exits G entry_price strike contracts vol entry_momentum
    variant rng entry_minute = Some (r, rng') ->
  (te_outcome r = "early_exit"%string
   /\ (entry_minute < te_exit_minute r < 60)%Z
   /\ variant ∈ VARIANTS
   /\ calc_net_pnl contracts entry_price 0.0 "settlement" < te_pnl r
      <= calc_net_pnl contracts entry_price 1.0 "early")
  \/ (te_outcome r = "win"%string
      /\ te_exit_minute r = 60%Z
      /\ te_pnl r = calc_net_pnl contracts entry_price 1.0 "settlement")
  \/ (te_outcome r = "loss"%string
      /\ te_exit_minute r = 60%Z
      /\ te_pnl r = calc_net_pnl contracts entry_price 0.0 "settlement").
Proof.
  intros Hc He. unfold simulate_trade_with_exits.
  destruct (decide (_ < 0)); [done|].
  destruct (if decide (_ > 0) then _ else _) as [btc_entry rng1].
  destruct (simulate_minute_path G btc_entry vol rng1 _) as [prices rng2].
  destruct (exit_loop _ _ _ _ _ _ _ _ _) as [[early|[]]|] eqn:Hloop; [| |done];
    cbn [mbind option_bind].
  - intros [= <- <-]. left.
    apply exit_loop_early in Hloop as (m & btc_now & reason & Hm & _ & Hs & ->).
    apply elem_of_seq in Hm.
    pose proof (should_exit_above_loss _ _ _ _ _ _ _ _ _ Hc He Hs)
      as (Hmin & Hv & Hbeat & _ & _).
    cbn [te_outcome te_exit_minute te_pnl].
    apply lt_IZR in Hmin.
    split; [done|]. split; [lia|]. split; [done|].
    rewrite timed_pnl_early, timed_pnl_settle in Hbeat.
    rewrite !timed_pnl_early, timed_pnl_settle.
    pose proof (estimate_fair_value_unit btc_now (IZR strike) vol
                  (60 - IZR (entry_minute + Z.of_nat m))) as Hfv.
    set (fv := estimate_fair_value _ _ _ _) in *.
    change (BacktestCombined.estimate_fair_value btc_now (IZR strike) vol
              (60 - IZR (entry_minute + Z.of_nat m))) with fv in Hfv.
    split; nra.
  - destruct (last prices) as [settle_price|]; [|done]. cbn [mbind option_bind].
    destruct (apply_pinning_discount _ _ _ _) as [adj|]; [|done].
    cbn [mbind option_bind].
    destruct (rng_random G rng2) as [u rng3].
    destruct (decide (u < adj)); intros [= <- <-]; [right; left|right; right];
      cbn [te_outcome te_exit_minute te_pnl]; done.
Qed.

Lemma zero_vol_below_strike (p : R) (strike : Z) (m : R) :
  p <= IZR strike -> estimate_fair_value p (IZR strike) 0 m = 0.0.
Proof.
  intros Hp. unfold estimate_fair_value, BacktestCombined.estimate_fair_value.
  rewrite decide_True by (left; lra). by rewrite decide_False by lra.
Qed.

Lemma pinned_zero (p : R) (strike : Z) (m : R) :
  p <> 0 -> apply_pinning_discount 0.0 p strike m = Some 0.01.
Proof.
  intros Hp. unfold apply_pinning_discount.
  destruct (BacktestCombinedEngine.pin_discount p strike m) as [d|] eqn:Hd.
  - cbn [mbind option_bind]. f_equal. unfold py_max.
    destruct (decide _); lra.
  - apply pin_discount_None in Hd as [Hd _]. done.
Qed.

Lemma no_exit_below_strike :
  should_exit "baseline" (IZR (58 + Z.of_nat 1)) (IZR 50000 - 100) 50000 0.10 100 0 0
  = Some (false, ""%string).
Proof.
  unfold should_exit. change (58 + Z.of_nat 1)%Z with 59%Z.
  rewrite decide_False by lra.
  rewrite zero_vol_below_strike by lra.
  rewrite pinned_zero by lra. cbn [mbind option_bind]. f_equal.
  unfold exit_decision.
  rewrite (decide_True (P := "baseline"%string = "baseline"%string)) by done.
  rewrite timed_pnl_early, !timed_pnl_settle.
  rewrite bool_decide_eq_false_2 by lra.
  rewrite bool_decide_eq_false_2 by lra. done.
Qed.

(** A trade entered at minute 58 on a flat path 100 below the strike: the
    exit test of minute 59 does not fire and the trade settles as a loss. *)
Lemma held_to_loss :
  simulate_trade_with_exits const_gen 0.10 50000 100 0 0 "baseline" 0%nat 58
  = Some (mkTradeExit "loss" (calc_net_pnl 100 0.10 0.0 "settlement")
            "settlement loss" 60, 3%nat).
Proof.
  unfold simulate_trade_with_exits.
  change (60 - 58)%Z with 2%Z.
  rewrite decide_False by lra.
  match goal with
  | |- context [decide (?x > 0)] => rewrite (decide_False (P := x > 0)) by lra
  end.
  change (simulate_minute_path const_gen (IZR 50000 - 100) 0 0%nat 2)
    with ([IZR 50000 - 100; (IZR 50000 - 100) * (1 + 0);
           (IZR 50000 - 100) * (1 + 0) * (1 + 0)], 2%nat).
  change (seq 1 (Z.to_nat 2 - 1)) with [1%nat].
  cbn [exit_loop lookup list_lookup mbind option_bind].
  replace ((IZR 50000 - 100) * (1 + 0)) with (IZR 50000 - 100) by lra.
  rewrite no_exit_below_strike. cbn [mbind option_bind last].
  replace ((IZR 50000 - 100) * (1 + 0)) with (IZR 50000 - 100) by lra.
  rewrite zero_vol_below_strike by lra.
  rewrite pinned_zero by lra. cbn [mbind option_bind rng_random const_gen].
  rewrite decide_False by lra. reflexivity.
Qed.

Lemma simulate_trade_with_exits_result_witness :
  exists r rng',
    simulate_trade_with_exits const_gen 0.10 50000 100 0 0 "baseline" 0%nat 58
    = Some (r, rng')
    /\ te_outcome r = "loss"%string
    /\ te_exit_minute r = 60%Z
    /\ te_pnl r = calc_net_pnl 100 0.10 0.0 "settlement".
Proof.
  exists (mkTradeExit "loss" (calc_net_pnl 100 0.10 0.0 "settlement")
            "settlement loss" 60), 3%nat.
  split; [exact held_to_loss|].
  assert (Hc : 0 <= 100) by lra. assert (He : 0 <= 0.10) by lra.
  destruct (simulate_trade_with_exits_result const_gen 0.10 50000 100 0 0
              "baseline" 0%nat 58
              (mkTradeExit "loss" (calc_net_pnl 100 0.10 0.0 "settlement")
                 "settlement loss" 60) 3%nat Hc He held_to_loss)
    as [(H & _)|[(H & _)|H]]; [discriminate H|discriminate H|exact H].
Defined.

End TimedExit.

(** ** experiment_timed_exit.py: multi-candle volatility *)

Section TimedVolatility.
Import ExperimentTimedExit.

Lemma range_pct_pos c : c_open c > 0 -> c_high c > c_low c -> 0 < range_pct c.
Proof.
  intros Ho Hr. unfold range_pct.
  apply Rmult_lt_0_compat; [|lra].
  apply Rdiv_lt_0_compat; lra.
Qed.

Lemma range_pct_nonneg c : 0 <= c_open c -> c_low c <= c_high c -> 0 <= range_pct c.
Proof.
  intros Ho Hr. unfold range_pct.
  destruct (Req_dec (c_open c) 0) as [->|Hne].
  - unfold Rdiv. rewrite Rinv_0. lra.
  - apply Rmult_le_pos; [|lra].
    apply Rmult_le_pos; [lra|]. left. apply Rinv_0_lt_compat. lra.
Qed.

Lemma live_ranges_acc (l : list Candle) (t : R) (n : nat) :
  0 <= t -> ((0 < n)%nat -> 0 < t) ->
  let '(t', n') :=
    foldl (λ '(total, count) c,
             if decide (c_open c > 0 /\ c_high c > c_low c)
             then (total + range_pct c, S count)
             else (total, count)) (t, n) l in
  0 <= t' /\ ((0 < n')%nat -> 0 < t') /\ (n <= n')%nat
  /\ (Exists (λ c, c_open c > 0 /\ c_high c > c_low c) l -> (0 < n')%nat).
Proof.
  revert t n. induction l as [|c l IH]; intros t n Ht Hn.
  - cbn. repeat split; [done|done|lia|]. intros H. by apply Exists_nil in H.
  - cbn [foldl]. destruct (decide (c_open c > 0 /\ c_high c > c_low c)) as [[Ho Hr]|Hdead].
    + pose proof (range_pct_pos c Ho Hr) as Hpos.
      specialize (IH (t + range_pct c) (S n) ltac:(lra) ltac:(intros _; lra)).
      destruct (foldl _ _ l) as [t' n'].
      destruct IH as (H1 & H2 & H3 & H4). repeat split; [done|done|lia|].
      intros _. lia.
    + specialize (IH t n Ht Hn). destruct (foldl _ _ l) as [t' n'].
      destruct IH as (H1 & H2 & H3 & H4). repeat split; [done|done|lia|].
      intros H. apply Exists_cons in H as [H|H]; [done|by apply H4].
Qed.

(** X25: on candles with a non-negative open and a high not below the low,
    [calc_volatility_multi] is not negative, and it is strictly positive as
    soon as one of the last six completed candles has a positive open and a
    high above its low. *)
Theorem calc_volatility_multi_sign (candles : list Candle) :
  Forall (λ c, 0 <= c_open c /\ c_low c <= c_high c) candles ->
  0 <= calc_volatility_multi candles
  /\ (Exists (λ c, c_open c > 0 /\ c_high c > c_low c)
        (py_last_n 6 (take (length candles - 1) candles)) ->
      0 < calc_volatility_multi candles).
Proof.
  intros Hok.
  assert (Hlast : 0 <= match py_neg 1 candles with
                       | None => 0
                       | Some c => if decide (c_open c = 0) then 0 else range_pct c
                       end).
  { destruct (py_neg 1 candles) as [c|] eqn:Hc; [|lra].
    destruct (decide (c_open c = 0)); [lra|].
    unfold py_neg in Hc. destruct (decide _) in Hc; [|done].
    apply list_elem_of_lookup_2 in Hc.
    rewrite Forall_forall in Hok. destruct (Hok c Hc).
    by apply range_pct_nonneg. }
  unfold calc_volatility_multi.
  destruct (decide (length candles < 2)%nat) as [Hshort|Hlong].
  - split; [exact Hlast|]. intros Hex. exfalso.
    assert (Hnil : take (length candles - 1) candles = []).
    { destruct candles as [|c [|c' rest]]; [done|done|cbn in Hshort; lia]. }
    rewrite Hnil in Hex. unfold py_last_n in Hex. cbn in Hex.
    by apply Exists_nil in Hex.
  - pose proof (live_ranges_acc (py_last_n 6 (take (length candles - 1) candles))
                  0 0%nat ltac:(lra) ltac:(lia)) as Hacc.
    unfold live_ranges.
    destruct (foldl _ _ _) as [total count].
    destruct Hacc as (Ht & Hpos & _ & Hex).
    destruct (decide (count = 0%nat)) as [->|Hcount].
    + split; [exact Hlast|]. intros H. apply Hex in H. lia.
    + assert (0 < INR count) by (apply lt_0_INR; lia).
      specialize (Hpos ltac:(lia)).
      assert (0 < total / INR count) by (apply Rdiv_lt_0_compat; lra).
      split; [lra|done].
Qed.

Lemma calc_volatility_multi_sign_witness :
  0 < calc_volatility_multi
        (replicate 3 (mkCandle 0 50000 50125 49875 49800 1000 3599999)).
Proof.
  apply (calc_volatility_multi_sign
           (replicate 3 (mkCandle 0 50000 50125 49875 49800 1000 3599999))).
  - repeat constructor; cbn; lra.
  - apply Exists_cons_hd. cbn. lra.
Defined.

End TimedVolatility.

(** ** backtest_interwindow.py: drawdown and Sharpe ratio *)

Section InterwindowStatistics.
Import BacktestInterwindow InterwindowSweep.

Lemma drawdown_fold_nonneg (l : list R) (p m : R) :
  0 <= m -> 0 <= (foldl drawdown_step (p, m) l).2.
Proof.
  revert p m. induction l as [|v l IH]; intros p m Hm; [done|].
  cbn [foldl drawdown_step]. apply IH.
  destruct (decide (_ > m)); lra.
Qed.

Lemma drawdown_fold_positive (l : list R) (p m : R) :
  Forall (λ v, 0 < v) l -> 0 < p -> m < 1 ->
  (foldl drawdown_step (p, m) l).2 < 1.
Proof.
  revert p m. induction l as [|v l IH]; intros p m Hl Hp Hm; [done|].
  apply Forall_cons in Hl as [Hv Hl].
  cbn [foldl drawdown_step].
  set (p' := if decide (v > p) then v else p).
  assert (Hp' : 0 < p' /\ v <= p') by (subst p'; destruct (decide (v > p)); lra).
  destruct Hp' as [Hp0 Hvp]. clearbody p'.
  apply IH; [done|lra|].
  rewrite !(decide_True (P := p' <> 0)) by lra. rewrite Rabs_pos_eq by lra.
  assert (Hdd : (p' - v) / p' < 1).
  { apply Rmult_lt_reg_r with p'; [lra|].
    unfold Rdiv. rewrite Rmult_assoc, Rinv_l by lra. lra. }
  destruct (decide (_ > m)); lra.
Qed.

Lemma drawdown_fold_zero_peak (l : list R) :
  Forall (λ v, v <= 0) l -> foldl drawdown_step (0, 0.0) l = (0, 0.0).
Proof.
  induction l as [|v l IH]; intros Hl; [done|].
  apply Forall_cons in Hl as [Hv Hl].
  cbn [foldl drawdown_step].
  rewrite (decide_False (P := v > 0)) by lra.
  rewrite (decide_False (P := 0 <> 0)) by (intros H; by apply H).
  rewrite (decide_False (P := 0 > 0.0)) by lra.
  by apply IH.
Qed.

(** X26: [max_drawdown] is never negative; on a curve of positive values
    it stays below 1; and on a curve that starts at 0 and never rises
    above 0, as the equity of a sweep whose trades all lose, it is 0: a
    drop below a peak of 0 is not counted. *)
Theorem max_drawdown_range (equity_curve : list R) :
  0 <= max_drawdown equity_curve
  /\ (Forall (λ v, 0 < v) equity_curve -> max_drawdown equity_curve < 1)
  /\ (Forall (λ v, v <= 0) equity_curve ->
      max_drawdown (0.0 :: equity_curve) = 0).
Proof.
  split; [|split].
  - destruct equity_curve as [|v0 l]; [cbn; lra|].
    unfold max_drawdown. apply drawdown_fold_nonneg. lra.
  - intros Hpos. destruct equity_curve as [|v0 l]; [cbn; lra|].
    unfold max_drawdown. apply drawdown_fold_positive; [done| |lra].
    by apply Forall_cons in Hpos as [? _].
  - intros Hneg. unfold max_drawdown.
    replace 0.0 with 0 by lra.
    assert (Hall : Forall (λ v, v <= 0) (0 :: equity_curve))
      by (apply Forall_cons; split; [lra|done]).
    replace (0, 0) with (0, 0.0) by (f_equal; lra).
    rewrite (drawdown_fold_zero_peak _ Hall). cbn. lra.
Qed.

Lemma max_drawdown_range_witness : max_drawdown (0.0 :: [-15; -30]) = 0.
Proof.
  apply (proj2 (proj2 (max_drawdown_range [-15; -30]))).
  repeat constructor; lra.
Defined.

Lemma py_sum_replicate n c : py_sum (replicate n c) = INR n * c.
Proof.
  induction n as [|n IH]; [cbn; lra|].
  cbn [replicate]. rewrite py_sum_cons, IH, S_INR. lra.
Qed.

Lemma py_sum_scale k xs : py_sum ((λ x, k * x) <$> xs) = k * py_sum xs.
Proof.
  induction xs as [|x xs IH]; [cbn; lra|].
  cbn [fmap list_fmap]. rewrite !py_sum_cons.
  change (list_fmap _ _ ?f xs) with (f <$> xs). rewrite IH. lra.
Qed.

Lemma py_sum_squares_nonneg m xs :
  0 <= py_sum ((λ x, (x - m) * (x - m)) <$> xs).
Proof.
  induction xs as [|x xs IH]; [cbn; lra|].
  cbn [fmap list_fmap]. rewrite py_sum_cons.
  change (list_fmap _ _ ?f xs) with (f <$> xs) in *.
  pose proof (Rle_0_sqr (x - m)) as Hsq. unfold Rsqr in Hsq. lra.
Qed.

Lemma py_sum_squares_scale k m xs :
  py_sum ((λ x, (x - k * m) * (x - k * m)) <$> ((λ x, k * x) <$> xs))
  = k * k * py_sum ((λ x, (x - m) * (x - m)) <$> xs).
Proof.
  induction xs as [|x xs IH]; [cbn; lra|].
  cbn [fmap list_fmap]. rewrite !py_sum_cons.
  change (list_fmap _ _ ?f ?l) with (f <$> l) in *. rewrite IH. lra.
Qed.

Lemma mean_scale k xs : mean ((λ x, k * x) <$> xs) = k * mean xs.
Proof.
  unfold mean. rewrite py_sum_scale, length_fmap. unfold Rdiv. lra.
Qed.

Lemma stdev_nonneg xs : 0 <= stdev xs.
Proof. unfold stdev. apply sqrt_pos. Qed.

Lemma stdev_scale k xs :
  0 < k -> stdev ((λ x, k * x) <$> xs) = k * stdev xs.
Proof.
  intros Hk. unfold stdev. rewrite mean_scale, py_sum_squares_scale, length_fmap.
  set (S := py_sum _). set (d := INR _).
  replace (k * k * S / d) with (k * k * (S / d)) by (unfold Rdiv; lra).
  rewrite sqrt_mult_alt by nra.
  rewrite sqrt_square by lra. done.
Qed.

Lemma stdev_replicate n c : stdev (replicate n c) = 0.
Proof.
  destruct n as [|n]; [unfold stdev; cbn; unfold Rdiv; rewrite Rmult_0_l; apply sqrt_0|].
  unfold stdev, mean. rewrite py_sum_replicate, length_replicate.
  assert (Hn : 0 < INR (S n)) by (apply lt_0_INR; lia).
  replace (INR (S n) * c / INR (S n)) with c
    by (unfold Rdiv; rewrite Rmult_comm, <- Rmult_assoc, Rinv_l by lra; lra).
  rewrite fmap_replicate, py_sum_replicate.
  replace (INR (S n) * ((c - c) * (c - c)) / INR (S n - 1)) with 0
    by (unfold Rdiv; ring).
  apply sqrt_0.
Qed.

(** X27: the Sharpe ratio of [sharpe] is 0 for returns that are all equal
    (a sweep that wins every trade scores 0), and it has the sign of the
    mean of the returns: not negative when the mean is not negative, not
    positive when the mean is not positive. *)
Theorem sharpe_properties (returns : list R) :
  (forall n c, sharpe (replicate n c) = 0)
  /\ (0 <= mean returns -> 0 <= sharpe returns)
  /\ (mean returns <= 0 -> sharpe returns <= 0).
Proof.
  assert (Hsign : forall s : R,
            s = stdev returns -> s <> 0 -> 0 < / s /\ 0 < sqrt (96 * 252)).
  { intros s -> Hs. pose proof (stdev_nonneg returns).
    split; [apply Rinv_0_lt_compat; lra|apply sqrt_lt_R0; lra]. }
  split; [|split].
  - intros n c. unfold sharpe. destruct (decide _); [lra|].
    rewrite stdev_replicate. rewrite decide_True by done. lra.
  - intros Hmean. unfold sharpe. destruct (decide _) as [|Hlen]; [lra|].
    destruct (decide (stdev returns = 0)) as [|Hs]; [lra|].
    destruct (Hsign _ eq_refl Hs) as (H1 & H2).
    apply Rmult_le_pos; [|lra]. apply Rmult_le_pos; [done|lra].
  - intros Hmean. unfold sharpe. destruct (decide _) as [|Hlen]; [lra|].
    destruct (decide (stdev returns = 0)) as [|Hs]; [lra|].
    destruct (Hsign _ eq_refl Hs) as (H1 & H2).
    assert (Hneg : 0 <= - mean returns * / stdev returns * sqrt (96 * 252)).
    { apply Rmult_le_pos; [|lra]. apply Rmult_le_pos; lra. }
    unfold Rdiv. lra.
Qed.

Lemma sharpe_properties_witness :
  0 <= mean [79.05; -15; 79.05] /\ 0 <= sharpe [79.05; -15; 79.05].
Proof.
  assert (Hmean : 0 <= mean [79.05; -15; 79.05]).
  { unfold mean, py_sum. cbn. lra. }
  split; [exact Hmean|].
  exact (proj1 (proj2 (sharpe_properties [79.05; -15; 79.05])) Hmean).
Defined.

End InterwindowStatistics.

(** ** backtest_interwindow.py: the parameter sweep *)

Section InterwindowSweepRuns.
Import BacktestInterwindow InterwindowSweep SweepFacts.

Lemma sweep_fold_None {A} (f : SweepState -> A -> option SweepState) (l : list A) :
  foldl (λ acc i, acc ≫= λ st, f st i) None l = None.
Proof. induction l as [|i l IH]; [done|]. cbn. exact IH. Qed.

Lemma sweep_step_inv windows regimes th dir rf st i n st' :
  sweep_inv n st ->
  sweep_step windows regimes th dir rf st i = Some st' ->
  sweep_inv (S n) st'.
Proof.
  intros (Htc & Hret & Hrun & Hsr & Hst & Hsum). unfold sweep_step.
  destruct (windows !! (i - 1)%nat) as [prev_w|]; [|done].
  destruct (windows !! i) as [curr_w|]; [|done]. cbn [mbind option_bind].
  destruct (decide (_ <> _)%Z).
  { intros [= <-]. unfold sweep_inv. repeat split; try done; lia. }
  destruct (decide (rf <> _ /\ _)).
  { intros [= <-]. unfold sweep_inv. cbn. repeat split; try done; lia. }
  destruct (decide (w_open prev_w = 0)); [done|].
  destruct (decide (w_open curr_w = 0)); [done|].
  destruct (decide (Rabs _ < th)).
  { intros [= <-]. unfold sweep_inv. cbn. repeat split; try done; lia. }
  intros [= <-]. unfold sweep_inv. cbn.
  set (pnl := if bool_decide _ then _ else _).
  assert (Hpnl : pnl = 79.05 \/ pnl = -15)
    by (subst pnl; destruct (bool_decide _); [left|right]; lra).
  rewrite !length_app. cbn [length].
  repeat split; try done; try lia; try lra.
  apply Forall_app. split; [done|]. by apply Forall_singleton.
Qed.

Lemma sweep_step_fails windows regimes th dir rf st i :
  (1 <= i < length windows)%nat ->
  sweep_step windows regimes th dir rf st i = None ->
  exists w, w ∈ windows /\ w_open w = 0.
Proof.
  intros Hi. unfold sweep_step.
  destruct (lookup_lt_is_Some_2 windows (i - 1)) as [prev_w Hp]; [lia|].
  destruct (lookup_lt_is_Some_2 windows i) as [curr_w Hc]; [lia|].
  rewrite Hp, Hc. cbn [mbind option_bind].
  destruct (decide (_ <> _)%Z); [done|].
  destruct (decide (rf <> _ /\ _)); [done|].
  destruct (decide (w_open prev_w = 0)) as [H0|_].
  { intros _. exists prev_w. split; [by eapply list_elem_of_lookup_2|done]. }
  destruct (decide (w_open curr_w = 0)) as [H0|_].
  { intros _. exists curr_w. split; [by eapply list_elem_of_lookup_2|done]. }
  destruct (decide (Rabs _ < th)); done.
Qed.

Lemma sweep_fold_inv windows regimes th dir rf (idxs : list nat) n st :
  Forall (λ i, 1 <= i < length windows)%nat idxs ->
  sweep_inv n st ->
  match foldl (λ acc i, acc ≫= λ st, sweep_step windows regimes th dir rf st i)
          (Some st) idxs with
  | Some st' => sweep_inv (n + length idxs) st'
  | None => exists w, w ∈ windows /\ w_open w = 0
  end.
Proof.
  revert n st. induction idxs as [|i idxs IH]; intros n st His Hinv.
  - cbn. by replace (n + 0)%nat with n by lia.
  - apply Forall_cons in His as [Hi His]. cbn [foldl mbind option_bind].
    destruct (sweep_step windows regimes th dir rf st i) as [st1|] eqn:Hstep.
    + specialize (IH (S n) st1 His (sweep_step_inv _ _ _ _ _ _ _ _ _ Hinv Hstep)).
      cbn [length]. by replace (n + S (length idxs))%nat with (S n + length idxs)%nat by lia.
    + rewrite sweep_fold_None. by eapply sweep_step_fails.
Qed.

Lemma sweep_indices (windows : list Window) :
  Forall (λ i, 1 <= i < length windows)%nat (seq 1 (length windows - 1)).
Proof. apply Forall_forall. intros i Hi. apply elem_of_seq in Hi. lia. Qed.

Lemma sweep_init_inv : sweep_inv 0 sweep_init.
Proof.
  unfold sweep_inv, sweep_init. cbn. repeat split; try done; try lia.
Qed.

Lemma sweep_loop_inv windows regimes th dir rf :
  match sweep_loop windows regimes th dir rf with
  | Some st => sweep_inv (length windows - 1) st
  | None => exists w, w ∈ windows /\ w_open w = 0
  end.
Proof.
  unfold sweep_loop.
  pose proof (sweep_fold_inv windows regimes th dir rf _ 0 sweep_init
                (sweep_indices windows) sweep_init_inv) as H.
  by rewrite length_seq in H.
Qed.

Lemma sweep_step_mirror windows regimes th rf sc sm i :
  mirrored sc sm ->
  match sweep_step windows regimes th "continuation" rf sc i,
        sweep_step windows regimes th "mean_reversion" rf sm i with
  | Some sc', Some sm' => mirrored sc' sm'
  | None, None => True
  | _, _ => False
  end.
Proof.
  intros (Htc & Hsr & Hst & Hret). unfold sweep_step.
  destruct (windows !! (i - 1)%nat) as [prev_w|]; [|done].
  destruct (windows !! i) as [curr_w|]; [|done]. cbn [mbind option_bind].
  destruct (decide (_ <> _)%Z); [done|].
  destruct (decide (rf <> _ /\ _)).
  { unfold mirrored. cbn. repeat split; try done; congruence. }
  destruct (decide (w_open prev_w = 0)); [done|].
  destruct (decide (w_open curr_w = 0)); [done|].
  destruct (decide (Rabs _ < th)).
  { unfold mirrored. cbn. repeat split; try done; congruence. }
  rewrite (decide_True (P := "continuation"%string = "continuation"%string)) by done.
  rewrite (decide_False (P := "mean_reversion"%string = "continuation"%string)) by done.
  unfold mirrored. cbn.
  destruct (bool_decide (_ > 0)), (bool_decide (_ > 0)); cbn;
    repeat match goal with
           | |- context [bool_decide (?a = ?b)] =>
               first [ rewrite (bool_decide_eq_true_2 (a = b)) by done
                     | rewrite (bool_decide_eq_false_2 (a = b)) by done ]
           end;
    (split; [congruence|]); (split; [done|]); (split; [done|]);
    (apply Forall2_app; [done|]; apply Forall2_cons;
     split; [first [left; split; lra|right; split; lra]|constructor]).
Qed.

Lemma sweep_fold_mirror windows regimes th rf (idxs : list nat) sc sm :
  mirrored sc sm ->
  match foldl (λ acc i, acc ≫= λ st,
                 sweep_step windows regimes th "continuation" rf st i)
          (Some sc) idxs,
        foldl (λ acc i, acc ≫= λ st,
                 sweep_step windows regimes th "mean_reversion" rf st i)
          (Some sm) idxs with
  | Some sc', Some sm' => mirrored sc' sm'
  | None, None => True
  | _, _ => False
  end.
Proof.
  revert sc sm. induction idxs as [|i idxs IH]; intros sc sm Hm; [done|].
  cbn [foldl mbind option_bind].
  pose proof (sweep_step_mirror windows regimes th rf sc sm i Hm) as Hstep.
  destruct (sweep_step _ _ _ "continuation" _ sc i) as [sc1|],
           (sweep_step _ _ _ "mean_reversion" _ sm i) as [sm1|]; try done.
  - by apply IH.
  - by rewrite !sweep_fold_None.
Qed.

(** X28: for the same windows, regimes, threshold and regime filter, the
    continuation and the mean-reversion run of the sweep fail together
    (on a window with an open of 0) or trade exactly the same windows with
    opposite results: equal trade and skip counts, and trade by trade one
    of the two wins 79.05 cents where the other loses 15. *)
Theorem sweep_directions_mirror (windows : list Window) (regimes : list string)
    (threshold : R) (regime_filter : string) :
  match sweep_loop windows regimes threshold "continuation" regime_filter,
        sweep_loop windows regimes threshold "mean_reversion" regime_filter with
  | Some sc, Some sm => mirrored sc sm
  | None, None => exists w, w ∈ windows /\ w_open w = 0
  | _, _ => False
  end.
Proof.
  pose proof (sweep_loop_inv windows regimes threshold "continuation"
                regime_filter) as Hfail.
  assert (Hmirror :
    match sweep_loop windows regimes threshold "continuation" regime_filter,
          sweep_loop windows regimes threshold "mean_reversion" regime_filter with
    | Some sc, Some sm => mirrored sc sm
    | None, None => True
    | _, _ => False
    end).
  { unfold sweep_loop. apply sweep_fold_mirror.
    unfold mirrored, sweep_init. cbn. repeat split; done. }
  destruct (sweep_loop windows regimes threshold "continuation" regime_filter),
           (sweep_loop windows regimes threshold "mean_reversion" regime_filter);
    done.
Qed.

Lemma py_sum_wins (rs : list R) :
  Forall (λ r, r = 79.05 \/ r = -15) rs ->
  py_sum rs = 94.05 * INR (length (filter (λ r, r > 0) rs)) - 15 * INR (length rs).
Proof.
  induction rs as [|r rs IH]; intros Hrs; [cbn; unfold py_sum; cbn; lra|].
  apply Forall_cons in Hrs as [Hr Hrs]. specialize (IH Hrs).
  rewrite py_sum_cons, IH. cbn [length]. rewrite S_INR.
  destruct Hr as [-> | ->].
  - rewrite filter_cons_True by lra. cbn [length]. rewrite S_INR. lra.
  - rewrite filter_cons_False by lra. lra.
Qed.

Lemma combo_result_ok windows regimes combo rs r :
  combo ∈ combos ->
  combo_result windows regimes combo = Some rs -> r ∈ rs ->
  result_ok windows r.
Proof.
  intros Hcombo. destruct combo as [[th dir] rf]. unfold combo_result.
  pose proof (sweep_loop_inv windows regimes th dir rf) as Hinv.
  destruct (sweep_loop windows regimes th dir rf) as [st|]; [|done].
  cbn [mbind option_bind].
  destruct (decide (trade_count st < 5)%Z) as [|Hfive].
  { intros [= <-] Hr. by apply elem_of_nil in Hr. }
  intros [= <-] Hr. apply list_elem_of_singleton in Hr as ->.
  destruct Hinv as (Htc & Hret & Hrun & Hsr & Hst & Hsum).
  assert (Htol : 0 <= 1e-9) by lra.
  unfold result_ok. cbn.
  set (n := length (trade_returns st)) in *.
  set (wins := length (filter (λ r, r > 0) (trade_returns st))).
  assert (Hn : 0 < INR n) by (apply lt_0_INR; lia).
  assert (Hw : 0 <= INR wins <= INR n).
  { split; [apply pos_INR|]. apply le_INR. apply length_filter. }
  assert (Hwr : 0 <= INR wins / INR n <= 1).
  { split.
    - apply Rmult_le_pos; [lra|]. left. by apply Rinv_0_lt_compat.
    - apply Rmult_le_reg_r with (INR n); [done|].
      unfold Rdiv. rewrite Rmult_assoc, Rinv_l by lra. lra. }
  split; [done|]. split; [lia|]. split; [done|]. split; [done|].
  assert (Havg : mean (trade_returns st) = 94.05 * (INR wins / INR n) - 15).
  { unfold mean. rewrite (py_sum_wins _ Hret). fold n wins. field. lra. }
  split; [lia|]. split; [exact Hwr|]. rewrite Havg. split; [lra|]. split.
  - replace (94.05 * (INR wins / INR n) - 15 - (94.05 * (INR wins / INR n) - 15))
      with 0 by lra.
    rewrite Rabs_R0. exact Htol.
  - unfold max_drawdown. destruct (equity st); [lra|].
    apply drawdown_fold_nonneg. lra.
Qed.

Lemma combo_result_length windows regimes combo rs :
  combo_result windows regimes combo = Some rs -> (length rs <= 1)%nat.
Proof.
  destruct combo as [[th dir] rf]. unfold combo_result.
  destruct (sweep_loop _ _ _ _ _) as [st|]; [|done]. cbn [mbind option_bind].
  destruct (decide _); intros [= <-]; cbn; lia.
Qed.

Lemma combo_result_fails windows regimes combo :
  combo_result windows regimes combo = None ->
  exists w, w ∈ windows /\ w_open w = 0.
Proof.
  destruct combo as [[th dir] rf]. unfold combo_result.
  pose proof (sweep_loop_inv windows regimes th dir rf) as Hinv.
  destruct (sweep_loop _ _ _ _ _) as [st|]; [|done]. cbn [mbind option_bind].
  by destruct (decide _).
Qed.

Lemma insert_by_sharpe_Permutation x rs : insert_by_sharpe x rs ≡ₚ x :: rs.
Proof.
  induction rs as [|y rs IH]; [done|]. cbn. case_decide; [done|].
  rewrite IH. apply Permutation_swap.
Qed.

Lemma sort_by_sharpe_Permutation rs : sort_by_sharpe rs ≡ₚ rs.
Proof.
  induction rs as [|x rs IH]; [done|]. cbn.
  by rewrite insert_by_sharpe_Permutation, IH.
Qed.

Lemma insert_by_sharpe_Sorted x rs :
  Sorted (λ a b, sr_sharpe b <= sr_sharpe a) rs ->
  Sorted (λ a b, sr_sharpe b <= sr_sharpe a) (insert_by_sharpe x rs).
Proof.
  induction rs as [|y rs IH]; intros Hs.
  - cbn. by repeat constructor.
  - cbn. destruct (decide (sr_sharpe y <= sr_sharpe x)) as [Hle|Hgt].
    + constructor; [done|]. by constructor.
    + apply Sorted_inv in Hs as [Hs Hhd]. constructor; [by apply IH|].
      destruct rs as [|z rs]; cbn.
      * constructor. lra.
      * destruct (decide (sr_sharpe z <= sr_sharpe x)); constructor; [lra|].
        by apply HdRel_inv in Hhd.
Qed.

Lemma sort_by_sharpe_Sorted rs :
  Sorted (λ a b, sr_sharpe b <= sr_sharpe a) (sort_by_sharpe rs).
Proof.
  induction rs as [|x rs IH]; [constructor|]. cbn.
  by apply insert_by_sharpe_Sorted.
Qed.

Lemma elem_of_concat {A} (x : A) (ls : list (list A)) :
  x ∈ concat ls -> exists l, l ∈ ls /\ x ∈ l.
Proof.
  induction ls as [|l ls IH]; cbn; intros Hx; [by apply elem_of_nil in Hx|].
  apply elem_of_app in Hx as [Hx|Hx].
  - exists l. split; [apply elem_of_cons; by left|done].
  - destruct (IH Hx) as (l' & Hl' & Hx'). exists l'.
    split; [apply elem_of_cons; by right|done].
Qed.

Lemma concat_length_le {A} (ls : list (list A)) :
  Forall (λ l, length l <= 1)%nat ls -> (length (concat ls) <= length ls)%nat.
Proof.
  induction ls as [|l ls IH]; intros H; [done|].
  apply Forall_cons in H as [Hl Hls]. cbn. rewrite length_app.
  specialize (IH Hls). lia.
Qed.

(** X29: [run_interwindow_sweep] fails only when some window has an open
    of 0.  Otherwise it returns at most 24 entries in order of decreasing
    Sharpe ratio, each for one of the swept parameter combinations with at
    least five trades, with trades and skips together no more than the
    window pairs, a win rate between 0 and 1, an average PnL between -15
    and 79.05 cents that is 94.05 times the win rate minus 15 cents up to
    rounding (within [1e-9]), and a non-negative drawdown. *)
Theorem run_interwindow_sweep_report (windows : list Window)
    (regimes : list string) :
  match run_interwindow_sweep windows regimes with
  | Some results =>
      Forall (result_ok windows) results
      /\ Sorted (λ a b, sr_sharpe b <= sr_sharpe a) results
      /\ (length results <= 24)%nat
  | None => exists w, w ∈ windows /\ w_open w = 0
  end.
Proof.
  unfold run_interwindow_sweep.
  destruct (mapM (combo_result windows regimes) combos) as [rss|] eqn:Hmap;
    cbn [mbind option_bind].
  - apply mapM_Some in Hmap.
    split; [|split].
    + apply Forall_forall. intros r Hr.
      rewrite sort_by_sharpe_Permutation in Hr.
      apply elem_of_concat in Hr as (rs & Hrs & Hr).
      apply list_elem_of_lookup_1 in Hrs as [i Hi].
      destruct (Forall2_lookup_r _ _ _ _ _ Hmap Hi) as (combo & Hc & Hres).
      eapply combo_result_ok; [by eapply list_elem_of_lookup_2|done..].
    + apply sort_by_sharpe_Sorted.
    + rewrite sort_by_sharpe_Permutation.
      assert (Hlen : length rss = 24%nat).
      { by rewrite <- (Forall2_length _ _ _ Hmap). }
      rewrite <- Hlen. apply concat_length_le.
      apply Forall_forall. intros rs Hrs.
      apply list_elem_of_lookup_1 in Hrs as [i Hi].
      destruct (Forall2_lookup_r _ _ _ _ _ Hmap Hi) as (combo & Hc & Hres).
      by eapply combo_result_length.
  - apply mapM_None_1 in Hmap.
    apply Exists_exists in Hmap as (combo & _ & Hnone).
    by eapply combo_result_fails.
Qed.

End InterwindowSweepRuns.

(** ** backtest_interwindow.py: order of the windows *)

Section WindowOrder.
Import BacktestInterwindow.

Lemma window_start_range x :
  (window_start x * 1000 <= t x < window_start x * 1000 + 900000)%Z
  /\ (window_start x mod 900 = 0)%Z.
Proof.
  unfold window_start. change (15 * 60)%Z with 900%Z.
  pose proof (Z.div_mod (t x) 1000 ltac:(lia)) as H1.
  pose proof (Z.mod_pos_bound (t x) 1000 ltac:(lia)) as H2.
  pose proof (Z.div_mod (t x / 1000) 900 ltac:(lia)) as H3.
  pose proof (Z.mod_pos_bound (t x / 1000) 900 ltac:(lia)) as H4.
  split; [lia|]. apply Z.mod_mul. lia.
Qed.

Lemma insert_by_t_Sorted x cs :
  Sorted (λ a b, (t a <= t b)%Z) cs ->
  Sorted (λ a b, (t a <= t b)%Z) (insert_by_t x cs).
Proof.
  induction cs as [|y cs IH]; intros Hs.
  - cbn. by repeat constructor.
  - cbn. destruct (decide (t x <= t y)%Z) as [Hle|Hgt].
    + constructor; [done|]. by constructor.
    + apply Sorted_inv in Hs as [Hs Hhd]. constructor; [by apply IH|].
      destruct cs as [|z cs]; cbn.
      * constructor. lia.
      * destruct (decide (t x <= t z)%Z); constructor; [lia|].
        by apply HdRel_inv in Hhd.
Qed.

Lemma sort_by_t_Sorted cs : Sorted (λ a b, (t a <= t b)%Z) (sort_by_t cs).
Proof.
  induction cs as [|x cs IH]; [constructor|]. cbn.
  by apply insert_by_t_Sorted.
Qed.

Lemma strictly_sorted_keys (ks : list Z) :
  Sorted Z.le ks -> NoDup ks -> StronglySorted Z.lt ks.
Proof.
  intros Hs Hnd. apply Sorted_StronglySorted in Hs; [|intros ???; lia].
  induction Hs as [|k ks Hs IH Hall]; [constructor|].
  apply NoDup_cons in Hnd as [Hk Hnd]. constructor; [by apply IH|].
  apply Forall_forall. intros k' Hk'.
  rewrite Forall_forall in Hall. specialize (Hall k' Hk').
  assert (k <> k') by (intros ->; done). lia.
Qed.

Lemma omap_keys_sorted (f : Z -> option Window) (ks : list Z) :
  (forall ws w, f ws = Some w -> w_ts w = ws) ->
  StronglySorted Z.lt ks ->
  StronglySorted Z.lt (w_ts <$> omap f ks).
Proof.
  intros Hf Hs. induction Hs as [|k ks Hs IH Hall]; [constructor|].
  cbn. destruct (f k) as [w|] eqn:Hw; [|exact IH].
  cbn. constructor; [exact IH|].
  apply Forall_forall. intros ts Hts.
  apply list_elem_of_fmap in Hts as (w' & -> & Hw').
  apply list_elem_of_omap in Hw' as (k' & Hk' & Hfk').
  rewrite (Hf _ _ Hw), (Hf _ _ Hfk').
  rewrite Forall_forall in Hall. by apply Hall.
Qed.

(** X30: [group_15min_windows] returns its windows with strictly
    increasing start times, each a multiple of 900 seconds; the three
    candles of a window are in time order, are candles of the input with a
    timestamp inside the quarter hour that starts at the window's [ts], and
    the window's open and close are the open of the first and the close of
    the last of them. *)
Theorem group_15min_windows_ordered (candles : list Candle5) :
  StronglySorted Z.lt (w_ts <$> group_15min_windows candles)
  /\ Forall (λ w,
       (w_ts w mod 900 = 0)%Z
       /\ Sorted (λ a b, (t a <= t b)%Z) (w_candles w)
       /\ Forall (λ x, x ∈ candles
                       /\ (w_ts w * 1000 <= t x < w_ts w * 1000 + 900000)%Z)
            (w_candles w)
       /\ head (o <$> w_candles w) = Some (w_open w)
       /\ last (c <$> w_candles w) = Some (w_close w))
     (group_15min_windows candles).
Proof.
  split.
  - unfold group_15min_windows. apply omap_keys_sorted.
    + intros ws w Hw. by destruct (make_window_Some _ _ _ Hw) as (_ & ? & _).
    + apply strictly_sorted_keys; [apply sorted_keys_sorted|apply sorted_keys_NoDup].
  - apply Forall_forall. intros w Hw. apply elem_of_group in Hw.
    pose proof (make_window_Some _ _ _ Hw) as (Hlen & _ & Hcs).
    assert (Hin : forall x, x ∈ w_candles w ->
              x ∈ candles /\ window_start x = w_ts w).
    { intros x Hx. rewrite Hcs, sort_by_t_Permutation in Hx.
      unfold bucket_of in Hx. by apply list_elem_of_filter in Hx as [? ?]. }
    split; [|split; [|split]].
    + rewrite <- Hcs in Hlen.
      destruct (w_candles w) as [|x rest] eqn:Hw0; [done|].
      destruct (Hin x ltac:(apply elem_of_cons; by left)) as [_ <-].
      apply window_start_range.
    + rewrite Hcs. apply sort_by_t_Sorted.
    + apply Forall_forall. intros x Hx. destruct (Hin x Hx) as [Hxc <-].
      split; [done|apply window_start_range].
    + unfold make_window in Hw.
      destruct (sort_by_t _) as [|c0 [|c1 [|c2 [|? ?]]]]; try done.
      injection Hw as <-. done.
Qed.

End WindowOrder.
